(** * milvus-docker: the validated facade over the Milvus client

    A shallow embedding of [pyfiles/milvus_utils.py] (class
    [MilvusClientInit]) and [validators/milvus_types.py] (the pydantic
    models that check every argument and result), and of the two scripts
    that can be written in the same terms, [scripts/milvus_test.py] and
    [scripts/generate_dataset.py].

    The facade is effectful Python: it calls methods of third-party
    objects, sleeps, logs and raises.  It is embedded as a monad [M] that
    threads the state of the third-party world, records every effect in
    a trace, and carries Python exceptions as a second outcome.  The
    third-party world itself (the Milvus client, its schema and index
    objects, the server behind them) is a parameter of the development:
    an arbitrary response function [respond]. *)

From Stdlib Require Import String Ascii List ZArith QArith Bool Lia.
From ExtLib Require Import Structures.Monad.
Import ListNotations.
Import MonadNotation.
Local Open Scope string_scope.
Local Open Scope list_scope.
Local Open Scope monad_scope.
Set Warnings "-register-all".

(* ===================================================================== *)
(** ** Python values *)
(* ===================================================================== *)

(** The pymilvus classes the two source files name in [isinstance]
    tests. *)
Inductive cls : Type :=
| MilvusClient
| CollectionSchema
| IndexParams
| Function
| SearchResult
| HybridHits
| Hit.

Definition cls_eqb (a b : cls) : bool :=
  match a, b with
  | MilvusClient, MilvusClient
  | CollectionSchema, CollectionSchema
  | IndexParams, IndexParams
  | Function, Function
  | SearchResult, SearchResult
  | HybridHits, HybridHits
  | Hit, Hit => true
  | _, _ => false
  end.

(** The run-time values the facade can be handed: the builtin kinds that
    the unit tests feed it (None, bool, int, float, str, list, set, dict),
    tuples, and instances of the pymilvus classes.  A float is kept as the
    rational its literal denotes ([0.5] is [1 # 2]).  A dict is an
    association list in insertion order.  An object carries its class and
    the items that iterating over it yields. *)
Inductive pyval : Type :=
| PNone
| PBool (b : bool)
| PInt (n : Z)
| PFloat (q : Q)
| PStr (s : string)
| PList (items : list pyval)
| PTuple (items : list pyval)
| PSet (items : list pyval)
| PDict (kv : list (pyval * pyval))
| PObj (c : cls) (items : list pyval).

(** The types that appear as second argument of [isinstance]. *)
Inductive pytype : Type :=
| TStr | TInt | TList | TDict | TCls (c : cls).

(** [isinstance(v, t)].  [bool] is a subclass of [int] in Python.  The
    pymilvus objects are instances of their own class only. *)
Definition isinstance (v : pyval) (t : pytype) : bool :=
  match t, v with
  | TStr, PStr _ => true
  | TInt, PInt _ => true
  | TInt, PBool _ => true
  | TList, PList _ => true
  | TDict, PDict _ => true
  | TCls c, PObj c' _ => cls_eqb c c'
  | _, _ => false
  end.

(** [all(isinstance(item, t) for item in items)]. *)
Definition all_isinstance (items : list pyval) (t : pytype) : bool :=
  forallb (fun item => isinstance item t) items.

(** Which objects can be iterated: a [SearchResult] yields its per-query
    [HybridHits], a [HybridHits] yields its hits. *)
Definition cls_iterable (c : cls) : bool :=
  match c with
  | SearchResult | HybridHits => true
  | _ => false
  end.

Definition chars (s : string) : list pyval :=
  map (fun a => PStr (String a EmptyString)) (list_ascii_of_string s).

(** [iter(v)]: the items a [for] loop over [v] visits, [None] when [v]
    is not iterable (Python raises [TypeError]). *)
Definition py_iter (v : pyval) : option (list pyval) :=
  match v with
  | PList items | PTuple items | PSet items => Some items
  | PDict kv => Some (map fst kv)
  | PStr s => Some (chars s)
  | PObj c items => if cls_iterable c then Some items else None
  | PNone | PBool _ | PInt _ | PFloat _ => None
  end.

(** [x == y] for a string [x]: a [str] equals only an equal [str]. *)
Definition str_eq (s : string) (y : pyval) : bool :=
  match y with
  | PStr t => String.eqb s t
  | _ => false
  end.

(** [name in collections].  The facade evaluates this test only after
    [name] has passed the [str] check of the argument model and
    [collections] the check of [ListCollectionsResults], so [name] is a
    string and [collections] a sequence of strings; the other branches
    are not reached. *)
Definition py_in (name collections : pyval) : bool :=
  match name, py_iter collections with
  | PStr s, Some items => existsb (str_eq s) items
  | _, _ => false
  end.

(* ===================================================================== *)
(** ** Exceptions, effects and the monad *)
(* ===================================================================== *)

(** Exception classes.  [ValidationError] is pydantic's; [TypeError] and
    [ValueError] are raised by the repository's own code; anything else
    comes out of the third-party world under its class name. *)
Inductive exn_kind : Type :=
| TypeError
| ValueError
| ValidationError
| OtherError (class_name : string).

(** What an f-string interpolates: a value, or the type of a value
    ([type(v)]). *)
Inductive fmt_arg : Type :=
| FVal (v : pyval)
| FType (v : pyval).

(** An exception: its class, the text of its message as the source
    writes it (an f-string keeps its braces), and what the f-string
    interpolates. *)
Record exn : Type := Exn {
  ekind : exn_kind;
  etext : string;
  eargs : list fmt_arg
}.

(** The spec's TypeValidationError kind: a wrong argument or result
    shape, detected either by pydantic's own field check or by one of
    the repository's field validators. *)
Definition is_type_validation_error (e : exn) : bool :=
  match ekind e with
  | TypeError | ValidationError => true
  | _ => false
  end.

(** A call into third-party code: a constructor call or a method call
    on a receiver, with positional and keyword arguments. *)
Inductive call : Type :=
| New (c : cls) (kwargs : list (string * pyval))
| Method (recv : pyval) (meth : string) (args : list pyval)
         (kwargs : list (string * pyval)).

Inductive level : Type := Info | Error.

(** What a log message interpolates: as above, or [str(e)] of a caught
    exception. *)
Inductive log_arg : Type :=
| LArg (a : fmt_arg)
| LExn (e : exn).

(** What an operation does to the outside, in order. *)
Inductive event : Type :=
| EvCall (c : call)
| EvSleep (seconds : pyval)
| EvLog (lvl : level) (text : string) (args : list log_arg).

Inductive outcome (A : Type) : Type :=
| Ok (a : A)
| Raise (e : exn).
Arguments Ok {A} a.
Arguments Raise {A} e.

(** The remote calls of a trace, in order. *)
Fixpoint remote_calls (evs : list event) : list call :=
  match evs with
  | [] => []
  | EvCall c :: evs' => c :: remote_calls evs'
  | _ :: evs' => remote_calls evs'
  end.

(** Whether a call invokes the method named [m]. *)
Definition invokes (m : string) (c : call) : bool :=
  match c with
  | Method _ m' _ _ => String.eqb m m'
  | New _ _ => false
  end.

(** The remote calls of a trace that invoke method [m]. *)
Definition calls_to (m : string) (evs : list event) : list call :=
  filter (invokes m) (remote_calls evs).

Definition is_sleep (ev : event) : bool :=
  match ev with EvSleep _ => true | _ => false end.

(* ===================================================================== *)
(** ** The facade object *)
(* ===================================================================== *)

(** The attributes of a [MilvusClientInit] object. *)
Record MilvusClientInit : Type := {
  uri : pyval;
  client : pyval
}.

(* ===================================================================== *)
(** ** The module constants of milvus_utils.py *)
(* ===================================================================== *)

(** The defaults of [milvus_utils.py] that the model can write down.
    ([field_params_list] and [func_bm25] refer to members of pymilvus
    enumerations and are not reproduced.) *)
Module Defaults.

Definition uri : pyval := PStr "http://localhost:19530".

Definition index_params_list : pyval :=
  PList [PDict [(PStr "field_name", PStr "sparse");
                (PStr "index_type", PStr "SPARSE_INVERTED_INDEX");
                (PStr "metric_type", PStr "BM25");
                (PStr "params",
                 PDict [(PStr "inverted_index_algo", PStr "DAAT_MAXSCORE");
                        (PStr "bm25_k1", PInt 3);
                        (PStr "bm25_b", PInt 1)])]].

Definition collection_name : pyval := PStr "collection_ex".

Definition data_ex : pyval :=
  PList [PDict [(PStr "text", PStr "information retrieval is a field of study.")];
         PDict [(PStr "text", PStr "information retrieval focuses on finding relevant information in large datasets.")];
         PDict [(PStr "text", PStr "data mining and information retrieval overlap in research.")];
         PDict [(PStr "text", PStr "the rest of the lyrics go,")];
         PDict [(PStr "text", PStr "Last night I dreamed about")]].

Definition query_list : pyval :=
  PList [PStr "What's the focus of information retrieval?"].

Definition lim_results : pyval := PInt 3.

End Defaults.

(* ===================================================================== *)
(** ** Two concrete third-party worlds *)
(* ===================================================================== *)

(** An in-memory stand-in for a Milvus server, used to run the facade on
    concrete inputs.  Its state is the list of collection names.  The
    server is reachable at the default URI only. *)
Module Fake.

Definition state : Type := list string.

Fixpoint lookup (k : string) (kwargs : list (string * pyval)) : pyval :=
  match kwargs with
  | [] => PNone
  | (k', v) :: rest => if String.eqb k k' then v else lookup k rest
  end.

Definition unreachable : exn :=
  Exn (OtherError "MilvusException") "Fail connecting to server" [].

Definition not_found : exn :=
  Exn (OtherError "MilvusException") "collection not found" [].

Definition one_hit : pyval :=
  PObj SearchResult [PObj HybridHits [PObj Hit []]].

Definition respond (c : call) (st : state) : outcome pyval * state :=
  match c with
  | New MilvusClient kwargs =>
      match lookup "uri" kwargs with
      | PStr u =>
          if String.eqb u "http://localhost:19530"
          then (Ok (PObj MilvusClient []), st)
          else (Raise unreachable, st)
      | _ => (Raise unreachable, st)
      end
  | New _ _ => (Ok PNone, st)
  | Method _ meth _ kwargs =>
      if String.eqb meth "list_collections" then
        (Ok (PList (map PStr st)), st)
      else if String.eqb meth "create_schema" then
        (Ok (PObj CollectionSchema []), st)
      else if String.eqb meth "prepare_index_params" then
        (Ok (PObj IndexParams []), st)
      else if String.eqb meth "create_collection" then
        match lookup "collection_name" kwargs with
        | PStr n => (Ok PNone, st ++ [n])
        | _ => (Raise not_found, st)
        end
      else if String.eqb meth "drop_collection" then
        match lookup "collection_name" kwargs with
        | PStr n => (Ok PNone, filter (fun m => negb (String.eqb n m)) st)
        | _ => (Raise not_found, st)
        end
      else if String.eqb meth "insert" then
        (Ok (PDict [(PStr "insert_count", PInt 5)]), st)
      else if String.eqb meth "delete" then
        (Ok (PDict [(PStr "delete_count", PInt 1)]), st)
      else if String.eqb meth "search" then
        (Ok one_hit, st)
      else (Ok PNone, st)
  end.

(** pydantic's numeric-string parser is not exercised by the examples. *)
Definition int_of_str (s : string) : option Z := None.

(** A facade object that holds a handle to this server. *)
Definition me : MilvusClientInit :=
  {| uri := PStr "http://localhost:19530"; client := PObj MilvusClient [] |}.

(** Two field descriptions and one embedding function to create a
    collection with. *)
Definition fields_ex : pyval :=
  PList [PDict [(PStr "field_name", PStr "id");
                (PStr "is_primary", PBool true);
                (PStr "auto_id", PBool true)];
         PDict [(PStr "field_name", PStr "text");
                (PStr "max_length", PInt 1000);
                (PStr "enable_analyzer", PBool true)]].

Definition funcs_ex : pyval := PList [PObj Function []].

End Fake.

(** A world that answers every call with the value it holds; it plays
    the part of a mock whose [return_value] is set. *)
Module Canned.

Definition respond (c : call) (st : pyval) : outcome pyval * pyval :=
  (Ok st, st).

End Canned.

(** A server that lists the example collection and fails every other
    call: it plays the part of a mock whose [side_effect] is an
    exception. *)
Module Down.

Definition failure : exn :=
  Exn (OtherError "MilvusException") "server is down" [].

Definition respond (c : call) (st : unit) : outcome pyval * unit :=
  match c with
  | Method _ "list_collections" _ _ => (Ok (PList [PStr "collection_ex"]), st)
  | _ => (Raise failure, st)
  end.

End Down.

(** A Faker that always writes the same paragraph and the same sentence;
    its state counts the texts written. *)
Module Lorem.

Definition respond (c : call) (st : nat) : outcome pyval * nat :=
  match c with
  | Method _ "paragraph" _ _ =>
      (Ok (PStr "Lorem ipsum dolor sit amet. Ut enim ad minim. Duis aute."),
       S st)
  | Method _ "sentence" _ _ =>
      (Ok (PStr "Quis nostrud exercitation ullamco."), S st)
  | _ => (Ok PNone, st)
  end.

(** The instance [fake] of the script. *)
Definition fake : pyval := PNone.

(** Division of two small integers, exact. *)
Definition fdiv (a b : Z) : Q := Qred (Qmake a (Z.to_pos b)).

End Lorem.

Section Facade.

(** The state of the third-party world and the way it answers a call.
    Nothing is assumed about either. *)
Variable R : Type.
Variable respond : call -> R -> outcome pyval * R.

(** pydantic's conversion of a numeric string to an [int] in lax mode;
    the parser belongs to pydantic, so it is a parameter. *)
Variable int_of_str : string -> option Z.

(** A computation: from the state of the world to an outcome, the new
    state and the effects performed.  The state and the trace survive a
    raised exception. *)
Definition M (A : Type) : Type := R -> outcome A * R * list event.

Definition M_ret {A} (a : A) : M A := fun st => (Ok a, st, []).

Definition M_bind {A B} (m : M A) (f : A -> M B) : M B :=
  fun st =>
    match m st with
    | (Ok a, st1, t1) =>
        let '(r, st2, t2) := f a st1 in (r, st2, t1 ++ t2)
    | (Raise e, st1, t1) => (Raise e, st1, t1)
    end.

#[local] Instance Monad_M : Monad M :=
  {| ret := @M_ret; bind := @M_bind |}.

Definition raise {A} (e : exn) : M A := fun st => (Raise e, st, []).

Definition emit (ev : event) : M unit := fun st => (Ok tt, st, [ev]).

(** [try: body  except Exception as e: handler(e); raise]. *)
Definition try_except {A} (body : M A) (handler : exn -> M unit) : M A :=
  fun st =>
    match body st with
    | (Ok a, st1, t1) => (Ok a, st1, t1)
    | (Raise e, st1, t1) =>
        let '(r, st2, t2) := handler e st1 in
        (match r with Ok _ => Raise e | Raise e' => Raise e' end,
         st2, t1 ++ t2)
    end.

(** A call into third-party code: the world answers and moves on. *)
Definition remote (c : call) : M pyval :=
  fun st => let '(r, st') := respond c st in (r, st', [EvCall c]).

(** [time.sleep(seconds)]. *)
Definition sleep (seconds : pyval) : M unit := emit (EvSleep seconds).

(** Modelled from the spec: [pyfiles/logger.py] is not among the source
    files.  Section 7 of the spec only says that failures are "logged
    then re-raised", so [logger.info] and [logger.error] are recorded as
    events and have no other effect; the emoji that starts most messages
    is left out of the text. *)
Definition log (lvl : level) (text : string) (args : list log_arg) : M unit :=
  emit (EvLog lvl text args).

(** Modelled from the spec: [with_spinner] comes from the same missing
    module; the spec does not mention it.  It is taken to run its body
    and let exceptions through. *)
Definition with_spinner {A} (description : string) (body : M A) : M A := body.

(** [for x in v: f(x)]. *)
Fixpoint iterate (items : list pyval) (f : pyval -> M unit) : M unit :=
  match items with
  | [] => ret tt
  | x :: rest => f x ;; iterate rest f
  end.

Definition for_each (v : pyval) (f : pyval -> M unit) : M unit :=
  match py_iter v with
  | Some items => iterate items f
  | None => raise (Exn TypeError "object is not iterable" [FType v])
  end.

(* ===================================================================== *)
(** ** pydantic: what a [BaseModel] does with a field *)
(* ===================================================================== *)

(** The field annotations that [milvus_types.py] uses. *)
Inductive annot : Type :=
| AAny
| AStr
| AInt
| ADict
| ANoneType
| AList (a : annot)
| AUnion (a b : annot).

(** The inputs that a [List[...]] field takes in pydantic's default (lax)
    mode: a list, and also a tuple, a set or another iterable that is
    neither a string nor a mapping; pydantic turns them into a list. *)
Definition lax_sequence (v : pyval) : option (list pyval) :=
  match v with
  | PList items | PTuple items | PSet items => Some items
  | PObj c items => if cls_iterable c then Some items else None
  | PNone | PBool _ | PInt _ | PFloat _ | PStr _ | PDict _ => None
  end.

Fixpoint traverse (f : pyval -> option pyval) (items : list pyval)
  : option (list pyval) :=
  match items with
  | [] => Some []
  | x :: rest =>
      match f x, traverse f rest with
      | Some y, Some ys => Some (y :: ys)
      | _, _ => None
      end
  end.

(** A float stands for an integer when its fractional part is zero. *)
Definition float_as_int (q : Q) : option Z :=
  if (Z.rem (Qnum q) (Zpos (Qden q)) =? 0)%Z
  then Some (Z.quot (Qnum q) (Zpos (Qden q)))
  else None.

(** pydantic's own check of a value against the annotation of a field,
    in lax mode, which is the mode the models of [milvus_types.py] run
    in (none of them sets [strict]).  It returns the value handed to the
    field validators, [None] when the field is in error.  [str] takes a
    string; [int] takes an int, a bool, a float without fractional part
    or a numeric string; [dict] takes a dict; a list field takes the
    sequences above and checks every item. *)
Fixpoint core_validate (a : annot) (v : pyval) : option pyval :=
  match a with
  | AAny => Some v
  | AStr => match v with PStr _ => Some v | _ => None end
  | AInt =>
      match v with
      | PInt _ => Some v
      | PBool b => Some (PInt (Z.b2z b))
      | PFloat q => option_map PInt (float_as_int q)
      | PStr s => option_map PInt (int_of_str s)
      | _ => None
      end
  | ADict => match v with PDict _ => Some v | _ => None end
  | ANoneType => match v with PNone => Some v | _ => None end
  | AList a' =>
      match lax_sequence v with
      | Some items => option_map PList (traverse (core_validate a') items)
      | None => None
      end
  | AUnion a1 a2 =>
      match core_validate a1 v with
      | Some v' => Some v'
      | None => core_validate a2 v
      end
  end.

(** One field of a model instantiation: its name, its annotation, the
    value passed for it, and the body of its [@field_validator], which
    pydantic runs (in its default "after" mode) on the value that came
    out of [core_validate]. *)
Record field : Type := Field {
  fname : string;
  fannot : annot;
  fvalue : pyval;
  fafter : pyval -> M unit
}.

(** pydantic's [ValidationError] for a model, naming the fields in
    error. *)
Definition validation_error (model : string) (failed : list pyval) : exn :=
  Exn ValidationError "validation errors for {model}"
      (FVal (PStr model) :: map FVal failed).

(** Instantiating a model: the fields are validated in the order of
    their declaration.  A field that fails pydantic's own check is noted
    and the next fields are still validated; the errors come out together
    as one [ValidationError] at the end.  An exception of another class
    raised by a field validator leaves at once. *)
Fixpoint validate_fields (model : string) (fields : list field)
                         (failed : list pyval) : M unit :=
  match fields with
  | [] =>
      match failed with
      | [] => ret tt
      | _ => raise (validation_error model failed)
      end
  | f :: rest =>
      match core_validate (fannot f) (fvalue f) with
      | Some v => fafter f v ;; validate_fields model rest failed
      | None => validate_fields model rest (failed ++ [PStr (fname f)])
      end
  end.

Definition BaseModel (model : string) (fields : list field) : M unit :=
  validate_fields model fields [].

(* ===================================================================== *)
(** ** validators/milvus_types.py *)
(* ===================================================================== *)

(** The shape every validator of the file has:
    [if not <test>: logger.error(error_message); raise TypeError(error_message)]. *)
Definition require (test : bool) (error_message : string)
                   (args : list fmt_arg) : M unit :=
  if negb test then
    log Error error_message (map LArg args) ;;
    raise (Exn TypeError error_message args)
  else ret tt.

(** [isinstance(v, list)] followed by a test of every item, as in the
    list validators.  [all(...)] over a value that is not iterable does
    not arise: the first test has returned by then. *)
Definition items_of (v : pyval) : list pyval :=
  match py_iter v with Some items => items | None => [] end.

(** *** InitClientParams *)
Definition InitClientParams_validate_uri (v : pyval) : M unit :=
  require (isinstance v TStr)
    "The `uri` argument should be a string, instead got `{type(v)}`."
    [FType v].

Definition InitClientParams (uri : pyval) : M unit :=
  BaseModel "InitClientParams"
    [Field "uri" AStr uri InitClientParams_validate_uri].

(** *** InitClientResults *)
Definition InitClientResults_validate_results (v : pyval) : M unit :=
  require (isinstance v (TCls MilvusClient))
    "The results from the `_init_client` method should be a `MilvusClient`, instead got `{type(v)}`."
    [FType v].

Definition InitClientResults (results : pyval) : M unit :=
  BaseModel "InitClientResults"
    [Field "results" AAny results InitClientResults_validate_results].

(** *** CreateFieldParams *)
Definition CreateFieldParams_validate_collection_schema (v : pyval) : M unit :=
  require (isinstance v (TCls CollectionSchema))
    "The argument `schema` should be a `CollectionSchema`, instead got `{type(v)}`."
    [FType v].

Definition CreateFieldParams_validate_params (v : pyval) : M unit :=
  require (isinstance v TDict)
    "The argument `params` should be a dictionary, instead got `{type(v)}`."
    [FType v].

Definition CreateFieldParams (collection_schema params : pyval) : M unit :=
  BaseModel "CreateFieldParams"
    [Field "collection_schema" AAny collection_schema
           CreateFieldParams_validate_collection_schema;
     Field "params" ADict params CreateFieldParams_validate_params].

(** *** CreateIndexParams *)
Definition CreateIndexParams_validate_index_params (v : pyval) : M unit :=
  require (isinstance v (TCls IndexParams))
    "The `index_params` argument should be an `IndexParams`, instead got {type(v)}."
    [FType v].

Definition CreateIndexParams_validate_params (v : pyval) : M unit :=
  require (isinstance v TDict)
    "The `params` argument should be an dictionary, instead got {type(v)}."
    [FType v].

Definition CreateIndexParams (index_params params : pyval) : M unit :=
  BaseModel "CreateIndexParams"
    [Field "index_params" AAny index_params
           CreateIndexParams_validate_index_params;
     Field "params" ADict params CreateIndexParams_validate_params].

(** *** ListCollectionsResults *)
Definition ListCollectionsResults_validate_results (v : pyval) : M unit :=
  require (isinstance v TList)
    "The results from the `list_collections` method should be a List[str | None], instead got {type(v)}."
    [FType v] ;;
  require (all_isinstance (items_of v) TStr)
    "Each item in the collections list should be a string." [].

Definition ListCollectionsResults (results : pyval) : M unit :=
  BaseModel "ListCollectionsResults"
    [Field "results" (AList (AUnion AStr ANoneType)) results
           ListCollectionsResults_validate_results].

(** *** CreateCollectionParams *)
Definition CreateCollectionParams_validate_name (v : pyval) : M unit :=
  require (isinstance v TStr)
    "The `name` argument should be a string, instead got {type(v)}."
    [FType v].

Definition CreateCollectionParams_validate_field_params_list (v : pyval)
  : M unit :=
  require (isinstance v TList)
    "The `field_params_list` argument should be a List[dict], instead got {type(v)}."
    [FType v] ;;
  require (all_isinstance (items_of v) TDict)
    "Each item in `field_params_list` should be a dictionary." [].

Definition CreateCollectionParams_validate_func_list (v : pyval) : M unit :=
  require (isinstance v TList)
    "The `func_list` argument should be a `List[Function]`, instead got {type(v)}."
    [FType v] ;;
  require (all_isinstance (items_of v) (TCls Function))
    "Each item in `func_list` should be a Function." [].

Definition CreateCollectionParams_validate_index_params_list (v : pyval)
  : M unit :=
  require (isinstance v TList)
    "The `index_params_list` argument should be a List[dict], instead got {type(v)}."
    [FType v] ;;
  require (all_isinstance (items_of v) TDict)
    "Each item in `index_params_list` should be a dictionary." [].

Definition CreateCollectionParams
  (name field_params_list func_list index_params_list : pyval) : M unit :=
  BaseModel "CreateCollectionParams"
    [Field "name" AStr name CreateCollectionParams_validate_name;
     Field "field_params_list" (AList ADict) field_params_list
           CreateCollectionParams_validate_field_params_list;
     Field "func_list" (AList AAny) func_list
           CreateCollectionParams_validate_func_list;
     Field "index_params_list" (AList ADict) index_params_list
           CreateCollectionParams_validate_index_params_list].

(** *** DropCollectionParams *)
Definition DropCollectionParams_validate_name (v : pyval) : M unit :=
  require (isinstance v TStr)
    "The `name` argument should be a string, instead got {type(v)}."
    [FType v].

Definition DropCollectionParams (name : pyval) : M unit :=
  BaseModel "DropCollectionParams"
    [Field "name" AStr name DropCollectionParams_validate_name].

(** *** InsertParams *)
Definition InsertParams_validate_name (v : pyval) : M unit :=
  require (isinstance v TStr)
    "The `name` argument should be a string, instead got {type(v)}."
    [FType v].

Definition InsertParams_validate_data (v : pyval) : M unit :=
  require (isinstance v TList)
    "The `data` argument should be a `List[dict]`, instead got {type(v)}."
    [FType v] ;;
  require (all_isinstance (items_of v) TDict)
    "Each item in `data` should be a dictionary." [].

Definition InsertParams (name data : pyval) : M unit :=
  BaseModel "InsertParams"
    [Field "name" AStr name InsertParams_validate_name;
     Field "data" (AList ADict) data InsertParams_validate_data].

(** *** InsertResults *)
Definition InsertResults_validate_results (v : pyval) : M unit :=
  require (isinstance v TDict)
    "Results from the `insert` method should be a dictionary, instead got {type(v)}."
    [FType v].

Definition InsertResults (results : pyval) : M unit :=
  BaseModel "InsertResults"
    [Field "results" ADict results InsertResults_validate_results].

(** *** DeleteParams *)
Definition DeleteParams_validate_name (v : pyval) : M unit :=
  require (isinstance v TStr)
    "The `name` argument should be a string, instead got {type(v)}."
    [FType v].

Definition DeleteParams_validate_data (v : pyval) : M unit :=
  require (isinstance v TList)
    "The `data` argument should be a `List[str]`, instead got {type(v)}."
    [FType v] ;;
  require (all_isinstance (items_of v) TStr)
    "Each item in `data` should be a string." [].

Definition DeleteParams (name ids : pyval) : M unit :=
  BaseModel "DeleteParams"
    [Field "name" AStr name DeleteParams_validate_name;
     Field "ids" (AList AStr) ids DeleteParams_validate_data].

(** *** FullTextSearchParams *)
Definition FullTextSearchParams_validate_name (v : pyval) : M unit :=
  require (isinstance v TStr)
    "The `name` argument should be a string, instead got {type(v)}."
    [FType v].

Definition FullTextSearchParams_validate_query_list (v : pyval) : M unit :=
  require (isinstance v TList)
    "The `query_list` argument should be a `List[str]`, instead got {type(v)}."
    [FType v] ;;
  require (all_isinstance (items_of v) TStr)
    "Each item in `query_list` should be a string." [].

Definition FullTextSearchParams_validate_limit (v : pyval) : M unit :=
  require (isinstance v TInt)
    "The `limit` argument should be an integer, instead got {type(v)}."
    [FType v].

Definition FullTextSearchParams (name query_list limit : pyval) : M unit :=
  BaseModel "FullTextSearchParams"
    [Field "name" AStr name FullTextSearchParams_validate_name;
     Field "query_list" (AList AStr) query_list
           FullTextSearchParams_validate_query_list;
     Field "limit" AInt limit FullTextSearchParams_validate_limit].

(** *** FullTextSearchResults *)
Definition FullTextSearchResults_validate_results (v : pyval) : M unit :=
  require (isinstance v (TCls SearchResult))
    "Full text search results should be a `SearchResult`, instead got {type(v)}."
    [FType v] ;;
  require (all_isinstance (items_of v) (TCls HybridHits))
    "Each item in the list of `results` should be a `HybridHits`." [] ;;
  iterate (items_of v) (fun result =>
    require (all_isinstance (items_of result) (TCls Hit))
      "Each item in the list of `result` should be a `Hit`." []).

Definition FullTextSearchResults (results : pyval) : M unit :=
  BaseModel "FullTextSearchResults"
    [Field "results" AAny results FullTextSearchResults_validate_results].

(* ===================================================================== *)
(** ** pyfiles/milvus_utils.py: class MilvusClientInit *)
(* ===================================================================== *)

(** Passing a dict as keyword arguments (the double-star call syntax):
    the items of the dict become the keyword arguments, in order.  Python
    raises [TypeError] when a key is not a string. *)
Fixpoint keywords (kv : list (pyval * pyval)) : option (list (string * pyval)) :=
  match kv with
  | [] => Some []
  | (PStr k, v) :: rest =>
      match keywords rest with
      | Some kw => Some ((k, v) :: kw)
      | None => None
      end
  | _ :: _ => None
  end.

Definition splat (params : pyval) : M (list (string * pyval)) :=
  match params with
  | PDict kv =>
      match keywords kv with
      | Some kw => ret kw
      | None => raise (Exn TypeError "keywords must be strings" [])
      end
  | _ => raise (Exn TypeError "argument after ** must be a mapping" [FType params])
  end.

(** [for i, x in enumerate(v): f(i, x)]. *)
Fixpoint iterate_from (i : Z) (items : list pyval)
                      (f : Z -> pyval -> M unit) : M unit :=
  match items with
  | [] => ret tt
  | x :: rest => f i x ;; iterate_from (i + 1)%Z rest f
  end.

Definition for_enumerate (v : pyval) (f : Z -> pyval -> M unit) : M unit :=
  match py_iter v with
  | Some items => iterate_from 0%Z items f
  | None => raise (Exn TypeError "object is not iterable" [FType v])
  end.

(** [_init_client]: connect the Milvus client.  The only attribute of
    [self] it reads is [self.uri]. *)
Definition _init_client (self_uri : pyval) : M pyval :=
  log Info "Starting Milvus client on URI `{self.uri}`" [LArg (FVal self_uri)] ;;
  try_except
    (client <- remote (New MilvusClient [("uri", self_uri)]) ;;
     InitClientResults client ;;
     log Info "Milvus client connected at `{self.uri}`" [LArg (FVal self_uri)] ;;
     ret client)
    (fun e =>
       log Error "Problem connecting to Milvus client: `{str(e)}`" [LExn e]).

(** [__init__(self, uri, client)]; [client] is [None] when the caller
    passes no handle. *)
Definition __init__ (uri client : pyval) : M MilvusClientInit :=
  InitClientParams uri ;;
  try_except
    (match client with
     | PNone =>
         c <- _init_client uri ;;
         ret {| uri := uri; client := c |}
     | _ =>
         InitClientResults client ;;
         ret {| uri := uri; client := client |}
     end)
    (fun e =>
       log Info "Problem initializing Milvus client: {str(e)}" [LExn e]).

(** [_create_field(self, schema, params)]. *)
Definition _create_field (self : MilvusClientInit) (schema params : pyval)
  : M unit :=
  CreateFieldParams schema params ;;
  log Info "Creating field for params: {pprint.pformat(params)}"
      [LArg (FVal params)] ;;
  try_except
    (kwargs <- splat params ;;
     remote (Method schema "add_field" [] kwargs) ;;
     log Info "Field added to schema" [])
    (fun e => log Info "Problem creating field: `{str(e)}`" [LExn e]).

(** [_create_index(self, index_params, params)]. *)
Definition _create_index (self : MilvusClientInit) (index_params params : pyval)
  : M unit :=
  CreateIndexParams index_params params ;;
  log Info "Creating index for params: {pprint.pformat(params)}"
      [LArg (FVal params)] ;;
  try_except
    (kwargs <- splat params ;;
     remote (Method index_params "add_index" [] kwargs) ;;
     log Info "Index added to index params" [])
    (fun e => log Info "Problem creating index params: `{str(e)}`" [LExn e]).

(** [list_collections(self)]. *)
Definition list_collections (self : MilvusClientInit) : M pyval :=
  try_except
    (collections <- remote (Method (client self) "list_collections" [] []) ;;
     ListCollectionsResults collections ;;
     log Info "Available collections: {pprint.pformat(collections)}"
         [LArg (FVal collections)] ;;
     ret collections)
    (fun e => log Error "Problem listing collections: `{str(e)}`" [LExn e]).

(** The schema builder of [create_collection] (the first statements of
    its [try] block): create the schema, add every field and function,
    prepare the index parameters, add every index. *)
Definition build_schema (self : MilvusClientInit)
  (field_params_list func_list index_params_list : pyval)
  : M (pyval * pyval) :=
  schema <- remote (Method (client self) "create_schema" []
                           [("enable_dynamic_field", PBool true)]) ;;
  for_each field_params_list (fun params => _create_field self schema params) ;;
  for_each func_list (fun func =>
    remote (Method schema "add_function" [func] []) ;; ret tt) ;;
  index_params <- remote (Method (client self) "prepare_index_params" [] []) ;;
  for_each index_params_list (fun params =>
    _create_index self index_params params) ;;
  ret (schema, index_params).

(** The rest of the [try] block of [create_collection]: the remote
    create, then the listing that makes sure the collection was added. *)
Definition create_and_check (self : MilvusClientInit)
  (name schema index_params : pyval) : M pyval :=
  remote (Method (client self) "create_collection" []
                 [("collection_name", name);
                  ("schema", schema);
                  ("index_params", index_params)]) ;;
  collections <- list_collections self ;;
  if py_in name collections then
    log Info "Created collection `{name}`" [LArg (FVal name)] ;;
    ret PNone
  else
    let error_message :=
      "The new collection `name` is not in the collections list." in
    log Error error_message [] ;;
    raise (Exn ValueError error_message []).

(** [create_collection(self, name, field_params_list, func_list,
    index_params_list)]. *)
Definition create_collection (self : MilvusClientInit)
  (name field_params_list func_list index_params_list : pyval) : M pyval :=
  CreateCollectionParams name field_params_list func_list index_params_list ;;
  collections <- list_collections self ;;
  if py_in name collections then
    log Info "Collections `{name}` already exists." [LArg (FVal name)] ;;
    ret PNone
  else
    log Info "Creating collection `{name}`" [LArg (FVal name)] ;;
    try_except
      ('(schema, index_params) <-
          build_schema self field_params_list func_list index_params_list ;;
       create_and_check self name schema index_params)
      (fun e =>
         log Error "Problem creating collection `{name}`: `{str(e)}`"
             [LArg (FVal name); LExn e]).

(** [drop_collection(self, name)]. *)
Definition drop_collection (self : MilvusClientInit) (name : pyval) : M pyval :=
  DropCollectionParams name ;;
  collections <- list_collections self ;;
  if negb (py_in name collections) then
    log Info "Cannot find collection `{name}`." [LArg (FVal name)] ;;
    ret PNone
  else
    log Info "Dropping collection `{name}`" [LArg (FVal name)] ;;
    try_except
      (remote (Method (client self) "drop_collection" []
                      [("collection_name", name)]) ;;
       collections <- list_collections self ;;
       if negb (py_in name collections) then
         log Info "Dropped collection `{name}`" [LArg (FVal name)] ;;
         ret PNone
       else
         let error_message :=
           "The collection `name` is still in the collections list." in
         log Error error_message [] ;;
         raise (Exn ValueError error_message []))
      (fun e => log Error "Problem dropping collection: `{str(e)}`" [LExn e]).

(** [insert(self, name, data)]. *)
Definition insert (self : MilvusClientInit) (name data : pyval) : M pyval :=
  InsertParams name data ;;
  collections <- list_collections self ;;
  if negb (py_in name collections) then
    log Info "Cannot find collection `{name}`." [LArg (FVal name)] ;;
    ret PNone
  else
    log Info "Inserting data into `{name}`" [LArg (FVal name)] ;;
    try_except
      (results <- remote (Method (client self) "insert" []
                                 [("collection_name", name); ("data", data)]) ;;
       sleep (PFloat 0.5) ;;
       log Info "Inserted data" [] ;;
       InsertResults results ;;
       ret results)
      (fun e => log Error "Problem inserting data: {str(e)}" [LExn e]).

(** [delete(self, ids, name)]. *)
Definition delete (self : MilvusClientInit) (ids name : pyval) : M pyval :=
  DeleteParams name ids ;;
  collections <- list_collections self ;;
  if negb (py_in name collections) then
    log Info "Cannot find collection `{name}`." [LArg (FVal name)] ;;
    ret PNone
  else
    log Info "Deleting data from `{name}`" [LArg (FVal name)] ;;
    try_except
      (results <- remote (Method (client self) "delete" []
                                 [("collection_name", name); ("ids", ids)]) ;;
       sleep (PFloat 0.5) ;;
       log Info "Deleted data" [] ;;
       ret PNone)
      (fun e => log Error "Problem deleting data: {str(e)}" [LExn e]).

(** [full_text_search(self, name, query_list, limit)]. *)
Definition full_text_search (self : MilvusClientInit)
  (name query_list limit : pyval) : M pyval :=
  FullTextSearchParams name query_list limit ;;
  collections <- list_collections self ;;
  if negb (py_in name collections) then
    log Info "Cannot find collection `{name}`." [LArg (FVal name)] ;;
    ret PNone
  else
    log Info "Performing search on `{name}` for queries: {pprint.pformat(query_list)}"
        [LArg (FVal name); LArg (FVal query_list)] ;;
    try_except
      (let anns_field := PStr "sparse" in
       let output_fields := PList [PStr "text"] in
       let search_params :=
         PDict [(PStr "params",
                 PDict [(PStr "drop_ratio_search", PFloat 0.2)])] in
       results <- with_spinner "Getting results..."
         (remote (Method (client self) "search" []
                         [("collection_name", name);
                          ("data", query_list);
                          ("anns_field", anns_field);
                          ("output_fields", output_fields);
                          ("limit", limit);
                          ("search_params", search_params)])) ;;
       FullTextSearchResults results ;;
       for_enumerate results (fun i result =>
         for_enumerate result (fun j hit =>
           log Info "Result {i}, {j}: {pprint.pformat(hit)}"
               [LArg (FVal (PInt i)); LArg (FVal (PInt j)); LArg (FVal hit)])) ;;
       ret results)
      (fun e => log Error "Problem performing search: {str(e)}" [LExn e]).

(* ===================================================================== *)
(** ** scripts/milvus_test.py *)
(* ===================================================================== *)

(** The two defaults of [milvus_utils.py] that hold members of pymilvus
    enumerations ([DataType], [FunctionType]); the script passes them on
    without looking inside, so they are parameters here. *)
Variable field_params_list : pyval.
Variable func_bm25 : pyval.

(** The script, statement by statement.  Every call of the facade uses
    the defaults of [milvus_utils.py]; the first statement builds the
    facade without a handle.  As for the other log lines, the emoji that
    starts a message and the blank lines that end the last one are left
    out of its text. *)
Definition milvus_test : M unit :=
  log Info "Starting Milvus test in `./milvus_test.py`" [] ;;
  client <- __init__ Defaults.uri PNone ;;
  let collection_name := Defaults.collection_name in
  collections <- list_collections client ;;
  (if py_in collection_name collections then
     log Info "`{collection_name}` already exists, dropping it"
         [LArg (FVal collection_name)] ;;
     drop_collection client collection_name ;;
     ret tt
   else ret tt) ;;
  create_collection client Defaults.collection_name field_params_list
                    (PList [func_bm25]) Defaults.index_params_list ;;
  insert client Defaults.collection_name Defaults.data_ex ;;
  full_text_search client Defaults.collection_name Defaults.query_list
                   Defaults.lim_results ;;
  drop_collection client collection_name ;;
  log Info "Finished Milvus test in `./milvus_test.py`" [].

(* ===================================================================== *)
(** ** scripts/generate_dataset.py *)
(* ===================================================================== *)

(** The module-level [fake = Faker()]: some object of the third-party
    world, whose [paragraph] and [sentence] methods the world answers. *)
Variable fake : pyval.

(** The float that Python's [a / b] gives for two ints with [b] not
    zero; rounding belongs to the floating-point unit, so it is a
    parameter. *)
Variable fdiv : Z -> Z -> Q.

(** [len(v)], [None] when [v] has no length. *)
Definition len_of (v : pyval) : option Z :=
  match v with
  | PStr s => Some (Z.of_nat (String.length s))
  | PList items | PTuple items | PSet items => Some (Z.of_nat (length items))
  | PDict kv => Some (Z.of_nat (length kv))
  | PObj c items =>
      if cls_iterable c then Some (Z.of_nat (length items)) else None
  | PNone | PBool _ | PInt _ | PFloat _ => None
  end.

Definition py_len (v : pyval) : M Z :=
  match len_of v with
  | Some n => ret n
  | None => raise (Exn TypeError "object of type {type(v)} has no len()"
                       [FType v])
  end.

Definition ZeroDivisionError : exn :=
  Exn (OtherError "ZeroDivisionError") "division by zero" [].

(** [a / b] on two ints. *)
Definition truediv (a b : Z) : M pyval :=
  if (b =? 0)%Z then raise ZeroDivisionError else ret (PFloat (fdiv a b)).

Definition paragraph_call : call :=
  Method fake "paragraph" [] [("nb_sentences", PInt 3)].

Definition sentence_call : call :=
  Method fake "sentence" [] [("nb_words", PInt 5)].

(** The first loop, [n] turns from the accumulators [dataset] and
    [dataset_total_chars]. *)
Fixpoint generate_entries (n : nat) (dataset : list pyval)
                          (dataset_total_chars : Z) : M (list pyval * Z) :=
  match n with
  | O => ret (dataset, dataset_total_chars)
  | S n' =>
      text_content <- remote paragraph_call ;;
      let dataset := dataset ++ [PDict [(PStr "text", text_content)]] in
      char_count <- py_len text_content ;;
      generate_entries n' dataset (dataset_total_chars + char_count)%Z
  end.

(** The second loop. *)
Fixpoint generate_queries (n : nat) (queries : list pyval)
                          (queries_total_chars : Z) : M (list pyval * Z) :=
  match n with
  | O => ret (queries, queries_total_chars)
  | S n' =>
      query <- remote sentence_call ;;
      let queries := queries ++ [query] in
      char_count <- py_len query ;;
      generate_queries n' queries (queries_total_chars + char_count)%Z
  end.

(** [generate_dataset(num_entries, num_queries)]; [range(n)] is empty for
    [n <= 0]. *)
Definition generate_dataset (num_entries num_queries : Z) : M pyval :=
  '(dataset, dataset_total_chars) <-
     generate_entries (Z.to_nat num_entries) [] 0%Z ;;
  '(queries, queries_total_chars) <-
     generate_queries (Z.to_nat num_queries) [] 0%Z ;;
  dataset_avg_chars <-
    truediv dataset_total_chars (Z.of_nat (length dataset)) ;;
  queries_avg_chars <-
    truediv queries_total_chars (Z.of_nat (length queries)) ;;
  ret (PDict
         [(PStr "dataset",
           PDict [(PStr "data", PList dataset);
                  (PStr "total chars", PInt dataset_total_chars);
                  (PStr "avg chars", dataset_avg_chars)]);
          (PStr "queries",
           PDict [(PStr "data", PList queries);
                  (PStr "total chars", PInt queries_total_chars);
                  (PStr "avg chars", queries_avg_chars)])]).

(* ===================================================================== *)
(** ** The vocabulary of the statements *)
(* ===================================================================== *)

(** *** Runs *)

(** The outcome, the final state and the trace of a run. *)
Definition outcome_of {A} (r : outcome A * R * list event) : outcome A :=
  fst (fst r).

Definition state_of {A} (r : outcome A * R * list event) : R :=
  snd (fst r).

Definition trace_of {A} (r : outcome A * R * list event) : list event :=
  snd r.

(** A run that starts after the events [t1]. *)
Definition after {A} (t1 : list event) (r : outcome A * R * list event)
  : outcome A * R * list event :=
  let '(o, s, t2) := r in (o, s, t1 ++ t2).

(** *** Well-typed arguments and results *)

(** A list whose items are all instances of [t]. *)
Definition list_of (t : pytype) (v : pyval) : bool :=
  match v with
  | PList items => all_isinstance items t
  | _ => false
  end.

(** A listing that [ListCollectionsResults] lets through. *)
Definition valid_listing (collections : pyval) : bool :=
  match lax_sequence collections with
  | Some items => all_isinstance items TStr
  | None => false
  end.

(** A search result that [FullTextSearchResults] lets through: a
    [SearchResult] of [HybridHits], each holding only [Hit]s. *)
Definition valid_search_result (results : pyval) : bool :=
  isinstance results (TCls SearchResult)
  && all_isinstance (items_of results) (TCls HybridHits)
  && forallb (fun result => all_isinstance (items_of result) (TCls Hit))
             (items_of results).

Definition is_none (x : pyval) : bool :=
  match x with PNone => true | _ => false end.

(** An item that the annotation [str | None] allows. *)
Definition str_or_none (x : pyval) : bool := isinstance x TStr || is_none x.

(** An entry whose key-value pairs are exactly the keyword arguments
    [kw], in the same order. *)
Definition passed_as (entry : pyval) (kw : list (string * pyval)) : Prop :=
  entry = PDict (map (fun p => (PStr (fst p), snd p)) kw).

(** *** How a model instantiation ends *)

(** The fields that fail pydantic's own check, by name. *)
Fixpoint failures (fields : list field) : list pyval :=
  match fields with
  | [] => []
  | f :: rest =>
      match core_validate (fannot f) (fvalue f) with
      | Some _ => failures rest
      | None => PStr (fname f) :: failures rest
      end
  end.

(** The way a model ends when none of its field validators objects. *)
Definition verdict (model : string) (failed : list pyval) : outcome unit :=
  match failed with
  | [] => Ok tt
  | _ => Raise (validation_error model failed)
  end.

(** A field whose validator never objects to what pydantic hands it. *)
Definition quiet (f : field) : Prop :=
  forall v st,
    core_validate (fannot f) (fvalue f) = Some v ->
    fafter f v st = (Ok tt, st, []).

(** *** The calls of the facade *)

Definition list_call (self : MilvusClientInit) : call :=
  Method (client self) "list_collections" [] [].

Definition create_call (self : MilvusClientInit) (name schema index_params : pyval)
  : call :=
  Method (client self) "create_collection" []
    [("collection_name", name); ("schema", schema);
     ("index_params", index_params)].

Definition drop_call (self : MilvusClientInit) (name : pyval) : call :=
  Method (client self) "drop_collection" [] [("collection_name", name)].

Definition insert_call (self : MilvusClientInit) (name data : pyval) : call :=
  Method (client self) "insert" [] [("collection_name", name); ("data", data)].

Definition delete_call (self : MilvusClientInit) (name ids : pyval) : call :=
  Method (client self) "delete" [] [("collection_name", name); ("ids", ids)].

Definition search_call (self : MilvusClientInit) (name query_list limit : pyval)
  : call :=
  Method (client self) "search" []
    [("collection_name", name);
     ("data", query_list);
     ("anns_field", PStr "sparse");
     ("output_fields", PList [PStr "text"]);
     ("limit", limit);
     ("search_params",
      PDict [(PStr "params", PDict [(PStr "drop_ratio_search", PFloat 0.2)])])].

Definition add_field_call (schema : pyval) (kw : list (string * pyval)) : call :=
  Method schema "add_field" [] kw.

Definition add_index_call (index_params : pyval) (kw : list (string * pyval))
  : call :=
  Method index_params "add_index" [] kw.

Definition add_function_call (schema func : pyval) : call :=
  Method schema "add_function" [func] [].

(** *** Its log lines and exceptions *)

(** The two events of a successful [list_collections]. *)
Definition listing_events (self : MilvusClientInit) (collections : pyval)
  : list event :=
  [EvCall (list_call self);
   EvLog Info "Available collections: {pprint.pformat(collections)}"
         [LArg (FVal collections)]].

Definition listing_failed (e : exn) : event :=
  EvLog Error "Problem listing collections: `{str(e)}`" [LExn e].

Definition not_all_strings : string :=
  "Each item in the collections list should be a string.".

Definition cannot_find (name : pyval) : event :=
  EvLog Info "Cannot find collection `{name}`." [LArg (FVal name)].

Definition already_exists (name : pyval) : event :=
  EvLog Info "Collections `{name}` already exists." [LArg (FVal name)].

(** What every guarded operation does when the guard stops it. *)
Definition stopped (self : MilvusClientInit) (collections : pyval) (st1 : R)
                   (last : event) : outcome pyval * R * list event :=
  (Ok PNone, st1, listing_events self collections ++ [last]).

Definition creating (name : pyval) : event :=
  EvLog Info "Creating collection `{name}`" [LArg (FVal name)].

Definition create_failed (name : pyval) (e : exn) : event :=
  EvLog Error "Problem creating collection `{name}`: `{str(e)}`"
        [LArg (FVal name); LExn e].

Definition not_listed : exn :=
  Exn ValueError "The new collection `name` is not in the collections list." [].

Definition still_listed : exn :=
  Exn ValueError "The collection `name` is still in the collections list." [].

Definition inserting (name : pyval) : event :=
  EvLog Info "Inserting data into `{name}`" [LArg (FVal name)].

Definition insert_failed (e : exn) : event :=
  EvLog Error "Problem inserting data: {str(e)}" [LExn e].

Definition deleting (name : pyval) : event :=
  EvLog Info "Deleting data from `{name}`" [LArg (FVal name)].

Definition not_a_hit : string :=
  "Each item in the list of `result` should be a `Hit`.".

Definition not_a_client : string :=
  "The results from the `_init_client` method should be a `MilvusClient`, instead got `{type(v)}`.".

Definition starting (uri : pyval) : event :=
  EvLog Info "Starting Milvus client on URI `{self.uri}`" [LArg (FVal uri)].

Definition connected (uri : pyval) : event :=
  EvLog Info "Milvus client connected at `{self.uri}`" [LArg (FVal uri)].

Definition connect_failed (e : exn) : event :=
  EvLog Error "Problem connecting to Milvus client: `{str(e)}`" [LExn e].

Definition init_failed (e : exn) : event :=
  EvLog Info "Problem initializing Milvus client: {str(e)}" [LExn e].

(** *** More log lines of the facade *)


Definition drop_failed (e : exn) : event :=
  EvLog Error "Problem dropping collection: `{str(e)}`" [LExn e].

Definition delete_failed (e : exn) : event :=
  EvLog Error "Problem deleting data: {str(e)}" [LExn e].


Definition search_failed (e : exn) : event :=
  EvLog Error "Problem performing search: {str(e)}" [LExn e].

(** *** The log lines of a search result *)




(** *** The arguments a model accepts *)

(** A list, tuple, set or iterable object whose items are all instances
    of [t]: what a [List[...]] field and its validator let through. *)
Definition seq_of (t : pytype) (v : pyval) : bool :=
  match lax_sequence v with
  | Some items => all_isinstance items t
  | None => false
  end.

Definition is_some {A} (o : option A) : bool :=
  match o with Some _ => true | None => false end.

(** What an [int] field lets through. *)
Definition int_like (v : pyval) : bool :=
  match v with
  | PInt _ | PBool _ => true
  | PFloat q => is_some (float_as_int q)
  | PStr s => is_some (int_of_str s)
  | _ => false
  end.

Definition create_args_ok (name fields funcs indexes : pyval) : bool :=
  isinstance name TStr && seq_of TDict fields
  && seq_of (TCls Function) funcs && seq_of TDict indexes.

Definition insert_args_ok (name data : pyval) : bool :=
  isinstance name TStr && seq_of TDict data.


Definition search_args_ok (name query_list limit : pyval) : bool :=
  isinstance name TStr && seq_of TStr query_list && int_like limit.

Definition not_a_function : string :=
  "Each item in `func_list` should be a Function.".

Definition not_a_schema : string :=
  "The argument `schema` should be a `CollectionSchema`, instead got `{type(v)}`.".

Definition not_index_params : string :=
  "The `index_params` argument should be an `IndexParams`, instead got {type(v)}.".

(** *** What an operation may do *)

(** The way every model of [milvus_types.py] ends: it passes without any
    effect, or pydantic raises its [ValidationError] without a log line,
    or a field validator logs its message at error level and raises a
    [TypeError] that carries the same message.  The state of the world
    is never touched. *)
Definition checked (m : M unit) : Prop :=
  forall st,
    exists o t,
      m st = (o, st, t)
      /\ match o with
         | Ok _ => t = []
         | Raise e =>
             (ekind e = ValidationError /\ t = [])
             \/ (ekind e = TypeError
                 /\ t = [EvLog Error (etext e) (map LArg (eargs e))])
         end.

(** A computation that calls nothing. *)
Definition silent {A} (m : M A) : Prop :=
  forall st, remote_calls (trace_of (m st)) = [].

(** A computation whose remote calls are always an initial segment of
    [cs], ... *)
Definition calls_prefix {A} (cs : list call) (m : M A) : Prop :=
  forall st, exists k, remote_calls (trace_of (m st)) = firstn k cs.

(** ... and all of [cs] when it returns. *)
Definition calls_all {A} (cs : list call) (m : M A) : Prop :=
  forall st a st' t, m st = (Ok a, st', t) -> remote_calls t = cs.

(** A trace whose remote calls all invoke one of the methods [names]. *)
Definition calls_within (names : list string) (t : list event) : Prop :=
  Forall (fun c => existsb (fun m => invokes m c) names = true)
         (remote_calls t).

Definition only_methods {A} (names : list string) (m : M A) : Prop :=
  forall st, calls_within names (trace_of (m st)).

(** The methods the schema builder calls, and those [create_collection]
    calls. *)
Definition schema_methods : list string :=
  ["create_schema"; "add_field"; "add_function"; "prepare_index_params";
   "add_index"].

Definition create_methods : list string :=
  "list_collections" :: schema_methods ++ ["create_collection"].

(** *** Where an exception comes from *)

(** The world raises [e] in answer to one of the calls of [t]. *)
Definition raised_by_remote (e : exn) (t : list event) : Prop :=
  exists c st0, In c (remote_calls t) /\ fst (respond c st0) = Raise e.

(** The two errors of the post-checks. *)
Definition invariant_error (e : exn) : Prop :=
  e = not_listed \/ e = still_listed.

Definition accounted (e : exn) (t : list event) : Prop :=
  is_type_validation_error e = true
  \/ invariant_error e
  \/ raised_by_remote e t.

(** A computation that fails only with accounted exceptions. *)
Definition sound {A} (m : M A) : Prop :=
  forall st e st' t, m st = (Raise e, st', t) -> accounted e t.

(** A log line that reports [e]: it interpolates [str(e)], or it is the
    message of [e]. *)
Definition reports (e : exn) (ev : event) : Prop :=
  match ev with
  | EvLog _ text args => In (LExn e) args \/ text = etext e
  | _ => False
  end.

(** The last event of [t] is a log line that reports [e]. *)
Definition logged_last (e : exn) (t : list event) : Prop :=
  exists t0 ev, t = t0 ++ [ev] /\ reports e ev.

Definition logs_failures {A} (m : M A) : Prop :=
  forall st e st' t, m st = (Raise e, st', t) -> logged_last e t.

(** An [except] block of the facade: one log line that interpolates
    [str(e)]. *)
Definition reporter (handler : exn -> M unit) : Prop :=
  forall e st,
    exists lvl text args,
      handler e st = (Ok tt, st, [EvLog lvl text args]) /\ In (LExn e) args.

(** *** The scripts *)

(** The dict entry that [generate_dataset] stores for a text. *)
Definition text_entry (text : pyval) : pyval := PDict [(PStr "text", text)].

(** The number of characters of a value; zero for a value without
    length. *)
Definition char_count (text : pyval) : Z :=
  match len_of text with Some n => n | None => 0%Z end.

Definition total_chars (texts : list pyval) : Z :=
  fold_right (fun text acc => (char_count text + acc)%Z) 0%Z texts.

(** The world can answer the call [c] with the value [v]. *)
Definition answered_by (c : call) (v : pyval) : Prop :=
  exists st0 st1, respond c st0 = (Ok v, st1).


(** A Faker whose [paragraph] and [sentence] always answer with a
    string. *)
Definition faker_gives_strings : Prop :=
  forall c st,
    c = paragraph_call \/ c = sentence_call ->
    exists s st', respond c st = (Ok (PStr s), st').

(* ===================================================================== *)
(** ** Running the monad *)
(* ===================================================================== *)

Lemma bind_Ok {A B} (m : M A) (f : A -> M B) st a st1 t1 :
  m st = (Ok a, st1, t1) ->
  bind m f st = (outcome_of (f a st1), state_of (f a st1),
                 t1 ++ trace_of (f a st1)).
Proof.
  intros H. cbn. unfold M_bind. rewrite H.
  destruct (f a st1) as [[r st2] t2]. reflexivity.
Qed.

Lemma bind_Raise {A B} (m : M A) (f : A -> M B) st e st1 t1 :
  m st = (Raise e, st1, t1) ->
  bind m f st = (Raise e, st1, t1).
Proof. intros H. cbn. unfold M_bind. rewrite H. reflexivity. Qed.

Lemma remote_calls_app (t1 t2 : list event) :
  remote_calls (t1 ++ t2) = remote_calls t1 ++ remote_calls t2.
Proof.
  induction t1 as [|ev t1 IH]; [reflexivity|].
  destruct ev; cbn; rewrite IH; reflexivity.
Qed.

(* ===================================================================== *)
(** ** pydantic's field check on well-typed values *)
(* ===================================================================== *)

Lemma traverse_id (a : annot) (items : list pyval) :
  (forall x, In x items -> core_validate a x = Some x) ->
  traverse (core_validate a) items = Some items.
Proof.
  induction items as [|x items IH]; intros H; [reflexivity|].
  cbn [traverse]. rewrite (H x (or_introl eq_refl)).
  rewrite IH; [reflexivity|]. intros y Hy. apply H. right. exact Hy.
Qed.

Lemma core_str (x : pyval) :
  isinstance x TStr = true -> core_validate AStr x = Some x.
Proof. destruct x; cbn; congruence. Qed.

Lemma core_dict (x : pyval) :
  isinstance x TDict = true -> core_validate ADict x = Some x.
Proof. destruct x; cbn; congruence. Qed.

Lemma all_isinstance_In (items : list pyval) (t : pytype) :
  all_isinstance items t = true ->
  forall x, In x items -> isinstance x t = true.
Proof. unfold all_isinstance. rewrite forallb_forall. auto. Qed.

Lemma traverse_str (items : list pyval) :
  all_isinstance items TStr = true ->
  traverse (core_validate AStr) items = Some items.
Proof.
  intros H. apply traverse_id. intros x Hx.
  apply core_str. eapply all_isinstance_In; eauto.
Qed.

Lemma traverse_dict (items : list pyval) :
  all_isinstance items TDict = true ->
  traverse (core_validate ADict) items = Some items.
Proof.
  intros H. apply traverse_id. intros x Hx.
  apply core_dict. eapply all_isinstance_In; eauto.
Qed.

Lemma traverse_str_or_none (items : list pyval) :
  all_isinstance items TStr = true ->
  traverse (core_validate (AUnion AStr ANoneType)) items = Some items.
Proof.
  intros H. apply traverse_id. intros x Hx.
  pose proof (all_isinstance_In _ _ H x Hx) as Hstr.
  destruct x; cbn in Hstr |- *; congruence.
Qed.

Lemma traverse_any (items : list pyval) :
  traverse (core_validate AAny) items = Some items.
Proof. apply traverse_id. reflexivity. Qed.


(* ===================================================================== *)
(** ** How a model instantiation ends *)
(* ===================================================================== *)

Lemma validate_fields_quiet model fields :
  Forall quiet fields ->
  forall failed st,
    validate_fields model fields failed st
    = (verdict model (failed ++ failures fields), st, []).
Proof.
  induction 1 as [|f fields Hf _ IH]; intros failed st.
  - cbn [validate_fields failures]. rewrite app_nil_r.
    destruct failed; reflexivity.
  - cbn [validate_fields failures].
    destruct (core_validate (fannot f) (fvalue f)) as [v|] eqn:Hcore.
    + rewrite (bind_Ok _ _ _ _ _ _ (Hf v st Hcore)), IH. reflexivity.
    + rewrite IH, <- app_assoc. reflexivity.
Qed.

Lemma BaseModel_quiet model fields st :
  Forall quiet fields ->
  BaseModel model fields st = (verdict model (failures fields), st, []).
Proof. intros H. apply (validate_fields_quiet model fields H []). Qed.

(** What comes out of pydantic's check has the annotated type. *)
Lemma core_str_inv v v' :
  core_validate AStr v = Some v' -> isinstance v' TStr = true.
Proof. destruct v; cbn; intros H; inversion H; reflexivity. Qed.

Lemma core_dict_inv v v' :
  core_validate ADict v = Some v' -> isinstance v' TDict = true.
Proof. destruct v; cbn; intros H; inversion H; reflexivity. Qed.

Lemma core_int_inv v v' :
  core_validate AInt v = Some v' -> isinstance v' TInt = true.
Proof.
  destruct v; cbn; intros H; try discriminate H.
  - inversion H. reflexivity.
  - inversion H. reflexivity.
  - destruct (float_as_int q); inversion H. reflexivity.
  - destruct (int_of_str s); inversion H. reflexivity.
Qed.

Lemma traverse_all (f : pyval -> option pyval) (t : pytype) :
  (forall x y, f x = Some y -> isinstance y t = true) ->
  forall items items',
    traverse f items = Some items' -> all_isinstance items' t = true.
Proof.
  intros Hf. induction items as [|x items IH]; intros items' H.
  - inversion H. reflexivity.
  - cbn [traverse] in H. destruct (f x) as [y|] eqn:Hx; [|discriminate].
    destruct (traverse f items) as [ys|]; [|discriminate].
    inversion H. cbn. rewrite (Hf x y Hx). exact (IH ys eq_refl).
Qed.

Lemma core_list_inv (a : annot) v v' :
  core_validate (AList a) v = Some v' ->
  exists items items',
    lax_sequence v = Some items
    /\ traverse (core_validate a) items = Some items'
    /\ v' = PList items'.
Proof.
  intros H.
  change (core_validate (AList a) v)
    with (match lax_sequence v with
          | Some items => option_map PList (traverse (core_validate a) items)
          | None => None
          end) in H.
  destruct (lax_sequence v) as [items|]; [|discriminate].
  destruct (traverse (core_validate a) items) as [items'|] eqn:Ht;
    [|discriminate].
  inversion H. eauto.
Qed.

Lemma core_list (a : annot) (items : list pyval) :
  traverse (core_validate a) items = Some items ->
  core_validate (AList a) (PList items) = Some (PList items).
Proof.
  intros H.
  change (core_validate (AList a) (PList items))
    with (option_map PList (traverse (core_validate a) items)).
  rewrite H. reflexivity.
Qed.

(** The shape of every list validator, on a list of the right items. *)
Lemma list_validator_ok items t text1 args1 text2 args2 st :
  all_isinstance items t = true ->
  (require (isinstance (PList items) TList) text1 args1 ;;
   require (all_isinstance (items_of (PList items)) t) text2 args2) st
  = (Ok tt, st, []).
Proof.
  intros H. change (items_of (PList items)) with items. rewrite H.
  reflexivity.
Qed.

(** The validators of the fields annotated [str], [int], [List[str]] and
    [List[dict]] repeat the test pydantic has just made, so they never
    object. *)
Lemma quiet_str name text args :
  quiet (Field name AStr text
           (fun v => require (isinstance v TStr) (fst (args v)) (snd (args v)))).
Proof.
  intros v st H. cbn [fannot fvalue fafter] in *.
  rewrite (core_str_inv _ _ H). reflexivity.
Qed.

Lemma quiet_int name value args :
  quiet (Field name AInt value
           (fun v => require (isinstance v TInt) (fst (args v)) (snd (args v)))).
Proof.
  intros v st H. cbn [fannot fvalue fafter] in *.
  rewrite (core_int_inv _ _ H). reflexivity.
Qed.

Lemma quiet_list_str name value args1 text2 args2 :
  quiet (Field name (AList AStr) value
           (fun v =>
              require (isinstance v TList) (fst (args1 v)) (snd (args1 v)) ;;
              require (all_isinstance (items_of v) TStr) text2 args2)).
Proof.
  intros v st H. cbn [fannot fvalue fafter] in *.
  destruct (core_list_inv _ _ _ H) as (items & items' & _ & Ht & ->).
  apply list_validator_ok. exact (traverse_all _ _ core_str_inv _ _ Ht).
Qed.

Lemma quiet_list_dict name value args1 text2 args2 :
  quiet (Field name (AList ADict) value
           (fun v =>
              require (isinstance v TList) (fst (args1 v)) (snd (args1 v)) ;;
              require (all_isinstance (items_of v) TDict) text2 args2)).
Proof.
  intros v st H. cbn [fannot fvalue fafter] in *.
  destruct (core_list_inv _ _ _ H) as (items & items' & _ & Ht & ->).
  apply list_validator_ok. exact (traverse_all _ _ core_dict_inv _ _ Ht).
Qed.

(** Four of the argument models have only such fields: they end as
    pydantic's own check decides, touch nothing and log nothing. *)
Ltac quiet_fields :=
  repeat first
    [ apply Forall_nil
    | apply Forall_cons
    | exact (quiet_str _ _ (fun v => (_, [FType v])))
    | exact (quiet_int _ _ (fun v => (_, [FType v])))
    | exact (quiet_list_str _ _ (fun v => (_, [FType v])) _ _)
    | exact (quiet_list_dict _ _ (fun v => (_, [FType v])) _ _) ].

Lemma DropCollectionParams_run name st :
  DropCollectionParams name st
  = (verdict "DropCollectionParams"
       (failures [Field "name" AStr name DropCollectionParams_validate_name]),
     st, []).
Proof. apply BaseModel_quiet. quiet_fields. Qed.

Lemma InsertParams_run name data st :
  InsertParams name data st
  = (verdict "InsertParams"
       (failures [Field "name" AStr name InsertParams_validate_name;
                  Field "data" (AList ADict) data InsertParams_validate_data]),
     st, []).
Proof. apply BaseModel_quiet. quiet_fields. Qed.

Lemma DeleteParams_run name ids st :
  DeleteParams name ids st
  = (verdict "DeleteParams"
       (failures [Field "name" AStr name DeleteParams_validate_name;
                  Field "ids" (AList AStr) ids DeleteParams_validate_data]),
     st, []).
Proof. apply BaseModel_quiet. quiet_fields. Qed.

Lemma FullTextSearchParams_run name query_list limit st :
  FullTextSearchParams name query_list limit st
  = (verdict "FullTextSearchParams"
       (failures [Field "name" AStr name FullTextSearchParams_validate_name;
                  Field "query_list" (AList AStr) query_list
                        FullTextSearchParams_validate_query_list;
                  Field "limit" AInt limit FullTextSearchParams_validate_limit]),
     st, []).
Proof. apply BaseModel_quiet. quiet_fields. Qed.

(** On well-typed arguments every argument model passes silently. *)
Ltac as_list v H := destruct v; try discriminate H; unfold list_of in H.

Lemma DropCollectionParams_ok name st :
  isinstance name TStr = true ->
  DropCollectionParams name st = (Ok tt, st, []).
Proof.
  intros H. rewrite DropCollectionParams_run.
  cbn [failures fannot fvalue]. rewrite (core_str _ H). reflexivity.
Qed.

Lemma InsertParams_ok name data st :
  isinstance name TStr = true -> list_of TDict data = true ->
  InsertParams name data st = (Ok tt, st, []).
Proof.
  intros Hn Hd. as_list data Hd. rewrite InsertParams_run.
  cbn [failures fannot fvalue].
  rewrite (core_str _ Hn), (core_list _ _ (traverse_dict _ Hd)).
  reflexivity.
Qed.

Lemma DeleteParams_ok name ids st :
  isinstance name TStr = true -> list_of TStr ids = true ->
  DeleteParams name ids st = (Ok tt, st, []).
Proof.
  intros Hn Hd. as_list ids Hd. rewrite DeleteParams_run.
  cbn [failures fannot fvalue].
  rewrite (core_str _ Hn), (core_list _ _ (traverse_str _ Hd)).
  reflexivity.
Qed.

Lemma FullTextSearchParams_ok name query_list n st :
  isinstance name TStr = true -> list_of TStr query_list = true ->
  FullTextSearchParams name query_list (PInt n) st = (Ok tt, st, []).
Proof.
  intros Hn Hd. as_list query_list Hd. rewrite FullTextSearchParams_run.
  cbn [failures fannot fvalue].
  rewrite (core_str _ Hn), (core_list _ _ (traverse_str _ Hd)).
  reflexivity.
Qed.

(** The query model takes any sequence of strings that pydantic turns
    into a list, not only a list: the [isinstance(v, list)] test of the
    validator sees pydantic's list, never the caller's value. *)
Lemma FullTextSearchParams_takes_sequences name query_list items n st :
  isinstance name TStr = true ->
  lax_sequence query_list = Some items ->
  all_isinstance items TStr = true ->
  FullTextSearchParams name query_list (PInt n) st = (Ok tt, st, []).
Proof.
  intros Hn Hs Hi. rewrite FullTextSearchParams_run.
  cbn [failures fannot fvalue]. rewrite (core_str _ Hn).
  change (core_validate (AList AStr) query_list)
    with (match lax_sequence query_list with
          | Some items => option_map PList (traverse (core_validate AStr) items)
          | None => None
          end).
  rewrite Hs, (traverse_str _ Hi). reflexivity.
Qed.

Lemma CreateCollectionParams_ok name fields funcs indexes st :
  isinstance name TStr = true ->
  list_of TDict fields = true ->
  list_of (TCls Function) funcs = true ->
  list_of TDict indexes = true ->
  CreateCollectionParams name fields funcs indexes st = (Ok tt, st, []).
Proof.
  intros Hn Hf Hg Hi. destruct name; try discriminate Hn.
  as_list fields Hf. as_list funcs Hg. as_list indexes Hi.
  unfold CreateCollectionParams, BaseModel.
  cbn [validate_fields fannot fvalue fafter].
  rewrite (core_str _ Hn), (core_list _ _ (traverse_dict _ Hf)),
    (core_list _ _ (traverse_dict _ Hi)), (core_list _ _ (traverse_any _)).
  rewrite (bind_Ok _ _ _ _ _ _
             (eq_refl : CreateCollectionParams_validate_name (PStr s) st
                        = (Ok tt, st, []))).
  unfold CreateCollectionParams_validate_field_params_list,
    CreateCollectionParams_validate_func_list,
    CreateCollectionParams_validate_index_params_list.
  rewrite (bind_Ok _ _ _ _ _ _ (list_validator_ok _ _ _ _ _ _ st Hf)).
  rewrite (bind_Ok _ _ _ _ _ _ (list_validator_ok _ _ _ _ _ _ st Hg)).
  rewrite (bind_Ok _ _ _ _ _ _ (list_validator_ok _ _ _ _ _ _ st Hi)).
  reflexivity.
Qed.

(* ===================================================================== *)
(** ** list_collections *)
(* ===================================================================== *)

Lemma traverse_union (items : list pyval) :
  traverse (core_validate (AUnion AStr ANoneType)) items
  = if forallb str_or_none items then Some items else None.
Proof.
  induction items as [|x items IH]; [reflexivity|].
  cbn [traverse forallb]. rewrite IH.
  destruct x; cbn; try reflexivity;
    destruct (forallb str_or_none items); reflexivity.
Qed.

(** How [ListCollectionsResults] ends on every value: silently when the
    value is a sequence of strings; with the [TypeError] of its own
    validator when the only other items are [None]; with pydantic's
    [ValidationError] otherwise. *)
Lemma ListCollectionsResults_run collections st :
  ListCollectionsResults collections st
  = match lax_sequence collections with
    | Some items =>
        if all_isinstance items TStr then (Ok tt, st, [])
        else if forallb str_or_none items then
          (Raise (Exn TypeError not_all_strings []), st,
           [EvLog Error not_all_strings []])
        else
          (Raise (validation_error "ListCollectionsResults" [PStr "results"]),
           st, [])
    | None =>
        (Raise (validation_error "ListCollectionsResults" [PStr "results"]),
         st, [])
    end.
Proof.
  unfold ListCollectionsResults, BaseModel.
  cbn [validate_fields fannot fvalue fafter fname].
  change (core_validate (AList (AUnion AStr ANoneType)) collections)
    with (match lax_sequence collections with
          | Some items =>
              option_map PList
                (traverse (core_validate (AUnion AStr ANoneType)) items)
          | None => None
          end).
  destruct (lax_sequence collections) as [items|]; [|reflexivity].
  rewrite traverse_union.
  destruct (forallb str_or_none items) eqn:Hsn; cbn [option_map].
  - unfold ListCollectionsResults_validate_results.
    change (items_of (PList items)) with items.
    destruct (all_isinstance items TStr); reflexivity.
  - assert (all_isinstance items TStr = false) as ->; [|reflexivity].
    apply not_true_is_false. intros Hall.
    rewrite <- not_true_iff_false in Hsn. apply Hsn.
    apply forallb_forall. intros x Hx. unfold str_or_none.
    rewrite (all_isinstance_In _ _ Hall x Hx). reflexivity.
Qed.

Lemma ListCollectionsResults_ok collections st :
  valid_listing collections = true ->
  ListCollectionsResults collections st = (Ok tt, st, []).
Proof.
  unfold valid_listing. intros H. rewrite ListCollectionsResults_run.
  destruct (lax_sequence collections); [|discriminate].
  rewrite H. reflexivity.
Qed.

Lemma ListCollectionsResults_inv collections st r st' t :
  ListCollectionsResults collections st = (Ok r, st', t) ->
  valid_listing collections = true.
Proof.
  rewrite ListCollectionsResults_run. unfold valid_listing.
  destruct (lax_sequence collections) as [items|]; [|discriminate].
  destruct (all_isinstance items TStr); [reflexivity|].
  destruct (forallb str_or_none items); discriminate.
Qed.

Lemma remote_run (c : call) st :
  remote c st = (fst (respond c st), snd (respond c st), [EvCall c]).
Proof. unfold remote. destruct (respond c st). reflexivity. Qed.

(** [list_collections] when the client answers with a value. *)
Lemma list_collections_run self st collections st1 :
  respond (list_call self) st = (Ok collections, st1) ->
  list_collections self st
  = match ListCollectionsResults collections st1 with
    | (Ok _, _, _) => (Ok collections, st1, listing_events self collections)
    | (Raise e, _, t) =>
        (Raise e, st1, EvCall (list_call self) :: t ++ [listing_failed e])
    end.
Proof.
  intros H. unfold list_collections, try_except.
  fold (list_call self). cbn [bind Monad_M]. unfold M_bind at 1.
  rewrite remote_run, H. cbn [fst snd]. unfold M_bind at 1.
  rewrite ListCollectionsResults_run.
  destruct (lax_sequence collections) as [items|]; [|reflexivity].
  destruct (all_isinstance items TStr); [reflexivity|].
  destruct (forallb str_or_none items); reflexivity.
Qed.

Lemma list_collections_ok self st collections st1 :
  respond (list_call self) st = (Ok collections, st1) ->
  valid_listing collections = true ->
  list_collections self st
  = (Ok collections, st1, listing_events self collections).
Proof.
  intros H Hv. rewrite (list_collections_run _ _ _ _ H).
  rewrite (ListCollectionsResults_ok _ _ Hv). reflexivity.
Qed.

(** [list_collections] when the client raises. *)
Lemma list_collections_raise self st e st1 :
  respond (list_call self) st = (Raise e, st1) ->
  list_collections self st
  = (Raise e, st1, [EvCall (list_call self); listing_failed e]).
Proof.
  intros H. unfold list_collections, try_except.
  fold (list_call self). cbn [bind Monad_M]. unfold M_bind at 1.
  rewrite remote_run, H. reflexivity.
Qed.

(** Whatever [list_collections] returns is what the client answered, and
    it passed the result model. *)
Lemma list_collections_inv self st v st1 t :
  list_collections self st = (Ok v, st1, t) ->
  respond (list_call self) st = (Ok v, st1)
  /\ valid_listing v = true
  /\ t = listing_events self v.
Proof.
  intros H. destruct (respond (list_call self) st) as [[c|e] st2] eqn:Hr.
  - rewrite (list_collections_run _ _ _ _ Hr) in H.
    destruct (ListCollectionsResults c st2) as [[[r|e] st3] t3] eqn:Hm.
    + inversion H; subst. split; [reflexivity|]. split; [|reflexivity].
      exact (ListCollectionsResults_inv _ _ _ _ _ Hm).
    + discriminate H.
  - rewrite (list_collections_raise _ _ _ _ Hr) in H. discriminate H.
Qed.

(* ===================================================================== *)
(** ** The lifecycle guard *)
(* ===================================================================== *)

Lemma bind_after {A B} (m : M A) (f : A -> M B) st a st1 t1 :
  m st = (Ok a, st1, t1) ->
  bind m f st = after t1 (f a st1).
Proof. intros H. cbn. unfold M_bind. rewrite H. reflexivity. Qed.

Ltac step H := rewrite (bind_after _ _ _ _ _ _ H).

Section Guard.

Variables (self : MilvusClientInit) (name collections : pyval) (st st1 : R).
Hypothesis Hname : isinstance name TStr = true.
Hypothesis Hlist : respond (list_call self) st = (Ok collections, st1).
Hypothesis Hvalid : valid_listing collections = true.

Lemma drop_collection_absent :
  py_in name collections = false ->
  drop_collection self name st = stopped self collections st1 (cannot_find name).
Proof.
  intros Ha. unfold drop_collection.
  step (DropCollectionParams_ok _ st Hname).
  step (list_collections_ok _ _ _ _ Hlist Hvalid).
  rewrite Ha. reflexivity.
Qed.

Lemma insert_absent data :
  list_of TDict data = true ->
  py_in name collections = false ->
  insert self name data st = stopped self collections st1 (cannot_find name).
Proof.
  intros Hd Ha. unfold insert.
  step (InsertParams_ok _ _ st Hname Hd).
  step (list_collections_ok _ _ _ _ Hlist Hvalid).
  rewrite Ha. reflexivity.
Qed.

Lemma delete_absent ids :
  list_of TStr ids = true ->
  py_in name collections = false ->
  delete self ids name st = stopped self collections st1 (cannot_find name).
Proof.
  intros Hd Ha. unfold delete.
  step (DeleteParams_ok _ _ st Hname Hd).
  step (list_collections_ok _ _ _ _ Hlist Hvalid).
  rewrite Ha. reflexivity.
Qed.

Lemma full_text_search_absent query_list n :
  list_of TStr query_list = true ->
  py_in name collections = false ->
  full_text_search self name query_list (PInt n) st
  = stopped self collections st1 (cannot_find name).
Proof.
  intros Hd Ha. unfold full_text_search.
  step (FullTextSearchParams_ok _ _ n st Hname Hd).
  step (list_collections_ok _ _ _ _ Hlist Hvalid).
  rewrite Ha. reflexivity.
Qed.

Lemma create_collection_present fields funcs indexes :
  list_of TDict fields = true ->
  list_of (TCls Function) funcs = true ->
  list_of TDict indexes = true ->
  py_in name collections = true ->
  create_collection self name fields funcs indexes st
  = stopped self collections st1 (already_exists name).
Proof.
  intros Hf Hg Hi Hp. unfold create_collection.
  step (CreateCollectionParams_ok _ _ _ _ st Hname Hf Hg Hi).
  step (list_collections_ok _ _ _ _ Hlist Hvalid).
  rewrite Hp. reflexivity.
Qed.

End Guard.

(* ===================================================================== *)
(** ** Past the guard: the delegated calls *)
(* ===================================================================== *)

Lemma remote_Ok c st v st' :
  respond c st = (Ok v, st') -> remote c st = (Ok v, st', [EvCall c]).
Proof. intros H. rewrite remote_run, H. reflexivity. Qed.

Lemma remote_Raise c st e st' :
  respond c st = (Raise e, st') -> remote c st = (Raise e, st', [EvCall c]).
Proof. intros H. rewrite remote_run, H. reflexivity. Qed.

Lemma log_run lvl text args st :
  log lvl text args st = (Ok tt, st, [EvLog lvl text args]).
Proof. reflexivity. Qed.

Lemma require_true (text : string) (args : list fmt_arg) st :
  require true text args st = (Ok tt, st, []).
Proof. reflexivity. Qed.

Lemma sleep_run seconds st :
  sleep seconds st = (Ok tt, st, [EvSleep seconds]).
Proof. reflexivity. Qed.

Lemma InsertResults_run v st :
  InsertResults v st
  = (if isinstance v TDict then Ok tt
     else Raise (validation_error "InsertResults" [PStr "results"]), st, []).
Proof. destruct v; reflexivity. Qed.

Lemma hits_check (items : list pyval) st :
  iterate items (fun result =>
    require (all_isinstance (items_of result) (TCls Hit)) not_a_hit []) st
  = if forallb (fun result => all_isinstance (items_of result) (TCls Hit)) items
    then (Ok tt, st, [])
    else (Raise (Exn TypeError not_a_hit []), st, [EvLog Error not_a_hit []]).
Proof.
  induction items as [|x items IH]; [reflexivity|].
  cbn [iterate forallb].
  destruct (all_isinstance (items_of x) (TCls Hit)) eqn:Hx; cbn [andb].
  - rewrite (bind_after _ _ _ _ _ _ (require_true _ _ st)), IH.
    destruct (forallb _ items); reflexivity.
  - reflexivity.
Qed.

Lemma validate_results_valid v st :
  valid_search_result v = true ->
  FullTextSearchResults_validate_results v st = (Ok tt, st, []).
Proof.
  unfold valid_search_result. intros H.
  apply andb_prop in H. destruct H as [H H3].
  apply andb_prop in H. destruct H as [H1 H2].
  unfold FullTextSearchResults_validate_results. rewrite H1, H2.
  step (require_true
          "Full text search results should be a `SearchResult`, instead got {type(v)}."
          [FType v] st).
  step (require_true
          "Each item in the list of `results` should be a `HybridHits`." [] st).
  fold not_a_hit. rewrite hits_check, H3. reflexivity.
Qed.

Lemma validate_results_invalid v st :
  valid_search_result v = false ->
  exists e t,
    FullTextSearchResults_validate_results v st = (Raise e, st, t)
    /\ ekind e = TypeError /\ remote_calls t = [].
Proof.
  unfold valid_search_result. intros H.
  unfold FullTextSearchResults_validate_results.
  destruct (isinstance v (TCls SearchResult));
    [|do 2 eexists; split; [reflexivity|]; split; reflexivity].
  step (require_true
          "Full text search results should be a `SearchResult`, instead got {type(v)}."
          [FType v] st).
  destruct (all_isinstance (items_of v) (TCls HybridHits));
    [|do 2 eexists; split; [reflexivity|]; split; reflexivity].
  step (require_true
          "Each item in the list of `results` should be a `HybridHits`." [] st).
  cbn [andb] in H. fold not_a_hit. rewrite hits_check, H.
  do 2 eexists. split; [reflexivity|]. split; reflexivity.
Qed.

Lemma FullTextSearchResults_valid v st :
  valid_search_result v = true ->
  FullTextSearchResults v st = (Ok tt, st, []).
Proof.
  intros H. unfold FullTextSearchResults, BaseModel.
  cbn [validate_fields fannot fvalue fafter core_validate].
  step (validate_results_valid v st H). reflexivity.
Qed.

Lemma FullTextSearchResults_invalid v st :
  valid_search_result v = false ->
  exists e t,
    FullTextSearchResults v st = (Raise e, st, t)
    /\ ekind e = TypeError /\ remote_calls t = [].
Proof.
  intros H. unfold FullTextSearchResults, BaseModel.
  cbn [validate_fields fannot fvalue fafter core_validate].
  destruct (validate_results_invalid v st H) as (e & t & Hr & Hk & Hc).
  exists e, t. rewrite (bind_Raise _ _ _ _ _ _ Hr). auto.
Qed.

(** Loops that only log. *)
Lemma iterate_from_logs (f : Z -> pyval -> M unit) (items : list pyval) :
  (forall i x st, In x items ->
     exists t, f i x st = (Ok tt, st, t) /\ remote_calls t = []) ->
  forall i st,
    exists t, iterate_from i items f st = (Ok tt, st, t) /\ remote_calls t = [].
Proof.
  induction items as [|x items IH]; intros Hf i st.
  - exists []. split; reflexivity.
  - cbn [iterate_from].
    destruct (Hf i x st (or_introl eq_refl)) as (t1 & H1 & Hc1).
    destruct (IH (fun i x st Hx => Hf i x st (or_intror Hx)) (i + 1)%Z st)
      as (t2 & H2 & Hc2).
    exists (t1 ++ t2). rewrite (bind_after _ _ _ _ _ _ H1), H2.
    split; [reflexivity|]. rewrite remote_calls_app, Hc1, Hc2. reflexivity.
Qed.

Lemma hybrid_hits_iter (items : list pyval) x :
  all_isinstance items (TCls HybridHits) = true -> In x items ->
  exists hits, py_iter x = Some hits.
Proof.
  intros H Hx. pose proof (all_isinstance_In _ _ H x Hx) as Hi.
  destruct x; try discriminate Hi. destruct c; try discriminate Hi.
  eexists. reflexivity.
Qed.

Lemma log_results_run v st :
  valid_search_result v = true ->
  exists t,
    for_enumerate v (fun i result =>
      for_enumerate result (fun j hit =>
        log Info "Result {i}, {j}: {pprint.pformat(hit)}"
            [LArg (FVal (PInt i)); LArg (FVal (PInt j)); LArg (FVal hit)])) st
    = (Ok tt, st, t) /\ remote_calls t = [].
Proof.
  unfold valid_search_result. intros H.
  apply andb_prop in H. destruct H as [H _].
  apply andb_prop in H. destruct H as [H1 H2].
  destruct v; try discriminate H1. destruct c; try discriminate H1.
  unfold for_enumerate at 1. cbn [py_iter cls_iterable].
  change (items_of (PObj SearchResult items)) with items in H2.
  apply iterate_from_logs. intros i x st' Hx.
  destruct (hybrid_hits_iter _ _ H2 Hx) as (hits & Hh).
  unfold for_enumerate. rewrite Hh.
  apply iterate_from_logs. intros j hit st'' _.
  eexists. split; reflexivity.
Qed.

Section Present.

Variables (self : MilvusClientInit) (name collections : pyval) (st st1 : R).
Hypothesis Hname : isinstance name TStr = true.
Hypothesis Hlist : respond (list_call self) st = (Ok collections, st1).
Hypothesis Hvalid : valid_listing collections = true.
Hypothesis Hpresent : py_in name collections = true.

Lemma drop_collection_present ack st2 collections2 st3 :
  respond (drop_call self name) st1 = (Ok ack, st2) ->
  respond (list_call self) st2 = (Ok collections2, st3) ->
  valid_listing collections2 = true ->
  exists t,
    drop_collection self name st
    = (if py_in name collections2 then Raise still_listed else Ok PNone,
       st3, t)
    /\ remote_calls t = [list_call self; drop_call self name; list_call self].
Proof.
  intros Hd Hl2 Hv2. unfold drop_collection.
  step (DropCollectionParams_ok _ st Hname).
  step (list_collections_ok _ _ _ _ Hlist Hvalid).
  rewrite Hpresent. cbn [negb].
  step (log_run Info "Dropping collection `{name}`" [LArg (FVal name)] st1).
  unfold try_except. fold (drop_call self name).
  step (remote_Ok _ _ _ _ Hd).
  step (list_collections_ok _ _ _ _ Hl2 Hv2).
  destruct (py_in name collections2); cbn; eexists; split; reflexivity.
Qed.

Lemma insert_present data ack st2 :
  list_of TDict data = true ->
  respond (insert_call self name data) st1 = (Ok ack, st2) ->
  insert self name data st
  = (if isinstance ack TDict then Ok ack
     else Raise (validation_error "InsertResults" [PStr "results"]),
     st2,
     listing_events self collections
     ++ [inserting name; EvCall (insert_call self name data);
         EvSleep (PFloat 0.5); EvLog Info "Inserted data" []]
     ++ (if isinstance ack TDict then []
         else [insert_failed
                 (validation_error "InsertResults" [PStr "results"])])).
Proof.
  intros Hd Hi. unfold insert.
  step (InsertParams_ok _ _ st Hname Hd).
  step (list_collections_ok _ _ _ _ Hlist Hvalid).
  rewrite Hpresent. cbn [negb].
  step (log_run Info "Inserting data into `{name}`" [LArg (FVal name)] st1).
  unfold try_except. fold (insert_call self name data).
  step (remote_Ok _ _ _ _ Hi).
  step (sleep_run (PFloat 0.5) st2).
  step (log_run Info "Inserted data" [] st2).
  cbn [bind Monad_M]. unfold M_bind. rewrite InsertResults_run.
  destruct (isinstance ack TDict); reflexivity.
Qed.

Lemma delete_present ids ack st2 :
  list_of TStr ids = true ->
  respond (delete_call self name ids) st1 = (Ok ack, st2) ->
  delete self ids name st
  = (Ok PNone, st2,
     listing_events self collections
     ++ [deleting name; EvCall (delete_call self name ids);
         EvSleep (PFloat 0.5); EvLog Info "Deleted data" []]).
Proof.
  intros Hd Hi. unfold delete.
  step (DeleteParams_ok _ _ st Hname Hd).
  step (list_collections_ok _ _ _ _ Hlist Hvalid).
  rewrite Hpresent. cbn [negb].
  step (log_run Info "Deleting data from `{name}`" [LArg (FVal name)] st1).
  unfold try_except. fold (delete_call self name ids).
  step (remote_Ok _ _ _ _ Hi).
  reflexivity.
Qed.

Lemma full_text_search_present query_list n r st2 :
  list_of TStr query_list = true ->
  respond (search_call self name query_list (PInt n)) st1 = (r, st2) ->
  exists t,
    remote_calls t
    = [list_call self; search_call self name query_list (PInt n)]
    /\ match r with
       | Raise e =>
           full_text_search self name query_list (PInt n) st = (Raise e, st2, t)
       | Ok results =>
           if valid_search_result results then
             full_text_search self name query_list (PInt n) st
             = (Ok results, st2, t)
           else
             exists e,
               full_text_search self name query_list (PInt n) st
               = (Raise e, st2, t) /\ ekind e = TypeError
       end.
Proof.
  intros Hq Hs. unfold full_text_search.
  step (FullTextSearchParams_ok _ _ n st Hname Hq).
  step (list_collections_ok _ _ _ _ Hlist Hvalid).
  rewrite Hpresent. cbn [negb].
  step (log_run Info
          "Performing search on `{name}` for queries: {pprint.pformat(query_list)}"
          [LArg (FVal name); LArg (FVal query_list)] st1).
  unfold try_except, with_spinner.
  fold (search_call self name query_list (PInt n)).
  destruct r as [results|e].
  - step (remote_Ok _ _ _ _ Hs).
    destruct (valid_search_result results) eqn:Hv.
    + step (FullTextSearchResults_valid _ st2 Hv).
      destruct (log_results_run results st2 Hv) as (t & Ht & Hc).
      step Ht. cbn. eexists. split; [|reflexivity].
      cbn. rewrite remote_calls_app, Hc. reflexivity.
    + destruct (FullTextSearchResults_invalid _ st2 Hv) as (e & t & Ht & Hk & Hc).
      rewrite (bind_Raise _ _ _ _ _ _ Ht). cbn.
      eexists. split; [|exists e; split; [reflexivity|exact Hk]].
      cbn. rewrite remote_calls_app, Hc. reflexivity.
  - rewrite (bind_Raise _ _ _ _ _ _ (remote_Raise _ _ _ _ Hs)). cbn.
    eexists. split; [|reflexivity]. reflexivity.
Qed.

End Present.

(* ===================================================================== *)
(** ** create_collection: the schema builder and the post-check *)
(* ===================================================================== *)

Lemma bind_inv {A B} (m : M A) (f : A -> M B) st b st2 t :
  bind m f st = (Ok b, st2, t) ->
  exists a st1 t1 t2,
    m st = (Ok a, st1, t1) /\ f a st1 = (Ok b, st2, t2) /\ t = t1 ++ t2.
Proof.
  cbn. unfold M_bind. destruct (m st) as [[[a|e] st1] t1]; [|discriminate].
  destruct (f a st1) as [[o st2'] t2] eqn:Hf. intros H. inversion H; subst.
  exists a, st1, t1, t2. auto.
Qed.

Lemma try_except_inv {A} (body : M A) handler st a st1 t :
  try_except body handler st = (Ok a, st1, t) -> body st = (Ok a, st1, t).
Proof.
  unfold try_except. destruct (body st) as [[[a'|e] st'] t']; [auto|].
  destruct (handler e st') as [[[]] ?]; discriminate.
Qed.

Lemma keywords_inv kv kw :
  keywords kv = Some kw -> kv = map (fun p => (PStr (fst p), snd p)) kw.
Proof.
  revert kw. induction kv as [|[k v] kv IH]; intros kw H.
  - inversion H. reflexivity.
  - cbn [keywords] in H. destruct k; try discriminate H.
    destruct (keywords kv) as [kw'|]; [|discriminate H].
    inversion H. cbn. rewrite (IH kw' eq_refl). reflexivity.
Qed.

Lemma splat_inv params st kw st' t :
  splat params st = (Ok kw, st', t) ->
  passed_as params kw /\ st' = st /\ t = [].
Proof.
  unfold splat, passed_as. destruct params; try discriminate.
  destruct (keywords kv) as [kw'|] eqn:Hk; [|discriminate].
  intros H. inversion H; subst. rewrite (keywords_inv _ _ Hk). auto.
Qed.

Lemma remote_inv c st v st' t :
  remote c st = (Ok v, st', t) -> t = [EvCall c].
Proof. rewrite remote_run. intros H. inversion H. reflexivity. Qed.

(** A model instantiation performs no call. *)
Lemma model_inv (m : M unit) st r st' t :
  (exists o t', m st = (o, st, t') /\ remote_calls t' = []) ->
  m st = (r, st', t) -> st' = st /\ remote_calls t = [].
Proof.
  intros (o & t' & H & Hc) H'. rewrite H in H'. inversion H'; subst. auto.
Qed.

Lemma CreateFieldParams_calls schema params st :
  exists o t, CreateFieldParams schema params st = (o, st, t)
              /\ remote_calls t = [].
Proof.
  unfold CreateFieldParams, BaseModel.
  cbn [validate_fields fannot fvalue fafter core_validate].
  unfold CreateFieldParams_validate_collection_schema.
  destruct (isinstance schema (TCls CollectionSchema));
    [|do 2 eexists; split; reflexivity].
  step (require_true
          "The argument `schema` should be a `CollectionSchema`, instead got `{type(v)}`."
          [FType schema] st).
  destruct params; do 2 eexists; split; reflexivity.
Qed.

Lemma CreateIndexParams_calls index_params params st :
  exists o t, CreateIndexParams index_params params st = (o, st, t)
              /\ remote_calls t = [].
Proof.
  unfold CreateIndexParams, BaseModel.
  cbn [validate_fields fannot fvalue fafter core_validate].
  unfold CreateIndexParams_validate_index_params.
  destruct (isinstance index_params (TCls IndexParams));
    [|do 2 eexists; split; reflexivity].
  step (require_true
          "The `index_params` argument should be an `IndexParams`, instead got {type(v)}."
          [FType index_params] st).
  destruct params; do 2 eexists; split; reflexivity.
Qed.

(** A successful [_create_field] has called [add_field] once, with the
    items of [params] as keyword arguments. *)
Lemma _create_field_inv self schema params st st' t :
  _create_field self schema params st = (Ok tt, st', t) ->
  exists kw,
    passed_as params kw
    /\ remote_calls t = [Method schema "add_field" [] kw].
Proof.
  unfold _create_field. intros H.
  apply bind_inv in H. destruct H as (u & s1 & t1 & t2 & Hm & H & ->).
  destruct (model_inv _ _ _ _ _ (CreateFieldParams_calls schema params st) Hm)
    as [-> Hc1].
  apply bind_inv in H. destruct H as (u2 & s2 & t3 & t4 & Hlog & H & ->).
  inversion Hlog; subst. clear Hlog.
  apply try_except_inv in H.
  apply bind_inv in H. destruct H as (kw & s3 & t5 & t6 & Hs & H & ->).
  destruct (splat_inv _ _ _ _ _ Hs) as (Hp & -> & ->).
  apply bind_inv in H. destruct H as (v & s4 & t7 & t8 & Hr & H & ->).
  apply remote_inv in Hr. subst t7. inversion H; subst.
  exists kw. split; [exact Hp|].
  rewrite remote_calls_app, Hc1. reflexivity.
Qed.

Lemma _create_index_inv self index_params params st st' t :
  _create_index self index_params params st = (Ok tt, st', t) ->
  exists kw,
    passed_as params kw
    /\ remote_calls t = [Method index_params "add_index" [] kw].
Proof.
  unfold _create_index. intros H.
  apply bind_inv in H. destruct H as (u & s1 & t1 & t2 & Hm & H & ->).
  destruct (model_inv _ _ _ _ _
              (CreateIndexParams_calls index_params params st) Hm)
    as [-> Hc1].
  apply bind_inv in H. destruct H as (u2 & s2 & t3 & t4 & Hlog & H & ->).
  inversion Hlog; subst. clear Hlog.
  apply try_except_inv in H.
  apply bind_inv in H. destruct H as (kw & s3 & t5 & t6 & Hs & H & ->).
  destruct (splat_inv _ _ _ _ _ Hs) as (Hp & -> & ->).
  apply bind_inv in H. destruct H as (v & s4 & t7 & t8 & Hr & H & ->).
  apply remote_inv in Hr. subst t7. inversion H; subst.
  exists kw. split; [exact Hp|].
  rewrite remote_calls_app, Hc1. reflexivity.
Qed.

(** A loop whose every completed turn makes exactly one call. *)
Lemma iterate_calls {K} (f : pyval -> M unit) (entry_of : pyval -> K -> Prop)
                    (call_of : K -> call) (items : list pyval) :
  (forall x st st' t, f x st = (Ok tt, st', t) ->
     exists k, entry_of x k /\ remote_calls t = [call_of k]) ->
  forall st st' t,
    iterate items f st = (Ok tt, st', t) ->
    exists ks, Forall2 entry_of items ks
               /\ remote_calls t = map call_of ks.
Proof.
  intros Hf. induction items as [|x items IH]; intros st st' t H.
  - inversion H. exists []. split; [constructor|reflexivity].
  - cbn [iterate] in H. apply bind_inv in H.
    destruct H as ([] & s1 & t1 & t2 & Hx & H & ->).
    destruct (Hf _ _ _ _ Hx) as (k & Hk & Hc).
    destruct (IH _ _ _ H) as (ks & Hks & Hcs).
    exists (k :: ks). split; [constructor; assumption|].
    rewrite remote_calls_app, Hc, Hcs. reflexivity.
Qed.

Lemma for_each_inv v f st st' t :
  for_each v f st = (Ok tt, st', t) ->
  iterate (items_of v) f st = (Ok tt, st', t).
Proof.
  unfold for_each, items_of. destruct (py_iter v); [auto|discriminate].
Qed.

Lemma calls_to_map_same (m : string) {K} (call_of : K -> call) (ks : list K) :
  (forall k, exists recv args kwargs, call_of k = Method recv m args kwargs) ->
  filter (invokes m) (map call_of ks) = map call_of ks.
Proof.
  intros H. induction ks as [|k ks IH]; [reflexivity|].
  cbn [map filter]. destruct (H k) as (recv & args & kwargs & ->).
  cbn [invokes]. rewrite String.eqb_refl, IH. reflexivity.
Qed.

Lemma calls_to_map_other (m m0 : string) {K} (call_of : K -> call) (ks : list K) :
  String.eqb m m0 = false ->
  (forall k, exists recv args kwargs, call_of k = Method recv m0 args kwargs) ->
  filter (invokes m) (map call_of ks) = [].
Proof.
  intros Hne H. induction ks as [|k ks IH]; [reflexivity|].
  cbn [map filter]. destruct (H k) as (recv & args & kwargs & ->).
  cbn [invokes]. rewrite Hne, IH. reflexivity.
Qed.

(** A successful run of the schema builder has made these calls, in this
    order. *)
Lemma build_schema_inv self fields funcs indexes st schema index_params st' t :
  build_schema self fields funcs indexes st
  = (Ok (schema, index_params), st', t) ->
  exists fkw ikw,
    Forall2 passed_as (items_of fields) fkw
    /\ Forall2 passed_as (items_of indexes) ikw
    /\ remote_calls t
       = Method (client self) "create_schema" []
                [("enable_dynamic_field", PBool true)]
         :: map (add_field_call schema) fkw
         ++ map (add_function_call schema) (items_of funcs)
         ++ Method (client self) "prepare_index_params" [] []
         :: map (add_index_call index_params) ikw.
Proof.
  unfold build_schema. intros H.
  apply bind_inv in H. destruct H as (sch & s1 & t1 & t2 & Hs & H & ->).
  apply remote_inv in Hs. subst t1.
  apply bind_inv in H. destruct H as ([] & s2 & t3 & t4 & Hf & H & ->).
  apply bind_inv in H. destruct H as ([] & s3 & t5 & t6 & Hg & H & ->).
  apply bind_inv in H. destruct H as (ip & s4 & t7 & t8 & Hp & H & ->).
  apply remote_inv in Hp. subst t7.
  apply bind_inv in H. destruct H as ([] & s5 & t9 & t10 & Hi & H & ->).
  inversion H; subst. clear H.
  apply for_each_inv in Hf, Hg, Hi.
  destruct (iterate_calls _ passed_as (add_field_call schema) _
              (fun x st st' t => _create_field_inv self schema x st st' t)
              _ _ _ Hf) as (fkw & Hfkw & Hfc).
  destruct (iterate_calls _ passed_as (add_index_call index_params) _
              (fun x st st' t => _create_index_inv self index_params x st st' t)
              _ _ _ Hi) as (ikw & Hikw & Hic).
  assert (exists gs, Forall2 eq (items_of funcs) gs
                     /\ remote_calls t5 = map (add_function_call schema) gs)
    as (gs & Hgs & Hgc).
  { refine (iterate_calls _ eq (add_function_call schema) _ _ _ _ _ Hg).
    intros x st0 st1 t0 Hx. exists x. split; [reflexivity|].
    apply bind_inv in Hx. destruct Hx as (v & s6 & ta & tb & Hr & Hx & ->).
    apply remote_inv in Hr. subst ta. inversion Hx. reflexivity. }
  assert (gs = items_of funcs) as ->.
  { clear -Hgs. induction Hgs; congruence. }
  exists fkw, ikw. split; [exact Hfkw|]. split; [exact Hikw|].
  rewrite !remote_calls_app, Hfc, Hgc, Hic. cbn.
  rewrite app_nil_r. reflexivity.
Qed.

(** [list_collections] calls the client once, however it ends. *)
Lemma list_collections_calls self st :
  remote_calls (trace_of (list_collections self st)) = [list_call self].
Proof.
  destruct (respond (list_call self) st) as [[c|e] s] eqn:Hr.
  - rewrite (list_collections_run _ _ _ _ Hr), ListCollectionsResults_run.
    destruct (lax_sequence c) as [items|]; [|reflexivity].
    destruct (all_isinstance items TStr); [reflexivity|].
    destruct (forallb str_or_none items); reflexivity.
  - rewrite (list_collections_raise _ _ _ _ Hr). reflexivity.
Qed.

(** The remote create and the post-check, when the create succeeds and
    the second listing comes back. *)
Lemma create_and_check_run self name schema index_params st ack st2
      collections2 st3 :
  respond (create_call self name schema index_params) st = (Ok ack, st2) ->
  respond (list_call self) st2 = (Ok collections2, st3) ->
  valid_listing collections2 = true ->
  exists t,
    create_and_check self name schema index_params st
    = (if py_in name collections2 then Ok PNone else Raise not_listed, st3, t)
    /\ remote_calls t
       = [create_call self name schema index_params; list_call self].
Proof.
  intros Hc Hl Hv. unfold create_and_check.
  fold (create_call self name schema index_params).
  step (remote_Ok _ _ _ _ Hc).
  step (list_collections_ok _ _ _ _ Hl Hv).
  destruct (py_in name collections2); cbn; eexists; split; reflexivity.
Qed.

(** The remote create and the post-check call nothing but
    [create_collection] and [list_collections]. *)
Lemma create_and_check_calls self name schema index_params st :
  exists rest,
    remote_calls (trace_of (create_and_check self name schema index_params st))
    = create_call self name schema index_params :: rest
    /\ (rest = [] \/ rest = [list_call self]).
Proof.
  unfold create_and_check.
  fold (create_call self name schema index_params).
  destruct (respond (create_call self name schema index_params) st)
    as [[ack|e] st2] eqn:Hc.
  - step (remote_Ok _ _ _ _ Hc).
    pose proof (list_collections_calls self st2) as Hl.
    destruct (list_collections self st2) as [[[c|e] st3] t3] eqn:Hrun.
    + step Hrun. cbn [trace_of snd] in Hl.
      exists [list_call self]. split; [|right; reflexivity].
      destruct (py_in name c); cbn; rewrite remote_calls_app, Hl; reflexivity.
    + rewrite (bind_Raise _ _ _ _ _ _ Hrun). cbn [trace_of snd] in Hl.
      exists [list_call self]. split; [|right; reflexivity].
      cbn. rewrite Hl. reflexivity.
  - rewrite (bind_Raise _ _ _ _ _ _ (remote_Raise _ _ _ _ Hc)).
    exists []. split; [reflexivity|left; reflexivity].
Qed.

(** [create_collection] on a fresh name, once the schema builder has
    succeeded: the rest is the remote create and the post-check, and an
    error log when they raise. *)
Lemma create_collection_fresh self name fields funcs indexes
      collections st st1 schema index_params st2 t2 :
  isinstance name TStr = true ->
  list_of TDict fields = true ->
  list_of (TCls Function) funcs = true ->
  list_of TDict indexes = true ->
  respond (list_call self) st = (Ok collections, st1) ->
  valid_listing collections = true ->
  py_in name collections = false ->
  build_schema self fields funcs indexes st1
  = (Ok (schema, index_params), st2, t2) ->
  let r := create_and_check self name schema index_params st2 in
  create_collection self name fields funcs indexes st
  = (outcome_of r, state_of r,
     listing_events self collections ++ [creating name] ++ t2 ++ trace_of r
     ++ match outcome_of r with
        | Ok _ => []
        | Raise e => [create_failed name e]
        end).
Proof.
  intros Hn Hf Hg Hi Hl Hv Ha Hb r. unfold create_collection.
  step (CreateCollectionParams_ok _ _ _ _ st Hn Hf Hg Hi).
  step (list_collections_ok _ _ _ _ Hl Hv).
  rewrite Ha.
  step (log_run Info "Creating collection `{name}`" [LArg (FVal name)] st1).
  unfold try_except. step Hb. cbn beta iota. fold r.
  destruct r as [[[v|e] s] t]; cbn; rewrite ?app_nil_r; try reflexivity.
  rewrite <- !app_assoc. reflexivity.
Qed.

(* ===================================================================== *)
(** ** The constructor *)
(* ===================================================================== *)

Lemma InitClientResults_run v st :
  InitClientResults v st
  = if isinstance v (TCls MilvusClient) then (Ok tt, st, [])
    else (Raise (Exn TypeError not_a_client [FType v]), st,
          [EvLog Error not_a_client [LArg (FType v)]]).
Proof.
  unfold InitClientResults, BaseModel.
  cbn [validate_fields fannot fvalue fafter core_validate].
  unfold InitClientResults_validate_results. fold not_a_client.
  destruct (isinstance v (TCls MilvusClient)); reflexivity.
Qed.

Lemma init_with_client u c st :
  c <> PNone ->
  __init__ (PStr u) c st
  = if isinstance c (TCls MilvusClient)
    then (Ok {| uri := PStr u; client := c |}, st, [])
    else (Raise (Exn TypeError not_a_client [FType c]), st,
          [EvLog Error not_a_client [LArg (FType c)];
           init_failed (Exn TypeError not_a_client [FType c])]).
Proof.
  intros Hc. unfold __init__.
  step (eq_refl : InitClientParams (PStr u) st = (Ok tt, st, [])).
  unfold try_except.
  assert (forall k : M MilvusClientInit,
             match c with
             | PNone => k
             | _ => InitClientResults c ;;
                    ret {| uri := PStr u; client := c |}
             end
             = (InitClientResults c ;; ret {| uri := PStr u; client := c |}))
    as Hm by (intros k; destruct c; [contradiction|reflexivity..]).
  rewrite Hm. cbn [bind Monad_M]. unfold M_bind at 1.
  rewrite InitClientResults_run.
  destruct (isinstance c (TCls MilvusClient)); reflexivity.
Qed.

Lemma _init_client_run u r st st1 :
  respond (New MilvusClient [("uri", u)]) st = (r, st1) ->
  _init_client u st
  = match r with
    | Raise e =>
        (Raise e, st1,
         [starting u; EvCall (New MilvusClient [("uri", u)]); connect_failed e])
    | Ok c =>
        if isinstance c (TCls MilvusClient)
        then (Ok c, st1,
              [starting u; EvCall (New MilvusClient [("uri", u)]); connected u])
        else (Raise (Exn TypeError not_a_client [FType c]), st1,
              [starting u; EvCall (New MilvusClient [("uri", u)]);
               EvLog Error not_a_client [LArg (FType c)];
               connect_failed (Exn TypeError not_a_client [FType c])])
    end.
Proof.
  intros Hr. unfold _init_client.
  step (log_run Info "Starting Milvus client on URI `{self.uri}`"
          [LArg (FVal u)] st).
  unfold try_except. destruct r as [c|e].
  - step (remote_Ok _ _ _ _ Hr). cbn [bind Monad_M]. unfold M_bind at 1.
    rewrite InitClientResults_run.
    destruct (isinstance c (TCls MilvusClient)); reflexivity.
  - rewrite (bind_Raise _ _ _ _ _ _ (remote_Raise _ _ _ _ Hr)). reflexivity.
Qed.

Lemma init_without_client u r st st1 :
  respond (New MilvusClient [("uri", PStr u)]) st = (r, st1) ->
  __init__ (PStr u) PNone st
  = match r with
    | Raise e =>
        (Raise e, st1,
         [starting (PStr u); EvCall (New MilvusClient [("uri", PStr u)]);
          connect_failed e; init_failed e])
    | Ok c =>
        if isinstance c (TCls MilvusClient)
        then (Ok {| uri := PStr u; client := c |}, st1,
              [starting (PStr u); EvCall (New MilvusClient [("uri", PStr u)]);
               connected (PStr u)])
        else (Raise (Exn TypeError not_a_client [FType c]), st1,
              [starting (PStr u); EvCall (New MilvusClient [("uri", PStr u)]);
               EvLog Error not_a_client [LArg (FType c)];
               connect_failed (Exn TypeError not_a_client [FType c]);
               init_failed (Exn TypeError not_a_client [FType c])])
    end.
Proof.
  intros Hr. unfold __init__.
  step (eq_refl : InitClientParams (PStr u) st = (Ok tt, st, [])).
  unfold try_except. cbn [bind Monad_M]. unfold M_bind.
  rewrite (_init_client_run _ _ _ _ Hr).
  destruct r as [c|e]; [|reflexivity].
  destruct (isinstance c (TCls MilvusClient)); reflexivity.
Qed.

(* ===================================================================== *)
(** ** delete: what it returns and what it refuses *)
(* ===================================================================== *)




(* ===================================================================== *)
(** ** The properties of the facade *)
(* ===================================================================== *)

(** C2. On a collection that the remote listing contains, with a list of
    string queries and an integer limit, [full_text_search] calls the
    remote [search] exactly once, on the sparse field, asking for the
    text field, with the given limit and a drop ratio of 0.2; besides the
    listing it makes no other call.  It returns what the remote search
    returned when that is a [SearchResult] of [HybridHits] of [Hit]s,
    raises a [TypeError] when it is not, and re-raises what the remote
    search raised. *)
Theorem full_text_search_delegates_once
  (self : MilvusClientInit) (name query_list collections : pyval) (n : Z)
  (st st1 st2 : R) (r : outcome pyval) :
  isinstance name TStr = true ->
  list_of TStr query_list = true ->
  respond (list_call self) st = (Ok collections, st1) ->
  valid_listing collections = true ->
  py_in name collections = true ->
  let search :=
    Method (client self) "search" []
      [("collection_name", name);
       ("data", query_list);
       ("anns_field", PStr "sparse");
       ("output_fields", PList [PStr "text"]);
       ("limit", PInt n);
       ("search_params",
        PDict [(PStr "params",
                PDict [(PStr "drop_ratio_search", PFloat 0.2)])])] in
  respond search st1 = (r, st2) ->
  let run := full_text_search self name query_list (PInt n) st in
  calls_to "search" (trace_of run) = [search]
  /\ remote_calls (trace_of run) = [list_call self; search]
  /\ match r with
     | Ok results =>
         if valid_search_result results
         then outcome_of run = Ok results
         else exists e, outcome_of run = Raise e /\ ekind e = TypeError
     | Raise e => outcome_of run = Raise e
     end.
Proof.
  intros Hn Hq Hl Hv Hp search Hs run.
  destruct (full_text_search_present self name collections st st1
              Hn Hl Hv Hp query_list n r st2 Hq Hs) as (t & Hc & Hrun).
  assert (trace_of run = t) as Ht.
  { subst run. destruct r as [results|e].
    - destruct (valid_search_result results).
      + rewrite Hrun. reflexivity.
      + destruct Hrun as (e & -> & _). reflexivity.
    - rewrite Hrun. reflexivity. }
  rewrite Ht. split; [|split].
  - unfold calls_to. rewrite Hc. reflexivity.
  - exact Hc.
  - subst run. destruct r as [results|e].
    + destruct (valid_search_result results).
      * rewrite Hrun. reflexivity.
      * destruct Hrun as (e & -> & He). exists e. auto.
    + rewrite Hrun. reflexivity.
Qed.

(** C3. A well-typed call of [drop_collection], [insert], [delete] or
    [full_text_search] on a name that the remote listing does not
    contain returns [None] right after the listing: the listing is the
    only remote call, followed by one informational log line. *)
Theorem missing_collection_returns_None
  (self : MilvusClientInit) (name collections data ids query_list : pyval)
  (n : Z) (st st1 : R) :
  isinstance name TStr = true ->
  list_of TDict data = true ->
  list_of TStr ids = true ->
  list_of TStr query_list = true ->
  respond (list_call self) st = (Ok collections, st1) ->
  valid_listing collections = true ->
  py_in name collections = false ->
  let early :=
    (Ok PNone, st1,
     [EvCall (list_call self);
      EvLog Info "Available collections: {pprint.pformat(collections)}"
            [LArg (FVal collections)];
      EvLog Info "Cannot find collection `{name}`." [LArg (FVal name)]]) in
  drop_collection self name st = early
  /\ insert self name data st = early
  /\ delete self ids name st = early
  /\ full_text_search self name query_list (PInt n) st = early
  /\ remote_calls (trace_of early) = [list_call self].
Proof.
  intros Hn Hd Hi Hq Hl Hv Ha early. repeat split.
  - exact (drop_collection_absent self name collections st st1 Hn Hl Hv Ha).
  - exact (insert_absent self name collections st st1 Hn Hl Hv data Hd Ha).
  - exact (delete_absent self name collections st st1 Hn Hl Hv ids Hi Ha).
  - exact (full_text_search_absent self name collections st st1 Hn Hl Hv
             query_list n Hq Ha).
Qed.

(** C4. A well-typed call of [create_collection] on a name that the
    remote listing already contains does nothing: it logs at level info
    that the collection exists and returns; the listing is its only
    remote call, so no schema, field, function or index is created and
    the remote create is not invoked. *)
Theorem create_collection_existing_is_no_op
  (self : MilvusClientInit) (name fields funcs indexes collections : pyval)
  (st st1 : R) :
  isinstance name TStr = true ->
  list_of TDict fields = true ->
  list_of (TCls Function) funcs = true ->
  list_of TDict indexes = true ->
  respond (list_call self) st = (Ok collections, st1) ->
  valid_listing collections = true ->
  py_in name collections = true ->
  let run := create_collection self name fields funcs indexes st in
  run = (Ok PNone, st1,
         [EvCall (list_call self);
          EvLog Info "Available collections: {pprint.pformat(collections)}"
                [LArg (FVal collections)];
          EvLog Info "Collections `{name}` already exists."
                [LArg (FVal name)]])
  /\ remote_calls (trace_of run) = [list_call self].
Proof.
  intros Hn Hf Hg Hi Hl Hv Hp run. subst run.
  rewrite (create_collection_present self name collections st st1 Hn Hl Hv
             fields funcs indexes Hf Hg Hi Hp).
  split; reflexivity.
Qed.

(** C5. Once the remote create (resp. drop) has succeeded and the
    collections have been listed again, [create_collection] raises a
    [ValueError] exactly when the name is missing from the new listing,
    [drop_collection] exactly when the name is still in it; otherwise
    they return [None]. *)
Theorem post_check_raises_iff_change_not_observed :
  (forall (self : MilvusClientInit)
          (name fields funcs indexes collections schema index_params
           ack collections2 : pyval)
          (st st1 st2 st3 st4 : R) (t2 : list event),
      isinstance name TStr = true ->
      list_of TDict fields = true ->
      list_of (TCls Function) funcs = true ->
      list_of TDict indexes = true ->
      respond (list_call self) st = (Ok collections, st1) ->
      valid_listing collections = true ->
      py_in name collections = false ->
      build_schema self fields funcs indexes st1
      = (Ok (schema, index_params), st2, t2) ->
      respond (create_call self name schema index_params) st2
      = (Ok ack, st3) ->
      respond (list_call self) st3 = (Ok collections2, st4) ->
      valid_listing collections2 = true ->
      outcome_of (create_collection self name fields funcs indexes st)
      = if py_in name collections2 then Ok PNone
        else Raise (Exn ValueError
                      "The new collection `name` is not in the collections list."
                      []))
  /\
  (forall (self : MilvusClientInit) (name collections ack collections2 : pyval)
          (st st1 st2 st3 : R),
      isinstance name TStr = true ->
      respond (list_call self) st = (Ok collections, st1) ->
      valid_listing collections = true ->
      py_in name collections = true ->
      respond (drop_call self name) st1 = (Ok ack, st2) ->
      respond (list_call self) st2 = (Ok collections2, st3) ->
      valid_listing collections2 = true ->
      outcome_of (drop_collection self name st)
      = if py_in name collections2
        then Raise (Exn ValueError
                      "The collection `name` is still in the collections list."
                      [])
        else Ok PNone).
Proof.
  split.
  - intros self name fields funcs indexes collections schema index_params
      ack collections2 st st1 st2 st3 st4 t2
      Hn Hf Hg Hi Hl Hv Ha Hb Hc Hl2 Hv2.
    rewrite (create_collection_fresh self name fields funcs indexes
               collections st st1 schema index_params st2 t2
               Hn Hf Hg Hi Hl Hv Ha Hb).
    destruct (create_and_check_run self name schema index_params st2 ack st3
                collections2 st4 Hc Hl2 Hv2) as (t & -> & _).
    reflexivity.
  - intros self name collections ack collections2 st st1 st2 st3
      Hn Hl Hv Hp Hd Hl2 Hv2.
    destruct (drop_collection_present self name collections st st1
                Hn Hl Hv Hp ack st2 collections2 st3 Hd Hl2 Hv2)
      as (t & -> & _).
    reflexivity.
Qed.

(** C6. On a collection that the remote listing contains, when the
    remote call succeeds, [insert] and [delete] call [time.sleep(0.5)]
    right after it and before they return.  [insert] then checks that the
    acknowledgment is a dict and returns it ([ValidationError] if not);
    [delete] returns [None]. *)
Theorem insert_and_delete_sleep_before_returning :
  (forall (self : MilvusClientInit) (name collections data ack : pyval)
          (st st1 st2 : R),
      isinstance name TStr = true ->
      list_of TDict data = true ->
      respond (list_call self) st = (Ok collections, st1) ->
      valid_listing collections = true ->
      py_in name collections = true ->
      respond (insert_call self name data) st1 = (Ok ack, st2) ->
      insert self name data st
      = (if isinstance ack TDict then Ok ack
         else Raise (validation_error "InsertResults" [PStr "results"]),
         st2,
         listing_events self collections
         ++ [EvLog Info "Inserting data into `{name}`" [LArg (FVal name)];
             EvCall (insert_call self name data);
             EvSleep (PFloat 0.5);
             EvLog Info "Inserted data" []]
         ++ (if isinstance ack TDict then []
             else [insert_failed
                     (validation_error "InsertResults" [PStr "results"])])))
  /\
  (forall (self : MilvusClientInit) (name collections ids ack : pyval)
          (st st1 st2 : R),
      isinstance name TStr = true ->
      list_of TStr ids = true ->
      respond (list_call self) st = (Ok collections, st1) ->
      valid_listing collections = true ->
      py_in name collections = true ->
      respond (delete_call self name ids) st1 = (Ok ack, st2) ->
      delete self ids name st
      = (Ok PNone, st2,
         listing_events self collections
         ++ [EvLog Info "Deleting data from `{name}`" [LArg (FVal name)];
             EvCall (delete_call self name ids);
             EvSleep (PFloat 0.5);
             EvLog Info "Deleted data" []])).
Proof.
  split.
  - intros self name collections data ack st st1 st2 Hn Hd Hl Hv Hp Hins.
    exact (insert_present self name collections st st1 Hn Hl Hv Hp
             data ack st2 Hd Hins).
  - intros self name collections ids ack st st1 st2 Hn Hi Hl Hv Hp Hdel.
    exact (delete_present self name collections st st1 Hn Hl Hv Hp
             ids ack st2 Hi Hdel).
Qed.

(** C7. [create_collection] on a fresh name, when its schema builder
    runs to the end: [add_field] has been called on the schema exactly
    once per entry of [field_params_list] and [add_index] on the index
    parameters exactly once per entry of [index_params_list], in list
    order, each call receiving the key-value pairs of its entry, in
    their order and unchanged, as keyword arguments; no other call of
    either method is made, whatever the remote create and the post-check
    do afterwards. *)
Theorem schema_builder_passes_entries_through
  (self : MilvusClientInit)
  (name fields funcs indexes collections schema index_params : pyval)
  (st st1 st2 : R) (t2 : list event) :
  isinstance name TStr = true ->
  list_of TDict fields = true ->
  list_of (TCls Function) funcs = true ->
  list_of TDict indexes = true ->
  respond (list_call self) st = (Ok collections, st1) ->
  valid_listing collections = true ->
  py_in name collections = false ->
  build_schema self fields funcs indexes st1
  = (Ok (schema, index_params), st2, t2) ->
  let trace :=
    trace_of (create_collection self name fields funcs indexes st) in
  exists fkw ikw : list (list (string * pyval)),
    Forall2 passed_as (items_of fields) fkw
    /\ Forall2 passed_as (items_of indexes) ikw
    /\ calls_to "add_field" trace
       = map (fun kw => Method schema "add_field" [] kw) fkw
    /\ calls_to "add_index" trace
       = map (fun kw => Method index_params "add_index" [] kw) ikw.
Proof.
  intros Hn Hf Hg Hi Hl Hv Ha Hb trace. subst trace.
  rewrite (create_collection_fresh self name fields funcs indexes
             collections st st1 schema index_params st2 t2
             Hn Hf Hg Hi Hl Hv Ha Hb).
  cbn zeta. cbn [trace_of snd].
  destruct (build_schema_inv _ _ _ _ _ _ _ _ _ Hb) as (fkw & ikw & Hfk & Hik & Hc).
  destruct (create_and_check_calls self name schema index_params st2)
    as (rest & Hcc & Hrest).
  exists fkw, ikw. split; [exact Hfk|]. split; [exact Hik|].
  assert (forall cs, remote_calls (map EvCall cs) = cs) as Hmap
    by (induction cs as [|c cs IH]; [reflexivity|cbn; rewrite IH; reflexivity]).
  assert (forall m,
            String.eqb m "list_collections" = false ->
            String.eqb m "create_schema" = false ->
            String.eqb m "prepare_index_params" = false ->
            String.eqb m "create_collection" = false ->
            String.eqb m "add_function" = false ->
            calls_to m
              (listing_events self collections ++ [creating name] ++ t2
               ++ trace_of (create_and_check self name schema index_params st2)
               ++ match outcome_of
                          (create_and_check self name schema index_params st2)
                  with
                  | Ok _ => []
                  | Raise e => [create_failed name e]
                  end)
            = filter (invokes m) (map (add_field_call schema) fkw)
              ++ filter (invokes m) (map (add_index_call index_params) ikw))
    as Hcalls.
  { intros m H1 H2 H3 H4 H5.
    unfold calls_to. rewrite !remote_calls_app, Hc, Hcc.
    assert (remote_calls
              match outcome_of
                      (create_and_check self name schema index_params st2)
              with
              | Ok _ => []
              | Raise e => [create_failed name e]
              end = []) as -> by (destruct (outcome_of _); reflexivity).
    assert (filter (invokes m) rest = []) as Hr.
    { destruct Hrest as [->| ->]; [reflexivity|].
      unfold list_call. cbn [filter invokes]. rewrite H1. reflexivity. }
    change (remote_calls (listing_events self collections))
      with [list_call self].
    change (remote_calls [creating name]) with (@nil call).
    rewrite app_nil_r. unfold list_call, create_call.
    repeat (rewrite ?filter_app; cbn [filter invokes app];
            rewrite ?H1, ?H2, ?H3, ?H4, ?Hr).
    rewrite (calls_to_map_other m "add_function" (add_function_call schema)
               (items_of funcs) H5)
      by (intros k; unfold add_function_call; eauto).
    rewrite app_nil_r. reflexivity. }
  split.
  - rewrite (Hcalls "add_field") by reflexivity.
    rewrite (calls_to_map_same "add_field" (add_field_call schema) fkw)
      by (intros k; unfold add_field_call; eauto).
    rewrite (calls_to_map_other "add_field" "add_index"
               (add_index_call index_params) ikw eq_refl)
      by (intros k; unfold add_index_call; eauto).
    apply app_nil_r.
  - rewrite (Hcalls "add_index") by reflexivity.
    rewrite (calls_to_map_same "add_index" (add_index_call index_params) ikw)
      by (intros k; unfold add_index_call; eauto).
    rewrite (calls_to_map_other "add_index" "add_field"
               (add_field_call schema) fkw eq_refl)
      by (intros k; unfold add_field_call; eauto).
    reflexivity.
Qed.

(** C8. Given a handle, the constructor checks that it is a
    [MilvusClient]: if so it stores it unchanged and calls nothing; if
    not it logs and raises a [TypeError].  Given no handle, it constructs
    a [MilvusClient] from the URI and stores it; when the construction
    raises (server unreachable), the constructor logs and raises the same
    exception. *)
Theorem constructor_validates_or_connects :
  (forall (u : string) (c : pyval) (st : R),
      c <> PNone ->
      isinstance c (TCls MilvusClient) = true ->
      __init__ (PStr u) c st = (Ok {| uri := PStr u; client := c |}, st, []))
  /\
  (forall (u : string) (c : pyval) (st : R),
      c <> PNone ->
      isinstance c (TCls MilvusClient) = false ->
      let e := Exn TypeError not_a_client [FType c] in
      __init__ (PStr u) c st
      = (Raise e, st,
         [EvLog Error not_a_client [LArg (FType c)];
          EvLog Info "Problem initializing Milvus client: {str(e)}" [LExn e]]))
  /\
  (forall (u : string) (c : pyval) (st st1 : R),
      respond (New MilvusClient [("uri", PStr u)]) st = (Ok c, st1) ->
      isinstance c (TCls MilvusClient) = true ->
      outcome_of (__init__ (PStr u) PNone st)
      = Ok {| uri := PStr u; client := c |}
      /\ remote_calls (trace_of (__init__ (PStr u) PNone st))
         = [New MilvusClient [("uri", PStr u)]])
  /\
  (forall (u : string) (e : exn) (st st1 : R),
      respond (New MilvusClient [("uri", PStr u)]) st = (Raise e, st1) ->
      __init__ (PStr u) PNone st
      = (Raise e, st1,
         [EvLog Info "Starting Milvus client on URI `{self.uri}`"
                [LArg (FVal (PStr u))];
          EvCall (New MilvusClient [("uri", PStr u)]);
          EvLog Error "Problem connecting to Milvus client: `{str(e)}`" [LExn e];
          EvLog Info "Problem initializing Milvus client: {str(e)}" [LExn e]])).
Proof.
  split; [|split; [|split]].
  - intros u c st Hc Hi. rewrite (init_with_client u c st Hc), Hi. reflexivity.
  - intros u c st Hc Hi. rewrite (init_with_client u c st Hc), Hi.
    reflexivity.
  - intros u c st st1 Hr Hi.
    rewrite (init_without_client _ _ _ _ Hr), Hi. split; reflexivity.
  - intros u e st st1 Hr. rewrite (init_without_client _ _ _ _ Hr). reflexivity.
Qed.



(* ===================================================================== *)
(** ** More of the facade: what holds for every input *)
(* ===================================================================== *)

Lemma run_eta {A} (r : outcome A * R * list event) :
  r = (outcome_of r, state_of r, trace_of r).
Proof. destruct r as [[o s] t]. reflexivity. Qed.

Lemma bind_Raise_inv {A B} (m : M A) (f : A -> M B) st e st2 t :
  bind m f st = (Raise e, st2, t) ->
  m st = (Raise e, st2, t)
  \/ exists a st1 t1 t2,
       m st = (Ok a, st1, t1) /\ f a st1 = (Raise e, st2, t2) /\ t = t1 ++ t2.
Proof.
  cbn. unfold M_bind. destruct (m st) as [[[a|e1] st1] t1].
  - destruct (f a st1) as [[r st3] t2] eqn:Hf. intros H. inversion H; subst.
    right. exists a, st1, t1, t2. auto.
  - intros H. inversion H; subst. left. reflexivity.
Qed.

Lemma try_except_Raise_inv {A} (body : M A) handler st e st2 t :
  reporter handler ->
  try_except body handler st = (Raise e, st2, t) ->
  exists t1 lvl text args,
    body st = (Raise e, st2, t1)
    /\ t = t1 ++ [EvLog lvl text args] /\ In (LExn e) args.
Proof.
  intros Hh. unfold try_except.
  destruct (body st) as [[[a|e1] st1] t1]; [discriminate|].
  destruct (Hh e1 st1) as (lvl & text & args & Hrun & Hin). rewrite Hrun.
  intros H. inversion H; subst. exists t1, lvl, text, args. auto.
Qed.

Lemma reporter_log lvl text (args : exn -> list log_arg) :
  (forall e, In (LExn e) (args e)) ->
  reporter (fun e => log lvl text (args e)).
Proof.
  intros H e st. exists lvl, text, (args e). split; [reflexivity | apply H].
Qed.

(** *** Models are checked *)

Lemma checked_ret : checked (ret tt).
Proof. intros st. exists (Ok tt), []. split; reflexivity. Qed.

Lemma checked_require test text args : checked (require test text args).
Proof.
  intros st. destruct test.
  - exists (Ok tt), []. split; reflexivity.
  - exists (Raise (Exn TypeError text args)), [EvLog Error text (map LArg args)].
    split; [reflexivity|]. right. split; reflexivity.
Qed.

Lemma checked_bind (m : M unit) (f : unit -> M unit) :
  checked m -> (forall u, checked (f u)) -> checked (bind m f).
Proof.
  intros Hm Hf st. destruct (Hm st) as (o & t & Hrun & Ho).
  destruct o as [[]|e].
  - subst t. rewrite (bind_after _ _ _ _ _ _ Hrun).
    destruct (Hf tt st) as (o2 & t2 & Hrun2 & Ho2). rewrite Hrun2.
    exists o2, t2. split; [reflexivity | exact Ho2].
  - rewrite (bind_Raise _ _ _ _ _ _ Hrun). exists (Raise e), t.
    split; [reflexivity | exact Ho].
Qed.

Lemma checked_iterate items (f : pyval -> M unit) :
  (forall x, checked (f x)) -> checked (iterate items f).
Proof.
  intros Hf. induction items as [|x rest IH]; cbn [iterate].
  - apply checked_ret.
  - apply checked_bind; [apply Hf | intros _; exact IH].
Qed.

Lemma checked_validate_fields model fields :
  (forall f v, In f fields -> checked (fafter f v)) ->
  forall failed, checked (validate_fields model fields failed).
Proof.
  induction fields as [|f rest IH]; intros Hf failed; cbn [validate_fields].
  - destruct failed as [|x failed].
    + apply checked_ret.
    + intros st. exists (Raise (validation_error model (x :: failed))), [].
      split; [reflexivity|]. left. split; reflexivity.
  - destruct (core_validate (fannot f) (fvalue f)) as [v|].
    + apply checked_bind.
      * apply Hf. left. reflexivity.
      * intros _. apply IH. intros f' v' Hin. apply Hf. right. exact Hin.
    + apply IH. intros f' v' Hin. apply Hf. right. exact Hin.
Qed.

Lemma checked_BaseModel model fields :
  (forall f v, In f fields -> checked (fafter f v)) ->
  checked (BaseModel model fields).
Proof. intros H. apply checked_validate_fields. exact H. Qed.

(** Every field validator of [milvus_types.py] is a sequence of
    [require]s, the last one possibly under a loop. *)
Ltac checked_validator :=
  repeat first
    [ apply checked_require
    | apply checked_bind
    | apply checked_iterate
    | intro ].

Ltac checked_model :=
  apply checked_BaseModel;
  let f := fresh "f" in
  let v := fresh "v" in
  let H := fresh "H" in
  intros f v H; cbn [In] in H;
  repeat (destruct H as [<- | H]; [cbn [fafter]; checked_validator |]);
  destruct H.

Lemma checked_InitClientParams uri : checked (InitClientParams uri).
Proof.
  unfold InitClientParams, InitClientParams_validate_uri. checked_model.
Qed.

Lemma checked_InitClientResults v : checked (InitClientResults v).
Proof.
  unfold InitClientResults, InitClientResults_validate_results. checked_model.
Qed.

Lemma checked_CreateFieldParams schema params :
  checked (CreateFieldParams schema params).
Proof.
  unfold CreateFieldParams, CreateFieldParams_validate_collection_schema,
    CreateFieldParams_validate_params.
  checked_model.
Qed.

Lemma checked_CreateIndexParams index_params params :
  checked (CreateIndexParams index_params params).
Proof.
  unfold CreateIndexParams, CreateIndexParams_validate_index_params,
    CreateIndexParams_validate_params.
  checked_model.
Qed.

Lemma checked_ListCollectionsResults v : checked (ListCollectionsResults v).
Proof.
  unfold ListCollectionsResults, ListCollectionsResults_validate_results.
  checked_model.
Qed.

Lemma checked_CreateCollectionParams name fields funcs indexes :
  checked (CreateCollectionParams name fields funcs indexes).
Proof.
  unfold CreateCollectionParams, CreateCollectionParams_validate_name,
    CreateCollectionParams_validate_field_params_list,
    CreateCollectionParams_validate_func_list,
    CreateCollectionParams_validate_index_params_list.
  checked_model.
Qed.

Lemma checked_DropCollectionParams name : checked (DropCollectionParams name).
Proof.
  unfold DropCollectionParams, DropCollectionParams_validate_name.
  checked_model.
Qed.

Lemma checked_InsertParams name data : checked (InsertParams name data).
Proof.
  unfold InsertParams, InsertParams_validate_name, InsertParams_validate_data.
  checked_model.
Qed.

Lemma checked_InsertResults v : checked (InsertResults v).
Proof.
  unfold InsertResults, InsertResults_validate_results. checked_model.
Qed.

Lemma checked_DeleteParams name ids : checked (DeleteParams name ids).
Proof.
  unfold DeleteParams, DeleteParams_validate_name, DeleteParams_validate_data.
  checked_model.
Qed.

Lemma checked_FullTextSearchParams name query_list limit :
  checked (FullTextSearchParams name query_list limit).
Proof.
  unfold FullTextSearchParams, FullTextSearchParams_validate_name,
    FullTextSearchParams_validate_query_list,
    FullTextSearchParams_validate_limit.
  checked_model.
Qed.

Lemma checked_FullTextSearchResults v : checked (FullTextSearchResults v).
Proof.
  unfold FullTextSearchResults, FullTextSearchResults_validate_results.
  checked_model.
Qed.

(** *** What the argument models accept *)

Lemma core_str_spec v :
  core_validate AStr v = if isinstance v TStr then Some v else None.
Proof. destruct v; reflexivity. Qed.

Lemma core_dict_spec v :
  core_validate ADict v = if isinstance v TDict then Some v else None.
Proof. destruct v; reflexivity. Qed.


Lemma traverse_spec (f : pyval -> option pyval) (p : pyval -> bool) items :
  (forall x, f x = if p x then Some x else None) ->
  traverse f items = if forallb p items then Some items else None.
Proof.
  intros Hf. induction items as [|x items IH]; [reflexivity|].
  cbn [traverse forallb]. rewrite IH, Hf.
  destruct (p x), (forallb p items); reflexivity.
Qed.

Lemma core_list_spec (a : annot) (t : pytype) v :
  (forall x, core_validate a x = if isinstance x t then Some x else None) ->
  core_validate (AList a) v
  = match lax_sequence v with
    | Some items => if all_isinstance items t then Some (PList items) else None
    | None => None
    end.
Proof.
  intros Ha.
  change (core_validate (AList a) v)
    with (match lax_sequence v with
          | Some items => option_map PList (traverse (core_validate a) items)
          | None => None
          end).
  destruct (lax_sequence v) as [items|]; [|reflexivity].
  rewrite (traverse_spec _ (fun x => isinstance x t) _ Ha).
  unfold all_isinstance. destruct (forallb _ items); reflexivity.
Qed.

Lemma core_list_any v :
  core_validate (AList AAny) v = option_map PList (lax_sequence v).
Proof.
  change (core_validate (AList AAny) v)
    with (match lax_sequence v with
          | Some items => option_map PList (traverse (core_validate AAny) items)
          | None => None
          end).
  destruct (lax_sequence v) as [items|]; [|reflexivity].
  rewrite traverse_any. reflexivity.
Qed.

Lemma failed_str name (after_ : pyval -> M unit) fname_ :
  failures [Field fname_ AStr name after_]
  = if isinstance name TStr then [] else [PStr fname_].
Proof.
  cbn [failures fannot fvalue]. rewrite core_str_spec.
  destruct (isinstance name TStr); reflexivity.
Qed.


Lemma failed_list_dict v (after_ : pyval -> M unit) fname_ :
  failures [Field fname_ (AList ADict) v after_]
  = if seq_of TDict v then [] else [PStr fname_].
Proof.
  cbn [failures fannot fvalue]. rewrite (core_list_spec _ TDict _ core_dict_spec).
  unfold seq_of. destruct (lax_sequence v) as [items|]; [|reflexivity].
  destruct (all_isinstance items TDict); reflexivity.
Qed.



Lemma verdict_Ok model failed : verdict model failed = Ok tt <-> failed = [].
Proof.
  destruct failed; cbn; split; intros H; try reflexivity; discriminate H.
Qed.

Lemma DropCollectionParams_accepts name st :
  outcome_of (DropCollectionParams name st) = Ok tt
  <-> isinstance name TStr = true.
Proof.
  rewrite DropCollectionParams_run. cbn [outcome_of fst].
  rewrite verdict_Ok, failed_str.
  destruct (isinstance name TStr); split; intros H;
    try reflexivity; discriminate H.
Qed.




Lemma after_nil {A} (r : outcome A * R * list event) : after [] r = r.
Proof. destruct r as [[o s] t]. reflexivity. Qed.

Lemma validate_fields_skip model f rest failed st :
  quiet f ->
  validate_fields model (f :: rest) failed st
  = validate_fields model rest (failed ++ failures [f]) st.
Proof.
  intros Hq. cbn [validate_fields failures].
  destruct (core_validate (fannot f) (fvalue f)) as [v|] eqn:Hc.
  - rewrite (bind_after _ _ _ _ _ _ (Hq v st Hc)), after_nil, app_nil_r.
    reflexivity.
  - reflexivity.
Qed.

Lemma validate_fields_cons model f rest failed st :
  validate_fields model (f :: rest) failed st
  = match core_validate (fannot f) (fvalue f) with
    | Some v => (fafter f v ;; validate_fields model rest failed) st
    | None => validate_fields model rest (failed ++ [PStr (fname f)]) st
    end.
Proof.
  cbn [validate_fields].
  destruct (core_validate (fannot f) (fvalue f)); reflexivity.
Qed.

Lemma func_list_validator items st :
  CreateCollectionParams_validate_func_list (PList items) st
  = if all_isinstance items (TCls Function) then (Ok tt, st, [])
    else (Raise (Exn TypeError not_a_function []), st,
          [EvLog Error not_a_function []]).
Proof.
  unfold CreateCollectionParams_validate_func_list.
  change (items_of (PList items)) with items.
  destruct (all_isinstance items (TCls Function)); reflexivity.
Qed.

(** How [CreateCollectionParams] ends on every input.  Only the
    validator of [func_list] can object, because [List[Any]] lets every
    item through. *)
Lemma CreateCollectionParams_run name fields funcs indexes st :
  CreateCollectionParams name fields funcs indexes st
  = let failed :=
      (if isinstance name TStr then [] else [PStr "name"])
      ++ (if seq_of TDict fields then [] else [PStr "field_params_list"]) in
    let last :=
      if seq_of TDict indexes then [] else [PStr "index_params_list"] in
    match lax_sequence funcs with
    | Some items =>
        if all_isinstance items (TCls Function)
        then (verdict "CreateCollectionParams" (failed ++ last), st, [])
        else (Raise (Exn TypeError not_a_function []), st,
              [EvLog Error not_a_function []])
    | None =>
        (verdict "CreateCollectionParams" (failed ++ PStr "func_list" :: last),
         st, [])
    end.
Proof.
  unfold CreateCollectionParams, BaseModel.
  rewrite validate_fields_skip
    by exact (quiet_str _ _ (fun v => (_, [FType v]))).
  rewrite validate_fields_skip
    by exact (quiet_list_dict _ _ (fun v => (_, [FType v])) _ _).
  rewrite failed_str, failed_list_dict. cbn [app].
  set (failed := _ ++ _).
  rewrite validate_fields_cons. cbn [fannot fvalue fafter fname].
  rewrite core_list_any.
  destruct (lax_sequence funcs) as [items|]; cbn [option_map].
  - destruct (all_isinstance items (TCls Function)) eqn:Hall.
    + assert (Hv : CreateCollectionParams_validate_func_list (PList items) st
                   = (Ok tt, st, [])).
      { rewrite func_list_validator, Hall. reflexivity. }
      rewrite (bind_after _ _ _ _ _ _ Hv), after_nil. cbv beta.
      rewrite validate_fields_quiet
        by (apply Forall_cons;
            [exact (quiet_list_dict _ _ (fun v => (_, [FType v])) _ _)
            | apply Forall_nil]).
      rewrite failed_list_dict. reflexivity.
    + assert (Hv : CreateCollectionParams_validate_func_list (PList items) st
                   = (Raise (Exn TypeError not_a_function []), st,
                      [EvLog Error not_a_function []])).
      { rewrite func_list_validator, Hall. reflexivity. }
      rewrite (bind_Raise _ _ _ _ _ _ Hv). reflexivity.
  - rewrite validate_fields_quiet
      by (apply Forall_cons;
          [exact (quiet_list_dict _ _ (fun v => (_, [FType v])) _ _)
          | apply Forall_nil]).
    rewrite failed_list_dict, <- app_assoc. reflexivity.
Qed.

Lemma CreateCollectionParams_accepts name fields funcs indexes st :
  outcome_of (CreateCollectionParams name fields funcs indexes st) = Ok tt
  <-> create_args_ok name fields funcs indexes = true.
Proof.
  rewrite CreateCollectionParams_run. unfold create_args_ok.
  change (seq_of (TCls Function) funcs)
    with (match lax_sequence funcs with
          | Some items => all_isinstance items (TCls Function)
          | None => false
          end).
  cbv zeta.
  destruct (lax_sequence funcs) as [items|];
    [destruct (all_isinstance items (TCls Function))|];
    cbn [outcome_of fst]; rewrite ?verdict_Ok;
    destruct (isinstance name TStr), (seq_of TDict fields),
      (seq_of TDict indexes);
    cbn; split; intros H; try reflexivity; discriminate H.
Qed.


Lemma checked_passes (m : M unit) st :
  checked m -> outcome_of (m st) = Ok tt -> m st = (Ok tt, st, []).
Proof.
  intros Hm Hok. destruct (Hm st) as (o & t & Hrun & Ho).
  rewrite Hrun in Hok. cbn in Hok. subst o. subst t. exact Hrun.
Qed.



(* ===================================================================== *)
(** ** Further properties of the validators and of the facade *)
(* ===================================================================== *)

(** X1.  Instantiating any of the twelve models of [milvus_types.py], on
    any arguments, never touches the third-party world and ends in one of
    three ways: it passes without a log line; pydantic raises its
    [ValidationError] without a log line; or a field validator logs its
    message once at error level and raises a [TypeError] carrying that
    same message. *)
Theorem every_model_is_checked
  (uri v schema index_params params name fields funcs indexes data ids
   query_list limit : pyval) :
  checked (InitClientParams uri)
  /\ checked (InitClientResults v)
  /\ checked (CreateFieldParams schema params)
  /\ checked (CreateIndexParams index_params params)
  /\ checked (ListCollectionsResults v)
  /\ checked (CreateCollectionParams name fields funcs indexes)
  /\ checked (DropCollectionParams name)
  /\ checked (InsertParams name data)
  /\ checked (InsertResults v)
  /\ checked (DeleteParams name ids)
  /\ checked (FullTextSearchParams name query_list limit)
  /\ checked (FullTextSearchResults v).
Proof.
  repeat split.
  - apply checked_InitClientParams.
  - apply checked_InitClientResults.
  - apply checked_CreateFieldParams.
  - apply checked_CreateIndexParams.
  - apply checked_ListCollectionsResults.
  - apply checked_CreateCollectionParams.
  - apply checked_DropCollectionParams.
  - apply checked_InsertParams.
  - apply checked_InsertResults.
  - apply checked_DeleteParams.
  - apply checked_FullTextSearchParams.
  - apply checked_FullTextSearchResults.
Qed.



(** *** Which remote calls a computation makes *)

Lemma checked_trace (m : M unit) st :
  checked m ->
  state_of (m st) = st /\ remote_calls (trace_of (m st)) = [].
Proof.
  intros Hm. destruct (Hm st) as (o & t & Hrun & Ho). rewrite Hrun.
  split; [reflexivity|]. cbn [trace_of snd].
  destruct o as [u|e]; [subst t; reflexivity|].
  destruct Ho as [[_ ->]|[_ ->]]; reflexivity.
Qed.

Lemma silent_checked (m : M unit) : checked m -> silent m.
Proof. intros Hm st. apply checked_trace. exact Hm. Qed.

Lemma silent_ret {A} (a : A) : silent (ret a).
Proof. intros st. reflexivity. Qed.

Lemma silent_raise {A} (e : exn) : silent (@raise A e).
Proof. intros st. reflexivity. Qed.

Lemma silent_log lvl text args : silent (log lvl text args).
Proof. intros st. reflexivity. Qed.

Lemma silent_sleep seconds : silent (sleep seconds).
Proof. intros st. reflexivity. Qed.

Lemma trace_bind {A B} (m : M A) (f : A -> M B) st :
  trace_of (bind m f st)
  = match m st with
    | (Ok a, st1, t1) => t1 ++ trace_of (f a st1)
    | (Raise _, _, t1) => t1
    end.
Proof.
  cbn. unfold M_bind. destruct (m st) as [[[a|e] st1] t1]; [|reflexivity].
  destruct (f a st1) as [[r st2] t2]. reflexivity.
Qed.

Lemma trace_try {A} (body : M A) handler st :
  reporter handler ->
  remote_calls (trace_of (try_except body handler st))
  = remote_calls (trace_of (body st)).
Proof.
  intros Hh. unfold try_except.
  destruct (body st) as [[[a|e] st1] t1]; [reflexivity|].
  destruct (Hh e st1) as (lvl & text & args & Hrun & _). rewrite Hrun.
  cbn [trace_of snd]. rewrite remote_calls_app. cbn. apply app_nil_r.
Qed.

Lemma silent_bind {A B} (m : M A) (f : A -> M B) :
  silent m -> (forall a, silent (f a)) -> silent (bind m f).
Proof.
  intros Hm Hf st. rewrite trace_bind. specialize (Hm st).
  destruct (m st) as [[[a|e] st1] t1]; cbn [trace_of snd] in Hm.
  - rewrite remote_calls_app, Hm, (Hf a st1). reflexivity.
  - exact Hm.
Qed.

Lemma silent_iterate_from (f : Z -> pyval -> M unit) items :
  (forall i x, silent (f i x)) -> forall i, silent (iterate_from i items f).
Proof.
  intros Hf. induction items as [|x rest IH]; intros i; cbn [iterate_from].
  - apply silent_ret.
  - apply silent_bind; [apply Hf | intros _; apply IH].
Qed.

Lemma silent_for_enumerate v (f : Z -> pyval -> M unit) :
  (forall i x, silent (f i x)) -> silent (for_enumerate v f).
Proof.
  intros Hf. unfold for_enumerate. destruct (py_iter v).
  - apply silent_iterate_from. exact Hf.
  - apply silent_raise.
Qed.

Lemma prefix_silent {A} (m : M A) : silent m -> calls_prefix [] m.
Proof. intros H st. exists 0%nat. apply H. Qed.

Lemma all_silent {A} (m : M A) : silent m -> calls_all [] m.
Proof.
  intros H st a st' t Hrun. specialize (H st). rewrite Hrun in H. exact H.
Qed.

Lemma prefix_weaken {A} (cs cs' : list call) (m : M A) :
  calls_prefix cs m -> calls_prefix (cs ++ cs') m.
Proof.
  intros H st. destruct (H st) as (k & Hk).
  exists (Nat.min k (length cs)). rewrite Hk, firstn_app.
  replace (Nat.min k (length cs) - length cs)%nat with 0%nat by lia.
  cbn [firstn]. rewrite app_nil_r.
  destruct (Nat.le_ge_cases k (length cs)) as [Hle|Hge].
  - rewrite Nat.min_l by exact Hle. reflexivity.
  - rewrite Nat.min_r by exact Hge.
    rewrite (firstn_all2 cs Hge), firstn_all. reflexivity.
Qed.

Lemma prefix_bind {A B} (cs1 cs2 : list call) (m : M A) (f : A -> M B) :
  calls_prefix cs1 m -> calls_all cs1 m ->
  (forall a, calls_prefix cs2 (f a)) ->
  calls_prefix (cs1 ++ cs2) (bind m f).
Proof.
  intros Hp Ha Hf st. rewrite trace_bind.
  destruct (m st) as [[[a|e] st1] t1] eqn:Hrun.
  - destruct (Hf a st1) as (k & Hk).
    exists (length cs1 + k)%nat.
    rewrite remote_calls_app, Hk, (Ha _ _ _ _ Hrun), firstn_app.
    rewrite (firstn_all2 (n := (length cs1 + k)%nat) cs1) by lia.
    replace (length cs1 + k - length cs1)%nat with k by lia. reflexivity.
  - destruct (prefix_weaken cs1 cs2 m Hp st) as (k & Hk).
    rewrite Hrun in Hk. exists k. exact Hk.
Qed.

Lemma prefix_then {A B} (cs : list call) (m : M A) (f : A -> M B) :
  silent m -> (forall a, calls_prefix cs (f a)) -> calls_prefix cs (bind m f).
Proof.
  intros Hm Hf.
  exact (prefix_bind [] cs m f (prefix_silent m Hm) (all_silent m Hm) Hf).
Qed.

Lemma prefix_try {A} (cs : list call) (body : M A) handler :
  reporter handler -> calls_prefix cs body ->
  calls_prefix cs (try_except body handler).
Proof.
  intros Hh Hb st. destruct (Hb st) as (k & Hk). exists k.
  rewrite (trace_try _ _ _ Hh). exact Hk.
Qed.

Lemma prefix_remote c : calls_prefix [c] (remote c).
Proof. intros st. exists 1%nat. rewrite remote_run. reflexivity. Qed.

Lemma all_remote c : calls_all [c] (remote c).
Proof.
  intros st a st' t H. rewrite remote_run in H. inversion H. reflexivity.
Qed.

Lemma prefix_list_collections self :
  calls_prefix [list_call self] (list_collections self).
Proof. intros st. exists 1%nat. apply list_collections_calls. Qed.

Lemma all_list_collections self :
  calls_all [list_call self] (list_collections self).
Proof.
  intros st a st' t H. pose proof (list_collections_calls self st) as Hc.
  rewrite H in Hc. exact Hc.
Qed.

Lemma prefix_nil_any {A} (cs : list call) (m : M A) :
  silent m -> calls_prefix cs m.
Proof. intros H. exact (prefix_weaken [] cs m (prefix_silent m H)). Qed.

(** What follows the guard in the four operations on an existing
    collection: at most the one call [c]. *)
Lemma prefix_guarded self (c : call) (m : M unit) (k : pyval -> M pyval) :
  checked m ->
  (forall collections, calls_prefix [c] (k collections)) ->
  calls_prefix [list_call self; c]
    (m ;; collections <- list_collections self ;; k collections).
Proof.
  intros Hm Hk. apply prefix_then; [apply silent_checked; exact Hm|].
  intros _.
  exact (prefix_bind [list_call self] [c] _ _
           (prefix_list_collections self) (all_list_collections self) Hk).
Qed.

Ltac silent_steps :=
  repeat first
    [ apply silent_ret | apply silent_raise | apply silent_log
    | apply silent_sleep
    | apply silent_checked; first
        [ apply checked_InsertResults | apply checked_FullTextSearchResults
        | apply checked_InitClientResults ]
    | apply silent_bind | apply silent_for_enumerate | intro ].

Ltac reporters :=
  apply reporter_log; intro; cbn [In]; auto.

Lemma prefix_insert self name data :
  calls_prefix [list_call self; insert_call self name data]
    (insert self name data).
Proof.
  unfold insert. apply prefix_guarded; [apply checked_InsertParams|].
  intros collections. destruct (negb (py_in name collections)).
  - apply prefix_nil_any. silent_steps.
  - apply prefix_then; [apply silent_log|]. intros _.
    apply prefix_try; [reporters|].
    apply (prefix_bind [insert_call self name data] []);
      [apply prefix_remote | apply all_remote |].
    intros results. apply prefix_silent. silent_steps.
Qed.

Lemma prefix_delete self ids name :
  calls_prefix [list_call self; delete_call self name ids]
    (delete self ids name).
Proof.
  unfold delete. apply prefix_guarded; [apply checked_DeleteParams|].
  intros collections. destruct (negb (py_in name collections)).
  - apply prefix_nil_any. silent_steps.
  - apply prefix_then; [apply silent_log|]. intros _.
    apply prefix_try; [reporters|].
    apply (prefix_bind [delete_call self name ids] []);
      [apply prefix_remote | apply all_remote |].
    intros results. apply prefix_silent. silent_steps.
Qed.

Lemma prefix_full_text_search self name query_list limit :
  calls_prefix [list_call self; search_call self name query_list limit]
    (full_text_search self name query_list limit).
Proof.
  unfold full_text_search.
  apply prefix_guarded; [apply checked_FullTextSearchParams|].
  intros collections. destruct (negb (py_in name collections)).
  - apply prefix_nil_any. silent_steps.
  - apply prefix_then; [apply silent_log|]. intros _.
    apply prefix_try; [reporters|]. cbv zeta. unfold with_spinner.
    apply (prefix_bind [search_call self name query_list limit] []);
      [apply prefix_remote | apply all_remote |].
    intros results. apply prefix_silent. silent_steps.
Qed.

Lemma prefix_drop_collection self name :
  calls_prefix [list_call self; drop_call self name; list_call self]
    (drop_collection self name).
Proof.
  unfold drop_collection.
  apply prefix_then; [apply silent_checked, checked_DropCollectionParams|].
  intros _.
  apply (prefix_bind [list_call self] [drop_call self name; list_call self]);
    [apply prefix_list_collections | apply all_list_collections |].
  intros collections. destruct (negb (py_in name collections)).
  - apply prefix_nil_any. silent_steps.
  - apply prefix_then; [apply silent_log|]. intros _.
    apply prefix_try; [reporters|].
    apply (prefix_bind [drop_call self name] [list_call self]);
      [apply prefix_remote | apply all_remote |].
    intros _.
    apply (prefix_bind [list_call self] []);
      [apply prefix_list_collections | apply all_list_collections |].
    intros collections2. apply prefix_silent.
    destruct (negb (py_in name collections2)); cbv zeta; silent_steps.
Qed.


(** X4.  On every input and against every world, the remote calls of an
    operation are an initial segment of one fixed sequence: the listing
    of the guard, then the one call of the operation (for
    [drop_collection], followed by the listing of the post-check).
    [list_collections] always makes exactly its one call.  So an
    operation never calls the remote twice for the same purpose, never
    calls before the listing, and never calls a method of another
    operation. *)
Theorem remote_calls_are_initial_segments
  (self : MilvusClientInit) (name data ids query_list limit : pyval) :
  (forall st, remote_calls (trace_of (list_collections self st))
              = [list_call self])
  /\ calls_prefix [list_call self; drop_call self name; list_call self]
       (drop_collection self name)
  /\ calls_prefix [list_call self; insert_call self name data]
       (insert self name data)
  /\ calls_prefix [list_call self; delete_call self name ids]
       (delete self ids name)
  /\ calls_prefix [list_call self; search_call self name query_list limit]
       (full_text_search self name query_list limit).
Proof.
  split; [intros st; apply list_collections_calls|].
  split; [apply prefix_drop_collection|].
  split; [apply prefix_insert|].
  split; [apply prefix_delete|].
  apply prefix_full_text_search.
Qed.

(** *** Where the exceptions of an operation come from *)

Lemma accounted_app_l e t1 t2 : accounted e t1 -> accounted e (t1 ++ t2).
Proof.
  intros [H|[H|(c & st0 & Hin & Hr)]]; [left; exact H | right; left; exact H |].
  right. right. exists c, st0. split; [|exact Hr].
  rewrite remote_calls_app. apply in_or_app. left. exact Hin.
Qed.

Lemma accounted_app_r e t1 t2 : accounted e t2 -> accounted e (t1 ++ t2).
Proof.
  intros [H|[H|(c & st0 & Hin & Hr)]]; [left; exact H | right; left; exact H |].
  right. right. exists c, st0. split; [|exact Hr].
  rewrite remote_calls_app. apply in_or_app. right. exact Hin.
Qed.

Lemma sound_ret {A} (a : A) : sound (ret a).
Proof. intros st e st' t H. discriminate H. Qed.

Lemma sound_log lvl text args : sound (log lvl text args).
Proof. intros st e st' t H. discriminate H. Qed.

Lemma sound_sleep seconds : sound (sleep seconds).
Proof. intros st e st' t H. discriminate H. Qed.

Lemma sound_raise {A} (e : exn) :
  is_type_validation_error e = true \/ invariant_error e ->
  sound (@raise A e).
Proof.
  intros He st e' st' t H. inversion H; subst.
  destruct He as [He|He]; [left | right; left]; exact He.
Qed.

Lemma sound_remote c : sound (remote c).
Proof.
  intros st e st' t H. rewrite remote_run in H. inversion H; subst.
  right. right. exists c, st. split; [left; reflexivity | assumption].
Qed.

Lemma sound_checked (m : M unit) : checked m -> sound m.
Proof.
  intros Hm st e st' t H. destruct (Hm st) as (o & t0 & Hrun & Ho).
  rewrite Hrun in H. inversion H; subst. left.
  unfold is_type_validation_error.
  destruct Ho as [[-> _]|[-> _]]; reflexivity.
Qed.

Lemma sound_bind {A B} (m : M A) (f : A -> M B) :
  sound m -> (forall a, sound (f a)) -> sound (bind m f).
Proof.
  intros Hm Hf st e st' t H.
  destruct (bind_Raise_inv _ _ _ _ _ _ H)
    as [Hr|(a & st1 & t1 & t2 & _ & Hr & ->)].
  - exact (Hm _ _ _ _ Hr).
  - apply accounted_app_r. exact (Hf _ _ _ _ _ Hr).
Qed.

Lemma sound_try {A} (body : M A) handler :
  reporter handler -> sound body -> sound (try_except body handler).
Proof.
  intros Hh Hb st e st' t H.
  destruct (try_except_Raise_inv _ _ _ _ _ _ Hh H)
    as (t1 & lvl & text & args & Hr & -> & _).
  apply accounted_app_l. exact (Hb _ _ _ _ Hr).
Qed.

Lemma sound_iterate items (f : pyval -> M unit) :
  (forall x, sound (f x)) -> sound (iterate items f).
Proof.
  intros Hf. induction items as [|x rest IH]; cbn [iterate].
  - apply sound_ret.
  - apply sound_bind; [apply Hf | intros _; exact IH].
Qed.

Lemma sound_for_each v (f : pyval -> M unit) :
  (forall x, sound (f x)) -> sound (for_each v f).
Proof.
  intros Hf. unfold for_each. destruct (py_iter v).
  - apply sound_iterate. exact Hf.
  - apply sound_raise. left. reflexivity.
Qed.

Lemma sound_iterate_from (f : Z -> pyval -> M unit) items :
  (forall i x, sound (f i x)) -> forall i, sound (iterate_from i items f).
Proof.
  intros Hf. induction items as [|x rest IH]; intros i; cbn [iterate_from].
  - apply sound_ret.
  - apply sound_bind; [apply Hf | intros _; apply IH].
Qed.

Lemma sound_for_enumerate v (f : Z -> pyval -> M unit) :
  (forall i x, sound (f i x)) -> sound (for_enumerate v f).
Proof.
  intros Hf. unfold for_enumerate. destruct (py_iter v).
  - apply sound_iterate_from. exact Hf.
  - apply sound_raise. left. reflexivity.
Qed.

Lemma sound_splat params : sound (splat params).
Proof.
  unfold splat. destruct params; try (apply sound_raise; left; reflexivity).
  destruct (keywords kv).
  - apply sound_ret.
  - apply sound_raise. left. reflexivity.
Qed.

Ltac checked_any :=
  first
    [ apply checked_InitClientParams | apply checked_InitClientResults
    | apply checked_CreateFieldParams | apply checked_CreateIndexParams
    | apply checked_ListCollectionsResults
    | apply checked_CreateCollectionParams
    | apply checked_DropCollectionParams | apply checked_InsertParams
    | apply checked_InsertResults | apply checked_DeleteParams
    | apply checked_FullTextSearchParams
    | apply checked_FullTextSearchResults ].

Ltac sound_steps :=
  repeat first
    [ apply sound_ret | apply sound_log | apply sound_sleep
    | apply sound_remote | apply sound_splat
    | apply sound_checked; checked_any
    | apply sound_raise; first
        [ left; reflexivity
        | right; left; reflexivity
        | right; right; reflexivity ]
    | apply sound_try; [reporters|]
    | apply sound_for_each | apply sound_for_enumerate
    | apply sound_bind
    | intro ].

Lemma sound_list_collections self : sound (list_collections self).
Proof. unfold list_collections. sound_steps. Qed.

Lemma sound__create_field self schema params :
  sound (_create_field self schema params).
Proof. unfold _create_field. sound_steps. Qed.

Lemma sound__create_index self index_params params :
  sound (_create_index self index_params params).
Proof. unfold _create_index. sound_steps. Qed.

Lemma sound_build_schema self fields funcs indexes :
  sound (build_schema self fields funcs indexes).
Proof.
  unfold build_schema.
  repeat first
    [ apply sound__create_field | apply sound__create_index
    | progress sound_steps ].
Qed.

Lemma sound_create_and_check self name schema index_params :
  sound (create_and_check self name schema index_params).
Proof.
  unfold create_and_check.
  apply sound_bind; [apply sound_remote|]. intros _.
  apply sound_bind; [apply sound_list_collections|]. intros collections.
  destruct (py_in name collections); cbv zeta; sound_steps.
Qed.

Lemma sound_create_collection self name fields funcs indexes :
  sound (create_collection self name fields funcs indexes).
Proof.
  unfold create_collection.
  apply sound_bind; [apply sound_checked; checked_any|]. intros _.
  apply sound_bind; [apply sound_list_collections|]. intros collections.
  destruct (py_in name collections); [sound_steps|].
  apply sound_bind; [apply sound_log|]. intros _.
  apply sound_try; [reporters|].
  apply sound_bind; [apply sound_build_schema|].
  intros [schema index_params]. apply sound_create_and_check.
Qed.

Lemma sound_drop_collection self name : sound (drop_collection self name).
Proof.
  unfold drop_collection.
  apply sound_bind; [apply sound_checked; checked_any|]. intros _.
  apply sound_bind; [apply sound_list_collections|]. intros collections.
  destruct (negb (py_in name collections)); [sound_steps|].
  apply sound_bind; [apply sound_log|]. intros _.
  apply sound_try; [reporters|].
  apply sound_bind; [apply sound_remote|]. intros _.
  apply sound_bind; [apply sound_list_collections|]. intros collections2.
  destruct (negb (py_in name collections2)); cbv zeta; sound_steps.
Qed.

Lemma sound_insert self name data : sound (insert self name data).
Proof.
  unfold insert.
  apply sound_bind; [apply sound_checked; checked_any|]. intros _.
  apply sound_bind; [apply sound_list_collections|]. intros collections.
  destruct (negb (py_in name collections)); sound_steps.
Qed.

Lemma sound_delete self ids name : sound (delete self ids name).
Proof.
  unfold delete.
  apply sound_bind; [apply sound_checked; checked_any|]. intros _.
  apply sound_bind; [apply sound_list_collections|]. intros collections.
  destruct (negb (py_in name collections)); sound_steps.
Qed.

Lemma sound_full_text_search self name query_list limit :
  sound (full_text_search self name query_list limit).
Proof.
  unfold full_text_search.
  apply sound_bind; [apply sound_checked; checked_any|]. intros _.
  apply sound_bind; [apply sound_list_collections|]. intros collections.
  destruct (negb (py_in name collections)); [sound_steps|].
  cbv zeta. unfold with_spinner. sound_steps.
Qed.

Lemma sound_init uri0 client0 : sound (__init__ uri0 client0).
Proof.
  unfold __init__.
  apply sound_bind; [apply sound_checked; checked_any|]. intros _.
  apply sound_try; [reporters|].
  destruct client0; unfold _init_client; sound_steps.
Qed.

(** X5.  No operation invents an exception.  Whatever the input and the
    world, an exception that leaves the constructor or one of the six
    public methods is a type-validation error ([TypeError] or pydantic's
    [ValidationError]), or one of the two [ValueError]s of the
    post-checks, or an exception with which the world answers one of the
    remote calls made in that very run. *)
Theorem failures_are_accounted
  (self : MilvusClientInit)
  (uri0 client0 name fields funcs indexes data ids query_list limit : pyval) :
  sound (__init__ uri0 client0)
  /\ sound (list_collections self)
  /\ sound (create_collection self name fields funcs indexes)
  /\ sound (drop_collection self name)
  /\ sound (insert self name data)
  /\ sound (delete self ids name)
  /\ sound (full_text_search self name query_list limit).
Proof.
  split; [apply sound_init|].
  split; [apply sound_list_collections|].
  split; [apply sound_create_collection|].
  split; [apply sound_drop_collection|].
  split; [apply sound_insert|].
  split; [apply sound_delete|].
  apply sound_full_text_search.
Qed.

(** *** Failures are logged *)

Lemma logs_ret {A} (a : A) : logs_failures (ret a).
Proof. intros st e st' t H. discriminate H. Qed.

Lemma logs_log lvl text args : logs_failures (log lvl text args).
Proof. intros st e st' t H. discriminate H. Qed.

Lemma logs_bind {A B} (m : M A) (f : A -> M B) :
  logs_failures m -> (forall a, logs_failures (f a)) ->
  logs_failures (bind m f).
Proof.
  intros Hm Hf st e st' t H.
  destruct (bind_Raise_inv _ _ _ _ _ _ H)
    as [Hr|(a & st1 & t1 & t2 & _ & Hr & ->)].
  - exact (Hm _ _ _ _ Hr).
  - destruct (Hf _ _ _ _ _ Hr) as (t0 & ev & -> & Hev).
    exists (t1 ++ t0), ev. split; [apply app_assoc | exact Hev].
Qed.

Lemma logs_try {A} (body : M A) handler :
  reporter handler -> logs_failures (try_except body handler).
Proof.
  intros Hh st e st' t H.
  destruct (try_except_Raise_inv _ _ _ _ _ _ Hh H)
    as (t1 & lvl & text & args & _ & -> & Hin).
  exists t1, (EvLog lvl text args). split; [reflexivity | left; exact Hin].
Qed.

(** An operation is its argument model followed by steps that log their
    failures. *)
Lemma logs_after_model {A} (m : M unit) (k : unit -> M A) st e st' t :
  checked m -> (forall u, logs_failures (k u)) ->
  bind m k st = (Raise e, st', t) ->
  (ekind e = ValidationError /\ st' = st /\ t = []) \/ logged_last e t.
Proof.
  intros Hm Hk H.
  destruct (bind_Raise_inv _ _ _ _ _ _ H)
    as [Hr|(a & st1 & t1 & t2 & Hr1 & Hr & ->)].
  - destruct (Hm st) as (o & t0 & Hrun & Ho). rewrite Hrun in Hr.
    inversion Hr; subst. destruct Ho as [[Hkind ->]|[_ ->]].
    + left. auto.
    + right. exists [], (EvLog Error (etext e) (map LArg (eargs e))).
      split; [reflexivity | right; reflexivity].
  - right. destruct (Hm st) as (o & t0 & Hrun & Ho). rewrite Hrun in Hr1.
    inversion Hr1; subst. cbn in Ho. subst t1. cbn [app].
    exact (Hk _ _ _ _ _ Hr).
Qed.

Lemma logs_list_collections self : logs_failures (list_collections self).
Proof. unfold list_collections. apply logs_try. reporters. Qed.

Ltac logs_steps :=
  repeat first
    [ apply logs_ret | apply logs_log | apply logs_list_collections
    | apply logs_try; reporters
    | apply logs_bind
    | intro ].

Lemma logs_guarded {A} self (k : pyval -> M A) :
  (forall collections, logs_failures (k collections)) ->
  logs_failures (collections <- list_collections self ;; k collections).
Proof. intros Hk. apply logs_bind; [apply logs_list_collections | exact Hk]. Qed.

(** X6.  Failures are logged before they leave, with one exception.  If
    the constructor or a public method raises, then either the last
    event of the run is a log line that reports the exception, or the
    exception is the [ValidationError] that pydantic raised for the
    arguments, in which case nothing at all was logged or done.
    [list_collections] takes no argument, so it always logs. *)
Theorem failures_are_logged
  (self : MilvusClientInit)
  (uri0 client0 name fields funcs indexes data ids query_list limit : pyval)
  (st st' : R) (e : exn) (t : list event) :
  let unlogged := ekind e = ValidationError /\ st' = st /\ t = [] in
  (__init__ uri0 client0 st = (Raise e, st', t) ->
   unlogged \/ logged_last e t)
  /\ (list_collections self st = (Raise e, st', t) -> logged_last e t)
  /\ (create_collection self name fields funcs indexes st = (Raise e, st', t) ->
      unlogged \/ logged_last e t)
  /\ (drop_collection self name st = (Raise e, st', t) ->
      unlogged \/ logged_last e t)
  /\ (insert self name data st = (Raise e, st', t) ->
      unlogged \/ logged_last e t)
  /\ (delete self ids name st = (Raise e, st', t) ->
      unlogged \/ logged_last e t)
  /\ (full_text_search self name query_list limit st = (Raise e, st', t) ->
      unlogged \/ logged_last e t).
Proof.
  cbv zeta. repeat split.
  - unfold __init__. apply logs_after_model; [checked_any|]. logs_steps.
  - apply logs_list_collections.
  - unfold create_collection. apply logs_after_model; [checked_any|].
    intros _. apply logs_guarded. intros collections.
    destruct (py_in name collections); logs_steps.
  - unfold drop_collection. apply logs_after_model; [checked_any|].
    intros _. apply logs_guarded. intros collections.
    destruct (negb (py_in name collections)); logs_steps.
  - unfold insert. apply logs_after_model; [checked_any|].
    intros _. apply logs_guarded. intros collections.
    destruct (negb (py_in name collections)); logs_steps.
  - unfold delete. apply logs_after_model; [checked_any|].
    intros _. apply logs_guarded. intros collections.
    destruct (negb (py_in name collections)); logs_steps.
  - unfold full_text_search. apply logs_after_model; [checked_any|].
    intros _. apply logs_guarded. intros collections.
    destruct (negb (py_in name collections)); logs_steps.
Qed.

(** *** The methods [create_collection] calls *)

Lemma calls_within_app names t1 t2 :
  calls_within names t1 -> calls_within names t2 ->
  calls_within names (t1 ++ t2).
Proof.
  unfold calls_within. intros H1 H2. rewrite remote_calls_app.
  apply Forall_app. split; assumption.
Qed.

Lemma calls_within_incl names names' t :
  incl names names' -> calls_within names t -> calls_within names' t.
Proof.
  unfold calls_within. intros Hincl H.
  apply (Forall_impl _ (P := fun c => existsb (fun m => invokes m c) names = true));
    [|exact H].
  intros c Hc. apply existsb_exists in Hc. destruct Hc as (m & Hin & Hm).
  apply existsb_exists. exists m. split; [apply Hincl; exact Hin | exact Hm].
Qed.

Lemma calls_to_outside names m t :
  calls_within names t ->
  existsb (String.eqb m) names = false ->
  calls_to m t = [].
Proof.
  unfold calls_within, calls_to. intros H Hm.
  induction H as [|c cs Hc _ IH]; [reflexivity|].
  cbn [filter]. rewrite IH.
  destruct (invokes m c) eqn:Hi; [|reflexivity]. exfalso.
  apply existsb_exists in Hc. destruct Hc as (m' & Hin & Hm').
  destruct c as [c kw|recv mc args kw]; [discriminate Hi|].
  cbn [invokes] in Hi, Hm'.
  apply String.eqb_eq in Hi. apply String.eqb_eq in Hm'. subst.
  assert (Ht : existsb (String.eqb mc) names = true).
  { apply existsb_exists. exists mc. split; [exact Hin | apply String.eqb_refl]. }
  rewrite Ht in Hm. discriminate Hm.
Qed.

Lemma only_silent {A} names (m : M A) : silent m -> only_methods names m.
Proof. intros H st. unfold calls_within. rewrite (H st). apply Forall_nil. Qed.

Lemma only_bind {A B} names (m : M A) (f : A -> M B) :
  only_methods names m -> (forall a, only_methods names (f a)) ->
  only_methods names (bind m f).
Proof.
  intros Hm Hf st. rewrite trace_bind. specialize (Hm st).
  destruct (m st) as [[[a|e] st1] t1]; cbn [trace_of snd] in Hm.
  - apply calls_within_app; [exact Hm | apply Hf].
  - exact Hm.
Qed.

Lemma only_try {A} names (body : M A) handler :
  reporter handler -> only_methods names body ->
  only_methods names (try_except body handler).
Proof.
  intros Hh Hb st. unfold calls_within. rewrite (trace_try _ _ _ Hh).
  apply Hb.
Qed.

Lemma only_remote names c :
  existsb (fun m => invokes m c) names = true ->
  only_methods names (remote c).
Proof.
  intros H st. unfold calls_within. rewrite remote_run. cbn.
  apply Forall_cons; [exact H | apply Forall_nil].
Qed.

Lemma only_iterate names items (f : pyval -> M unit) :
  (forall x, only_methods names (f x)) -> only_methods names (iterate items f).
Proof.
  intros Hf. induction items as [|x rest IH]; cbn [iterate].
  - apply only_silent, silent_ret.
  - apply only_bind; [apply Hf | intros _; exact IH].
Qed.

Lemma only_for_each names v (f : pyval -> M unit) :
  (forall x, only_methods names (f x)) -> only_methods names (for_each v f).
Proof.
  intros Hf. unfold for_each. destruct (py_iter v).
  - apply only_iterate. exact Hf.
  - apply only_silent, silent_raise.
Qed.

Lemma only_incl {A} names names' (m : M A) :
  incl names names' -> only_methods names m -> only_methods names' m.
Proof. intros Hi Hm st. exact (calls_within_incl _ _ _ Hi (Hm st)). Qed.

Lemma silent_splat params : silent (splat params).
Proof.
  unfold splat. destruct params; try apply silent_raise.
  destruct (keywords kv); [apply silent_ret | apply silent_raise].
Qed.

Lemma only_list_collections names self :
  existsb (String.eqb "list_collections") names = true ->
  only_methods names (list_collections self).
Proof.
  intros H st. unfold calls_within. rewrite list_collections_calls.
  apply Forall_cons; [|apply Forall_nil].
  apply existsb_exists in H. destruct H as (m & Hin & Hm).
  apply existsb_exists. exists m. split; [exact Hin|].
  apply String.eqb_eq in Hm. subst m. reflexivity.
Qed.

Ltac only_steps :=
  repeat first
    [ apply only_remote; reflexivity
    | apply only_list_collections; reflexivity
    | apply only_silent; first
        [ apply silent_ret | apply silent_raise | apply silent_log
        | apply silent_splat | apply silent_checked; checked_any ]
    | apply only_try; [reporters|]
    | apply only_for_each
    | apply only_bind
    | intro ].

Lemma only__create_field self schema params :
  only_methods schema_methods (_create_field self schema params).
Proof. unfold _create_field. only_steps. Qed.

Lemma only__create_index self index_params params :
  only_methods schema_methods (_create_index self index_params params).
Proof. unfold _create_index. only_steps. Qed.

Lemma only_build_schema self fields funcs indexes :
  only_methods schema_methods (build_schema self fields funcs indexes).
Proof.
  unfold build_schema.
  repeat first
    [ apply only__create_field | apply only__create_index
    | progress only_steps ].
Qed.

Lemma only_create_and_check self name schema index_params :
  only_methods create_methods
    (create_and_check self name schema index_params).
Proof.
  unfold create_and_check.
  apply only_bind; [apply only_remote; reflexivity|]. intros _.
  apply only_bind; [apply only_list_collections; reflexivity|].
  intros collections. destruct (py_in name collections); cbv zeta; only_steps.
Qed.

Lemma schema_in_create : incl schema_methods create_methods.
Proof.
  intros m Hm. right. apply in_or_app. left. exact Hm.
Qed.

Lemma only_create_collection self name fields funcs indexes :
  only_methods create_methods
    (create_collection self name fields funcs indexes).
Proof.
  unfold create_collection.
  apply only_bind; [apply only_silent, silent_checked; checked_any|].
  intros _.
  apply only_bind; [apply only_list_collections; reflexivity|].
  intros collections. destruct (py_in name collections); [only_steps|].
  apply only_bind; [apply only_silent, silent_log|]. intros _.
  apply only_try; [reporters|].
  apply only_bind.
  - apply (only_incl schema_methods); [apply schema_in_create|].
    apply only_build_schema.
  - intros [schema index_params]. apply only_create_and_check.
Qed.

(** When the schema builder fails, [create_collection] logs the failure
    and re-raises it. *)
Lemma create_collection_unbuilt self name fields funcs indexes
      collections st st1 e st2 t2 :
  create_args_ok name fields funcs indexes = true ->
  respond (list_call self) st = (Ok collections, st1) ->
  valid_listing collections = true ->
  py_in name collections = false ->
  build_schema self fields funcs indexes st1 = (Raise e, st2, t2) ->
  create_collection self name fields funcs indexes st
  = (Raise e, st2,
     listing_events self collections ++ [creating name] ++ t2
     ++ [create_failed name e]).
Proof.
  intros Hargs Hlist Hvalid Hfresh Hbuild. unfold create_collection.
  assert (Hm : CreateCollectionParams name fields funcs indexes st
               = (Ok tt, st, [])).
  { apply checked_passes; [apply checked_CreateCollectionParams|].
    apply CreateCollectionParams_accepts. exact Hargs. }
  step Hm. rewrite after_nil. cbv beta.
  step (list_collections_ok _ _ _ _ Hlist Hvalid). rewrite Hfresh.
  step (log_run Info "Creating collection `{name}`" [LArg (FVal name)] st1).
  unfold try_except at 1.
  rewrite (bind_Raise _ _ _ _ _ _ Hbuild). rewrite log_run.
  unfold after, creating, create_failed. reflexivity.
Qed.

Lemma calls_to_app m t1 t2 :
  calls_to m (t1 ++ t2) = calls_to m t1 ++ calls_to m t2.
Proof. unfold calls_to. rewrite remote_calls_app. apply filter_app. Qed.

(** X7.  On every input and against every world, [create_collection]
    calls nothing but [list_collections], the five methods of the schema
    builder and [create_collection]: it never opens a connection and never
    drops, inserts, deletes or searches. *)
Theorem create_collection_calls_only_its_methods
  (self : MilvusClientInit) (name fields funcs indexes : pyval) (st : R) :
  let t := trace_of (create_collection self name fields funcs indexes st) in
  calls_within
    ["list_collections"; "create_schema"; "add_field"; "add_function";
     "prepare_index_params"; "add_index"; "create_collection"] t
  /\ calls_to "drop_collection" t = []
  /\ calls_to "insert" t = []
  /\ calls_to "delete" t = []
  /\ calls_to "search" t = [].
Proof.
  cbv zeta.
  pose proof (only_create_collection self name fields funcs indexes st) as H.
  split; [exact H|].
  repeat split; apply (calls_to_outside _ _ _ H); reflexivity.
Qed.

(** X8.  A schema that could not be built is never submitted.  When the
    arguments are accepted, the name is not listed and the schema
    builder raises, [create_collection] logs the failure at error level
    and re-raises the same exception, and the remote [create_collection]
    is not called. *)
Theorem unbuilt_schema_is_never_submitted
  (self : MilvusClientInit) (name fields funcs indexes collections : pyval)
  (st st1 st2 : R) (e : exn) (t2 : list event) :
  create_args_ok name fields funcs indexes = true ->
  respond (list_call self) st = (Ok collections, st1) ->
  valid_listing collections = true ->
  py_in name collections = false ->
  build_schema self fields funcs indexes st1 = (Raise e, st2, t2) ->
  create_collection self name fields funcs indexes st
  = (Raise e, st2,
     listing_events self collections
     ++ [EvLog Info "Creating collection `{name}`" [LArg (FVal name)]]
     ++ t2
     ++ [EvLog Error "Problem creating collection `{name}`: `{str(e)}`"
               [LArg (FVal name); LExn e]])
  /\ calls_to "create_collection"
       (trace_of (create_collection self name fields funcs indexes st)) = [].
Proof.
  intros Hargs Hlist Hvalid Hfresh Hbuild.
  pose proof (create_collection_unbuilt _ _ _ _ _ _ _ _ _ _ _
                Hargs Hlist Hvalid Hfresh Hbuild) as Hrun.
  split; [exact Hrun|]. rewrite Hrun. cbn [trace_of snd].
  rewrite !calls_to_app.
  pose proof (only_build_schema self fields funcs indexes st1) as Hb.
  rewrite Hbuild in Hb. cbn [trace_of snd] in Hb.
  rewrite (calls_to_outside schema_methods "create_collection" t2 Hb eq_refl).
  reflexivity.
Qed.

(** X9.  The whole conversation of a successful [create_collection], in
    order: the listing of the guard; [create_schema]; one [add_field] per
    field entry and one [add_function] per function, on the schema that
    [create_schema] returned; [prepare_index_params]; one [add_index] per
    index entry, on the object that [prepare_index_params] returned; the
    remote [create_collection] with the name and those same two objects;
    the listing of the post-check. *)
Theorem create_collection_conversation
  (self : MilvusClientInit)
  (name fields funcs indexes collections schema index_params ack
   collections2 : pyval)
  (st st1 st2 st3 st4 : R) (t2 : list event) :
  isinstance name TStr = true ->
  list_of TDict fields = true ->
  list_of (TCls Function) funcs = true ->
  list_of TDict indexes = true ->
  respond (list_call self) st = (Ok collections, st1) ->
  valid_listing collections = true ->
  py_in name collections = false ->
  build_schema self fields funcs indexes st1
  = (Ok (schema, index_params), st2, t2) ->
  respond (create_call self name schema index_params) st2 = (Ok ack, st3) ->
  respond (list_call self) st3 = (Ok collections2, st4) ->
  valid_listing collections2 = true ->
  exists fkw ikw : list (list (string * pyval)),
    Forall2 passed_as (items_of fields) fkw
    /\ Forall2 passed_as (items_of indexes) ikw
    /\ remote_calls
         (trace_of (create_collection self name fields funcs indexes st))
       = [list_call self;
          Method (client self) "create_schema" []
                 [("enable_dynamic_field", PBool true)]]
         ++ map (fun kw => Method schema "add_field" [] kw) fkw
         ++ map (fun func => Method schema "add_function" [func] [])
                (items_of funcs)
         ++ [Method (client self) "prepare_index_params" [] []]
         ++ map (fun kw => Method index_params "add_index" [] kw) ikw
         ++ [Method (client self) "create_collection" []
                    [("collection_name", name); ("schema", schema);
                     ("index_params", index_params)];
             list_call self].
Proof.
  intros Hn Hf Hg Hi Hlist Hvalid Hfresh Hbuild Hcreate Hlist2 Hvalid2.
  destruct (build_schema_inv _ _ _ _ _ _ _ _ _ Hbuild)
    as (fkw & ikw & Hfk & Hik & Hcalls).
  exists fkw, ikw. split; [exact Hfk|]. split; [exact Hik|].
  rewrite (create_collection_fresh _ _ _ _ _ _ _ _ _ _ _ _
             Hn Hf Hg Hi Hlist Hvalid Hfresh Hbuild).
  destruct (create_and_check_run _ _ _ _ _ _ _ _ _ Hcreate Hlist2 Hvalid2)
    as (t & Hrun & Ht).
  rewrite Hrun. cbn [trace_of outcome_of snd fst].
  rewrite !remote_calls_app, Hcalls, Ht.
  assert (Hlast : forall o : outcome pyval,
             remote_calls (match o with
                           | Ok _ => []
                           | Raise e => [create_failed name e]
                           end) = []).
  { intros [v|e]; reflexivity. }
  rewrite Hlast, app_nil_r. cbn [listing_events remote_calls creating app].
  unfold add_field_call, add_function_call, add_index_call, create_call.
  rewrite <- !app_assoc. reflexivity.
Qed.

(** *** What a returned value means *)

Lemma checked_Ok_inv (m : M unit) st u st' t :
  checked m -> m st = (Ok u, st', t) -> st' = st /\ t = [].
Proof.
  intros Hm H. destruct (Hm st) as (o & t0 & Hrun & Ho). rewrite Hrun in H.
  inversion H; subst. split; [reflexivity | exact Ho].
Qed.

Lemma remote_Ok_inv c st v st' t :
  remote c st = (Ok v, st', t) -> respond c st = (Ok v, st').
Proof.
  rewrite remote_run. intros H. inversion H.
  destruct (respond c st) as [r s]. cbn in *. subst. reflexivity.
Qed.

Lemma log_then_inv {A} lvl text args (k : M A) st v st' t :
  (log lvl text args ;; k) st = (Ok v, st', t) ->
  exists t2, k st = (Ok v, st', t2) /\ t = EvLog lvl text args :: t2.
Proof.
  intros H. apply bind_inv in H.
  destruct H as ([] & st1 & t1 & t2 & Hlog & Hk & ->).
  rewrite log_run in Hlog. inversion Hlog; subst.
  exists t2. split; [exact Hk | reflexivity].
Qed.

Lemma ret_inv {A} (a v : A) st st' t :
  @ret M Monad_M A a st = (Ok v, st', t) -> v = a /\ st' = st /\ t = [].
Proof. intros H. inversion H. auto. Qed.

(** Past the argument model and the listing of the guard. *)
Lemma guarded_inv {A} self (m : M unit) (k : pyval -> M A) st v st' t :
  checked m ->
  (m ;; collections <- list_collections self ;; k collections) st
  = (Ok v, st', t) ->
  exists collections st1 t2,
    outcome_of (m st) = Ok tt
    /\ respond (list_call self) st = (Ok collections, st1)
    /\ valid_listing collections = true
    /\ k collections st1 = (Ok v, st', t2)
    /\ t = listing_events self collections ++ t2.
Proof.
  intros Hm H. apply bind_inv in H.
  destruct H as ([] & st0 & t0 & t1 & Hmodel & H & ->).
  destruct (checked_Ok_inv _ _ _ _ _ Hm Hmodel) as [-> ->].
  apply bind_inv in H.
  destruct H as (collections & st1 & t2 & t3 & Hl & Hk & ->).
  destruct (list_collections_inv _ _ _ _ _ Hl) as (Hr & Hv & ->).
  exists collections, st1, t3. rewrite Hmodel.
  repeat split; try assumption.
Qed.

Lemma create_and_check_inv self name schema index_params st v st' t :
  create_and_check self name schema index_params st = (Ok v, st', t) ->
  v = PNone
  /\ exists st0 collections,
       respond (list_call self) st0 = (Ok collections, st')
       /\ valid_listing collections = true
       /\ py_in name collections = true.
Proof.
  unfold create_and_check. intros H. apply bind_inv in H.
  destruct H as (ack & st1 & t1 & t2 & _ & H & ->).
  apply bind_inv in H.
  destruct H as (collections & st2 & t3 & t4 & Hl & H & ->).
  destruct (list_collections_inv _ _ _ _ _ Hl) as (Hr & Hv & ->).
  destruct (py_in name collections) eqn:Hin.
  - apply log_then_inv in H. destruct H as (t5 & H & ->).
    apply ret_inv in H. destruct H as (-> & -> & ->).
    split; [reflexivity|]. exists st1, collections. auto.
  - cbv zeta in H. apply bind_inv in H.
    destruct H as ([] & st3 & t5 & t6 & _ & H & ->). discriminate H.
Qed.

Lemma drop_collection_inv self name st v st' t :
  drop_collection self name st = (Ok v, st', t) ->
  v = PNone
  /\ isinstance name TStr = true
  /\ exists st0 collections,
       respond (list_call self) st0 = (Ok collections, st')
       /\ valid_listing collections = true
       /\ py_in name collections = false.
Proof.
  unfold drop_collection. intros H.
  apply guarded_inv in H; [|apply checked_DropCollectionParams].
  destruct H as (collections & st1 & t2 & Hm & Hr & Hv & H & ->).
  apply DropCollectionParams_accepts in Hm.
  destruct (py_in name collections) eqn:Hin; cbn [negb] in H.
  - apply log_then_inv in H. destruct H as (t5 & H & ->).
    apply try_except_inv in H. apply bind_inv in H.
    destruct H as (ack & st2 & t3 & t4 & _ & H & ->).
    apply bind_inv in H.
    destruct H as (collections2 & st3 & t6 & t7 & Hl & H & ->).
    destruct (list_collections_inv _ _ _ _ _ Hl) as (Hr2 & Hv2 & ->).
    destruct (py_in name collections2) eqn:Hin2; cbn [negb] in H.
    + cbv zeta in H. apply bind_inv in H.
      destruct H as ([] & st4 & t8 & t9 & _ & H & ->). discriminate H.
    + apply log_then_inv in H. destruct H as (t8 & H & ->).
      apply ret_inv in H. destruct H as (-> & -> & ->).
      split; [reflexivity|]. split; [exact Hm|].
      exists st2, collections2. auto.
  - apply log_then_inv in H. destruct H as (t5 & H & ->).
    apply ret_inv in H. destruct H as (-> & -> & ->).
    split; [reflexivity|]. split; [exact Hm|]. exists st, collections. auto.
Qed.

(** X10.  What it means that [create_collection] or [drop_collection]
    returns.  The value is [None], the arguments were accepted, and the
    state the world is left in is the state right after a listing that
    the facade validated and in which the name is present (after
    create) or absent (after drop).  This holds on both paths, the
    no-op of the guard and the remote call followed by the post-check,
    and for every world. *)
Theorem lifecycle_postconditions
  (self : MilvusClientInit) (name fields funcs indexes v : pyval)
  (st st' : R) (t : list event) :
  (create_collection self name fields funcs indexes st = (Ok v, st', t) ->
   v = PNone
   /\ create_args_ok name fields funcs indexes = true
   /\ exists st0 collections,
        respond (list_call self) st0 = (Ok collections, st')
        /\ valid_listing collections = true
        /\ py_in name collections = true)
  /\ (drop_collection self name st = (Ok v, st', t) ->
      v = PNone
      /\ isinstance name TStr = true
      /\ exists st0 collections,
           respond (list_call self) st0 = (Ok collections, st')
           /\ valid_listing collections = true
           /\ py_in name collections = false).
Proof.
  split; [|apply drop_collection_inv].
  unfold create_collection. intros H.
  apply guarded_inv in H; [|apply checked_CreateCollectionParams].
  destruct H as (collections & st1 & t2 & Hm & Hr & Hv & H & ->).
  apply CreateCollectionParams_accepts in Hm.
  destruct (py_in name collections) eqn:Hin.
  - apply log_then_inv in H. destruct H as (t5 & H & ->).
    apply ret_inv in H. destruct H as (-> & -> & ->).
    split; [reflexivity|]. split; [exact Hm|]. exists st, collections. auto.
  - apply log_then_inv in H. destruct H as (t5 & H & ->).
    apply try_except_inv in H. apply bind_inv in H.
    destruct H as ([schema index_params] & st2 & t3 & t4 & _ & H & ->).
    destruct (create_and_check_inv _ _ _ _ _ _ _ _ H) as (-> & Hpost).
    split; [reflexivity|]. split; [exact Hm | exact Hpost].
Qed.


(** *** Past the guard *)


Lemma trace_after {A} t1 (r : outcome A * R * list event) :
  trace_of (after t1 r) = t1 ++ trace_of r.
Proof. destruct r as [[o s] t]. reflexivity. Qed.




Section Listed.

Variables (self : MilvusClientInit) (name collections : pyval) (st st1 : R).
Hypothesis Hlist : respond (list_call self) st = (Ok collections, st1).
Hypothesis Hvalid : valid_listing collections = true.
Hypothesis Hpresent : py_in name collections = true.





End Listed.



(** *** The constructor and the two helpers of the schema builder *)

Lemma InitClientParams_run uri0 st :
  InitClientParams uri0 st
  = (if isinstance uri0 TStr then Ok tt
     else Raise (validation_error "InitClientParams" [PStr "uri"]), st, []).
Proof.
  unfold InitClientParams. rewrite BaseModel_quiet by quiet_fields.
  rewrite failed_str. destruct (isinstance uri0 TStr); reflexivity.
Qed.

Lemma init_bad_uri uri0 client0 st :
  isinstance uri0 TStr = false ->
  __init__ uri0 client0 st
  = (Raise (validation_error "InitClientParams" [PStr "uri"]), st, []).
Proof.
  intros H. unfold __init__. apply bind_Raise.
  rewrite InitClientParams_run, H. reflexivity.
Qed.

Lemma init_inv uri0 client0 st self st' t :
  __init__ uri0 client0 st = (Ok self, st', t) ->
  uri self = uri0
  /\ isinstance uri0 TStr = true
  /\ isinstance (client self) (TCls MilvusClient) = true
  /\ match client0 with
     | PNone =>
         respond (New MilvusClient [("uri", uri0)]) st = (Ok (client self), st')
     | _ => client self = client0 /\ st' = st /\ t = []
     end.
Proof.
  intros H. destruct (isinstance uri0 TStr) eqn:Huri.
  2:{ rewrite (init_bad_uri _ _ _ Huri) in H. discriminate H. }
  destruct uri0 as [| | | |u| | | | |]; try discriminate Huri.
  assert (Hc : client0 = PNone \/ client0 <> PNone)
    by (destruct client0; [left; reflexivity | right; discriminate ..]).
  destruct Hc as [->|Hc].
  - destruct (respond (New MilvusClient [("uri", PStr u)]) st) as [r st1] eqn:Hr.
    rewrite (init_without_client u r st st1 Hr) in H.
    destruct r as [c|e]; [|discriminate H].
    destruct (isinstance c (TCls MilvusClient)) eqn:Hi; [|discriminate H].
    inversion H; subst. cbn [uri client]. auto.
  - rewrite (init_with_client u client0 st Hc) in H.
    destruct (isinstance client0 (TCls MilvusClient)) eqn:Hi; [|discriminate H].
    inversion H; subst. cbn [uri client].
    repeat split; try assumption; destruct client0; auto; contradiction.
Qed.

Lemma outcome_after {A} t1 (r : outcome A * R * list event) :
  outcome_of (after t1 r) = outcome_of r.
Proof. destruct r as [[o s] t]. reflexivity. Qed.

Lemma CreateFieldParams_run schema params st :
  CreateFieldParams schema params st
  = if isinstance schema (TCls CollectionSchema)
    then (verdict "CreateFieldParams"
            (if isinstance params TDict then [] else [PStr "params"]), st, [])
    else (Raise (Exn TypeError not_a_schema [FType schema]), st,
          [EvLog Error not_a_schema [LArg (FType schema)]]).
Proof.
  unfold CreateFieldParams, BaseModel.
  cbn [validate_fields fannot fvalue fafter core_validate].
  unfold CreateFieldParams_validate_collection_schema.
  destruct (isinstance schema (TCls CollectionSchema)); [|reflexivity].
  step (require_true not_a_schema [FType schema] st).
  destruct params; reflexivity.
Qed.

Lemma CreateIndexParams_run index_params params st :
  CreateIndexParams index_params params st
  = if isinstance index_params (TCls IndexParams)
    then (verdict "CreateIndexParams"
            (if isinstance params TDict then [] else [PStr "params"]), st, [])
    else (Raise (Exn TypeError not_index_params [FType index_params]), st,
          [EvLog Error not_index_params [LArg (FType index_params)]]).
Proof.
  unfold CreateIndexParams, BaseModel.
  cbn [validate_fields fannot fvalue fafter core_validate].
  unfold CreateIndexParams_validate_index_params.
  destruct (isinstance index_params (TCls IndexParams)); [|reflexivity].
  step (require_true not_index_params [FType index_params] st).
  destruct params; reflexivity.
Qed.

(** The [try] block the two helpers share: pass the entry as keywords to
    one method of one object. *)
Lemma add_entry_calls obj meth params text handler st :
  reporter handler ->
  let run :=
    try_except
      (kwargs <- splat params ;;
       remote (Method obj meth [] kwargs) ;;
       log Info text [])
      handler st in
  (remote_calls (trace_of run) = [] /\ exists e, outcome_of run = Raise e)
  \/ exists kw,
       passed_as params kw
       /\ remote_calls (trace_of run) = [Method obj meth [] kw].
Proof.
  intros Hh. cbv zeta.
  destruct (splat params st) as [[[kw|e] s1] t1] eqn:Hs.
  - right. destruct (splat_inv _ _ _ _ _ Hs) as (Hp & -> & ->).
    exists kw. split; [exact Hp|].
    rewrite (trace_try _ _ _ Hh). step Hs. rewrite after_nil.
    rewrite trace_bind, remote_run.
    destruct (respond (Method obj meth [] kw) st) as [[a|e] s2];
      reflexivity.
  - left. split.
    + rewrite (trace_try _ _ _ Hh), (bind_Raise _ _ _ _ _ _ Hs).
      pose proof (silent_splat params st) as Hc. rewrite Hs in Hc. exact Hc.
    + unfold try_except. rewrite (bind_Raise _ _ _ _ _ _ Hs).
      destruct (Hh e s1) as (lvl & text' & args & Hrun & _). rewrite Hrun.
      exists e. reflexivity.
Qed.


(** X15.  The two helpers of the schema builder call at most once, and
    only the right kind of object.  On every input, [_create_field]
    either raises without a remote call, or makes exactly one call:
    [add_field] on an object that is a [CollectionSchema], with the pairs
    of the entry as keywords.  The same holds for [_create_index],
    [add_index] and [IndexParams]. *)
Theorem schema_helpers_call_at_most_once
  (self : MilvusClientInit) (schema index_params params : pyval) (st : R) :
  (let run := _create_field self schema params st in
   (remote_calls (trace_of run) = [] /\ exists e, outcome_of run = Raise e)
   \/ exists kw,
        isinstance schema (TCls CollectionSchema) = true
        /\ passed_as params kw
        /\ remote_calls (trace_of run) = [Method schema "add_field" [] kw])
  /\
  (let run := _create_index self index_params params st in
   (remote_calls (trace_of run) = [] /\ exists e, outcome_of run = Raise e)
   \/ exists kw,
        isinstance index_params (TCls IndexParams) = true
        /\ passed_as params kw
        /\ remote_calls (trace_of run)
           = [Method index_params "add_index" [] kw]).
Proof.
  split.
  - cbv zeta. unfold _create_field.
    pose proof (CreateFieldParams_run schema params st) as Hm.
    destruct (isinstance schema (TCls CollectionSchema)) eqn:Hs.
    + destruct (isinstance params TDict) eqn:Hp.
      * step Hm.
        step (log_run Info "Creating field for params: {pprint.pformat(params)}"
                [LArg (FVal params)] st).
        rewrite after_nil, trace_after, outcome_after, remote_calls_app.
        cbn [remote_calls app].
        destruct (add_entry_calls schema "add_field" params
                    "Field added to schema"
                    (fun e => log Info "Problem creating field: `{str(e)}`"
                                  [LExn e]) st)
          as [H|(kw & Hk & H)]; [reporters | left; exact H |].
        right. exists kw. auto.
      * left. rewrite (bind_Raise _ _ _ _ _ _ Hm). split; [reflexivity|].
        eexists. reflexivity.
    + left. rewrite (bind_Raise _ _ _ _ _ _ Hm). split; [reflexivity|].
      eexists. reflexivity.
  - cbv zeta. unfold _create_index.
    pose proof (CreateIndexParams_run index_params params st) as Hm.
    destruct (isinstance index_params (TCls IndexParams)) eqn:Hs.
    + destruct (isinstance params TDict) eqn:Hp.
      * step Hm.
        step (log_run Info "Creating index for params: {pprint.pformat(params)}"
                [LArg (FVal params)] st).
        rewrite after_nil, trace_after, outcome_after, remote_calls_app.
        cbn [remote_calls app].
        destruct (add_entry_calls index_params "add_index" params
                    "Index added to index params"
                    (fun e => log Info "Problem creating index params: `{str(e)}`"
                                  [LExn e]) st)
          as [H|(kw & Hk & H)]; [reporters | left; exact H |].
        right. exists kw. auto.
      * left. rewrite (bind_Raise _ _ _ _ _ _ Hm). split; [reflexivity|].
        eexists. reflexivity.
    + left. rewrite (bind_Raise _ _ _ _ _ _ Hm). split; [reflexivity|].
      eexists. reflexivity.
Qed.

(** *** The log of a search *)




(** *** scripts/generate_dataset.py *)

Lemma py_len_inv v st n st' t :
  py_len v st = (Ok n, st', t) -> len_of v = Some n /\ st' = st /\ t = [].
Proof.
  unfold py_len. destruct (len_of v) as [m|]; [|discriminate].
  intros H. inversion H. auto.
Qed.

Lemma char_count_len v n : len_of v = Some n -> char_count v = n.
Proof. unfold char_count. intros ->. reflexivity. Qed.

Lemma repeat_snoc {A} (x : A) n : repeat x n ++ [x] = x :: repeat x n.
Proof. induction n as [|n IH]; [reflexivity|]. cbn. rewrite IH. reflexivity. Qed.

Lemma generate_entries_inv n :
  forall dataset total st r st' t,
    generate_entries n dataset total st = (Ok r, st', t) ->
    exists texts,
      length texts = n
      /\ r = (dataset ++ map text_entry texts, (total + total_chars texts)%Z)
      /\ Forall (answered_by paragraph_call) texts
      /\ Forall (fun text => len_of text <> None) texts
      /\ remote_calls t = repeat paragraph_call n.
Proof.
  induction n as [|n IH]; intros dataset total st r st' t H.
  - cbn [generate_entries] in H. inversion H; subst. exists [].
    cbn. rewrite app_nil_r, Z.add_0_r. repeat split; constructor.
  - cbn [generate_entries] in H. apply bind_inv in H.
    destruct H as (text & st1 & t1 & t2 & Hr & H & ->).
    pose proof (remote_inv _ _ _ _ _ Hr) as ->.
    apply remote_Ok_inv in Hr. cbv zeta in H. apply bind_inv in H.
    destruct H as (c & st2 & t3 & t4 & Hlen & H & ->).
    apply py_len_inv in Hlen. destruct Hlen as (Hlen & -> & ->).
    destruct (IH _ _ _ _ _ _ H) as (texts & Hn & -> & Ha & Hl & Hc).
    exists (text :: texts). cbn [length map total_chars fold_right].
    rewrite (char_count_len _ _ Hlen), <- app_assoc, Z.add_assoc.
    split; [f_equal; exact Hn|]. split; [reflexivity|].
    split; [constructor; [exists st, st1; exact Hr | exact Ha]|].
    split; [constructor; [rewrite Hlen; discriminate | exact Hl]|].
    cbn. rewrite Hc. reflexivity.
Qed.

Lemma generate_queries_inv n :
  forall queries total st r st' t,
    generate_queries n queries total st = (Ok r, st', t) ->
    exists qs,
      length qs = n
      /\ r = (queries ++ qs, (total + total_chars qs)%Z)
      /\ Forall (answered_by sentence_call) qs
      /\ Forall (fun q => len_of q <> None) qs
      /\ remote_calls t = repeat sentence_call n.
Proof.
  induction n as [|n IH]; intros queries total st r st' t H.
  - cbn [generate_queries] in H. inversion H; subst. exists [].
    cbn. rewrite app_nil_r, Z.add_0_r. repeat split; constructor.
  - cbn [generate_queries] in H. apply bind_inv in H.
    destruct H as (q & st1 & t1 & t2 & Hr & H & ->).
    pose proof (remote_inv _ _ _ _ _ Hr) as ->.
    apply remote_Ok_inv in Hr. cbv zeta in H. apply bind_inv in H.
    destruct H as (c & st2 & t3 & t4 & Hlen & H & ->).
    apply py_len_inv in Hlen. destruct Hlen as (Hlen & -> & ->).
    destruct (IH _ _ _ _ _ _ H) as (qs & Hn & -> & Ha & Hl & Hc).
    exists (q :: qs). cbn [length total_chars fold_right].
    rewrite (char_count_len _ _ Hlen), <- app_assoc, Z.add_assoc.
    split; [f_equal; exact Hn|]. split; [reflexivity|].
    split; [constructor; [exists st, st1; exact Hr | exact Ha]|].
    split; [constructor; [rewrite Hlen; discriminate | exact Hl]|].
    cbn. rewrite Hc. reflexivity.
Qed.

Lemma truediv_inv a b st v st' t :
  truediv a b st = (Ok v, st', t) ->
  b <> 0%Z /\ v = PFloat (fdiv a b) /\ st' = st /\ t = [].
Proof.
  unfold truediv. destruct (b =? 0)%Z eqn:Hb; [discriminate|].
  intros H. inversion H. apply Z.eqb_neq in Hb. auto.
Qed.

(** Past the two loops and the two divisions. *)
Lemma generate_dataset_loops num_entries num_queries st v st' t :
  generate_dataset num_entries num_queries st = (Ok v, st', t) ->
  exists dataset dtotal st1 t1 queries qtotal t2,
    generate_entries (Z.to_nat num_entries) [] 0%Z st
    = (Ok (dataset, dtotal), st1, t1)
    /\ generate_queries (Z.to_nat num_queries) [] 0%Z st1
       = (Ok (queries, qtotal), st', t2)
    /\ length dataset <> 0%nat /\ length queries <> 0%nat
    /\ t = t1 ++ t2
    /\ v = PDict
             [(PStr "dataset",
               PDict [(PStr "data", PList dataset);
                      (PStr "total chars", PInt dtotal);
                      (PStr "avg chars",
                       PFloat (fdiv dtotal (Z.of_nat (length dataset))))]);
              (PStr "queries",
               PDict [(PStr "data", PList queries);
                      (PStr "total chars", PInt qtotal);
                      (PStr "avg chars",
                       PFloat (fdiv qtotal (Z.of_nat (length queries))))])].
Proof.
  unfold generate_dataset. intros H. apply bind_inv in H.
  destruct H as ([dataset dtotal] & st1 & t1 & t2 & H1 & H & ->).
  apply bind_inv in H.
  destruct H as ([queries qtotal] & st2 & t3 & t4 & H2 & H & ->).
  apply bind_inv in H. destruct H as (davg & st3 & t5 & t6 & Hd & H & ->).
  apply bind_inv in H. destruct H as (qavg & st4 & t7 & t8 & Hq & H & ->).
  apply truediv_inv in Hd. destruct Hd as (Hdn & -> & -> & ->).
  apply truediv_inv in Hq. destruct Hq as (Hqn & -> & -> & ->).
  inversion H; subst.
  exists dataset, dtotal, st1, t1, queries, qtotal, t3.
  split; [exact H1|]. split; [exact H2|].
  split; [lia|]. split; [lia|].
  split; [cbn; rewrite !app_nil_r; reflexivity | reflexivity].
Qed.

Lemma all_text_entries texts :
  all_isinstance (map text_entry texts) TDict = true.
Proof. induction texts as [|x texts IH]; [reflexivity | exact IH]. Qed.

Lemma answers_are_strings c items :
  (forall v, answered_by c v -> isinstance v TStr = true) ->
  Forall (answered_by c) items -> all_isinstance items TStr = true.
Proof.
  intros Hc H. induction H as [|x items Hx _ IH]; [reflexivity|].
  unfold all_isinstance in *. cbn [forallb]. rewrite (Hc x Hx), IH.
  reflexivity.
Qed.

(** With a Faker that gives strings, the loops run to their end. *)
Lemma generate_entries_run n :
  faker_gives_strings ->
  forall dataset total st,
    exists dataset' total' st' t,
      generate_entries n dataset total st = (Ok (dataset', total'), st', t)
      /\ length dataset' = (length dataset + n)%nat.
Proof.
  intros Hf. induction n as [|n IH]; intros dataset total st.
  - exists dataset, total, st, []. split; [reflexivity | lia].
  - cbn [generate_entries].
    destruct (Hf paragraph_call st (or_introl eq_refl)) as (s & st1 & Hr).
    step (remote_Ok _ _ _ _ Hr). cbv zeta.
    step (eq_refl : py_len (PStr s) st1
                    = (Ok (Z.of_nat (String.length s)), st1, [])).
    destruct (IH (dataset ++ [PDict [(PStr "text", PStr s)]])
                 (total + Z.of_nat (String.length s))%Z st1)
      as (d' & tot' & st' & t & Hrun & Hlen).
    rewrite Hrun. do 4 eexists. split; [reflexivity|].
    rewrite Hlen, length_app. cbn. lia.
Qed.

Lemma generate_queries_run n :
  faker_gives_strings ->
  forall queries total st,
    exists queries' total' st' t,
      generate_queries n queries total st = (Ok (queries', total'), st', t)
      /\ length queries' = (length queries + n)%nat.
Proof.
  intros Hf. induction n as [|n IH]; intros queries total st.
  - exists queries, total, st, []. split; [reflexivity | lia].
  - cbn [generate_queries].
    destruct (Hf sentence_call st (or_intror eq_refl)) as (s & st1 & Hr).
    step (remote_Ok _ _ _ _ Hr). cbv zeta.
    step (eq_refl : py_len (PStr s) st1
                    = (Ok (Z.of_nat (String.length s)), st1, [])).
    destruct (IH (queries ++ [PStr s])
                 (total + Z.of_nat (String.length s))%Z st1)
      as (q' & tot' & st' & t & Hrun & Hlen).
    rewrite Hrun. do 4 eexists. split; [reflexivity|].
    rewrite Hlen, length_app. cbn. lia.
Qed.

Lemma truediv_run a b st :
  truediv a b st
  = if (b =? 0)%Z then (Raise ZeroDivisionError, st, [])
    else (Ok (PFloat (fdiv a b)), st, []).
Proof. unfold truediv. destruct (b =? 0)%Z; reflexivity. Qed.

Lemma generate_dataset_run num_entries num_queries st :
  faker_gives_strings ->
  if ((0 <? num_entries) && (0 <? num_queries))%Z
  then exists v st' t,
         generate_dataset num_entries num_queries st = (Ok v, st', t)
  else exists st' t,
         generate_dataset num_entries num_queries st
         = (Raise ZeroDivisionError, st', t).
Proof.
  intros Hf. unfold generate_dataset.
  destruct (generate_entries_run (Z.to_nat num_entries) Hf [] 0%Z st)
    as (d & dt & st1 & t1 & H1 & Hl1).
  destruct (generate_queries_run (Z.to_nat num_queries) Hf [] 0%Z st1)
    as (q & qt & st2 & t2 & H2 & Hl2).
  step H1. cbv beta iota. step H2. cbv beta iota.
  cbn [length Nat.add] in Hl1, Hl2.
  pose proof (truediv_run dt (Z.of_nat (length d)) st2) as Hd.
  pose proof (truediv_run qt (Z.of_nat (length q)) st2) as Hq.
  rewrite Hl1 in Hd. rewrite Hl2 in Hq. rewrite Hl1, Hl2.
  destruct (0 <? num_entries)%Z eqn:E1; cbn [andb].
  - apply Z.ltb_lt in E1.
    replace (Z.of_nat (Z.to_nat num_entries) =? 0)%Z with false in Hd
      by (symmetry; apply Z.eqb_neq; lia).
    step Hd.
    destruct (0 <? num_queries)%Z eqn:E2.
    + apply Z.ltb_lt in E2.
      replace (Z.of_nat (Z.to_nat num_queries) =? 0)%Z with false in Hq
        by (symmetry; apply Z.eqb_neq; lia).
      step Hq. do 3 eexists. reflexivity.
    + apply Z.ltb_ge in E2.
      replace (Z.of_nat (Z.to_nat num_queries) =? 0)%Z with true in Hq
        by (symmetry; apply Z.eqb_eq; lia).
      rewrite (bind_Raise _ _ _ _ _ _ Hq). do 2 eexists. reflexivity.
  - apply Z.ltb_ge in E1.
    replace (Z.of_nat (Z.to_nat num_entries) =? 0)%Z with true in Hd
      by (symmetry; apply Z.eqb_eq; lia).
    rewrite (bind_Raise _ _ _ _ _ _ Hd). do 2 eexists. reflexivity.
Qed.


(** X18.  [generate_dataset] needs positive counts.  With a Faker that
    always answers with a string, it returns when both counts are
    positive, and raises [ZeroDivisionError] when one of them is zero or
    negative: the average is taken over an empty list. *)
Theorem generate_dataset_needs_positive_counts
  (num_entries num_queries : Z) (st : R) :
  faker_gives_strings ->
  ((0 < num_entries)%Z /\ (0 < num_queries)%Z ->
   exists v st' t,
     generate_dataset num_entries num_queries st = (Ok v, st', t))
  /\ ((num_entries <= 0)%Z \/ (num_queries <= 0)%Z ->
      exists st' t,
        generate_dataset num_entries num_queries st
        = (Raise ZeroDivisionError, st', t)).
Proof.
  intros Hf.
  pose proof (generate_dataset_run num_entries num_queries st Hf) as H.
  split.
  - intros [H1 H2]. apply Z.ltb_lt in H1. apply Z.ltb_lt in H2.
    rewrite H1, H2 in H. exact H.
  - intros Hle.
    destruct (0 <? num_entries)%Z eqn:E1; [|exact H].
    destruct (0 <? num_queries)%Z eqn:E2; [|exact H].
    apply Z.ltb_lt in E1. apply Z.ltb_lt in E2. lia.
Qed.

(** X19.  What [generate_dataset] returns can be handed to the facade,
    as [latency_test.py] does: the entry [data] of its [dataset] is
    accepted by [insert] as records, and, when the Faker's sentences are
    strings, the entry [data] of its [queries] is accepted by
    [full_text_search] as queries (with the limit 5 of the script), for
    every collection name that is a string. *)
Theorem generated_data_is_accepted_by_the_facade
  (num_entries num_queries : Z) (st st' : R) (v : pyval) (t : list event) :
  (forall q, answered_by sentence_call q -> isinstance q TStr = true) ->
  generate_dataset num_entries num_queries st = (Ok v, st', t) ->
  exists data queries rest1 rest2,
    v = PDict [(PStr "dataset", PDict ((PStr "data", data) :: rest1));
               (PStr "queries", PDict ((PStr "data", queries) :: rest2))]
    /\ forall name,
         isinstance name TStr = true ->
         insert_args_ok name data = true
         /\ search_args_ok name queries (PInt 5) = true.
Proof.
  intros Hs H.
  destruct (generate_dataset_loops _ _ _ _ _ _ H)
    as (dataset & dtotal & st1 & t1 & queries & qtotal & t2
        & H1 & H2 & _ & _ & _ & ->).
  destruct (generate_entries_inv _ _ _ _ _ _ _ H1)
    as (texts & _ & E1 & _ & _ & _).
  destruct (generate_queries_inv _ _ _ _ _ _ _ H2)
    as (qs & _ & E2 & Hq & _ & _).
  inversion E1; subst dataset dtotal. inversion E2; subst queries qtotal.
  cbn [app]. do 4 eexists. split; [reflexivity|].
  intros name Hn. unfold insert_args_ok, search_args_ok, seq_of.
  cbn [lax_sequence int_like]. rewrite Hn, all_text_entries.
  rewrite (answers_are_strings _ _ Hs Hq). split; reflexivity.
Qed.

(** *** scripts/milvus_test.py *)

(** X20.  The test script cleans up after itself.  If
    [scripts/milvus_test.py] runs to its end, against any world and with
    any field and function defaults, it leaves the world in the state
    that followed a listing, asked through the handle the script
    connected at the default URI and validated by the facade, in which
    [collection_ex] does not appear. *)
Theorem milvus_test_leaves_no_collection (st st' : R) (t : list event) :
  milvus_test st = (Ok tt, st', t) ->
  exists self st0 collections,
    uri self = PStr "http://localhost:19530"
    /\ isinstance (client self) (TCls MilvusClient) = true
    /\ respond (list_call self) st0 = (Ok collections, st')
    /\ valid_listing collections = true
    /\ py_in (PStr "collection_ex") collections = false.
Proof.
  unfold milvus_test. intros H.
  apply log_then_inv in H. destruct H as (t0 & H & ->).
  apply bind_inv in H. destruct H as (self & st1 & t1 & t2 & Hinit & H & ->).
  destruct (init_inv _ _ _ _ _ _ Hinit) as (Huri & _ & Hclient & _).
  cbv zeta in H.
  apply bind_inv in H. destruct H as (colls & st2 & t3 & t4 & _ & H & ->).
  apply bind_inv in H. destruct H as ([] & st3 & t5 & t6 & _ & H & ->).
  apply bind_inv in H. destruct H as (v1 & st4 & t7 & t8 & _ & H & ->).
  apply bind_inv in H. destruct H as (v2 & st5 & t9 & t10 & _ & H & ->).
  apply bind_inv in H. destruct H as (v3 & st6 & t11 & t12 & _ & H & ->).
  apply bind_inv in H. destruct H as (v4 & st7 & t13 & t14 & Hdrop & H & ->).
  rewrite log_run in H. inversion H; subst.
  destruct (drop_collection_inv _ _ _ _ _ _ Hdrop)
    as (_ & _ & st0 & collections & Hr & Hv & Hin).
  exists self, st0, collections. auto.
Qed.

End Facade.

Arguments outcome_of {R A} r.
Arguments state_of {R A} r.
Arguments trace_of {R A} r.

(* ===================================================================== *)
(** ** The properties at work on the in-memory server *)
(* ===================================================================== *)

(** C1. A query list given as a set of strings, which is not a list,
    passes [FullTextSearchParams]: pydantic turns it into a list before
    the validator of [query_list] tests [isinstance(v, list)].  The
    operation then calls the remote listing and the remote search with
    the set, and returns normally. *)
Theorem set_of_queries_reaches_the_remote :
  let queries := PSet [PStr "What's the focus of information retrieval?"] in
  let run :=
    full_text_search Fake.state Fake.respond Fake.int_of_str Fake.me
      Defaults.collection_name queries Defaults.lim_results
      ["collection_ex"] in
  isinstance queries TList = false
  /\ FullTextSearchParams Fake.state Fake.int_of_str
       Defaults.collection_name queries Defaults.lim_results
       ["collection_ex"]
     = (Ok tt, ["collection_ex"], [])
  /\ outcome_of run = Ok Fake.one_hit
  /\ remote_calls (trace_of run)
     = [list_call Fake.me;
        search_call Fake.me Defaults.collection_name queries
                    Defaults.lim_results].
Proof.
  intros queries run. split; [reflexivity|]. split.
  - exact (FullTextSearchParams_takes_sequences
             Fake.state Fake.int_of_str Defaults.collection_name queries
             [PStr "What's the focus of information retrieval?"] 3
             ["collection_ex"] eq_refl eq_refl eq_refl).
  - split; reflexivity.
Qed.

(** The default query on the default collection: one search, whose
    result comes back. *)
Lemma full_text_search_delegates_once_witness :
  let run :=
    full_text_search Fake.state Fake.respond Fake.int_of_str Fake.me
      Defaults.collection_name Defaults.query_list Defaults.lim_results
      ["collection_ex"] in
  py_in Defaults.collection_name (PList [PStr "collection_ex"]) = true
  /\ calls_to "search" (trace_of run)
     = [search_call Fake.me Defaults.collection_name Defaults.query_list
                    Defaults.lim_results]
  /\ outcome_of run = Ok Fake.one_hit.
Proof.
  split; [reflexivity|].
  pose proof (full_text_search_delegates_once
                Fake.state Fake.respond Fake.int_of_str Fake.me
                Defaults.collection_name Defaults.query_list
                (PList [PStr "collection_ex"]) 3
                ["collection_ex"] ["collection_ex"] ["collection_ex"]
                (Ok Fake.one_hit)
                eq_refl eq_refl eq_refl eq_refl eq_refl eq_refl) as H.
  split; [exact (proj1 H)|exact (proj2 (proj2 H))].
Defined.

(** Deleting from a collection that an empty server does not have. *)
Lemma missing_collection_returns_None_witness :
  py_in Defaults.collection_name (PList []) = false
  /\ delete Fake.state Fake.respond Fake.int_of_str Fake.me
       (PList [PStr "1"]) Defaults.collection_name []
     = (Ok PNone, [],
        [EvCall (list_call Fake.me);
         EvLog Info "Available collections: {pprint.pformat(collections)}"
               [LArg (FVal (PList []))];
         EvLog Info "Cannot find collection `{name}`."
               [LArg (FVal Defaults.collection_name)]]).
Proof.
  split; [reflexivity|].
  exact (proj1 (proj2 (proj2
           (missing_collection_returns_None
              Fake.state Fake.respond Fake.int_of_str Fake.me
              Defaults.collection_name (PList []) Defaults.data_ex
              (PList [PStr "1"]) Defaults.query_list 3 [] []
              eq_refl eq_refl eq_refl eq_refl eq_refl eq_refl eq_refl)))).
Defined.

(** Creating the default collection when the server already has it. *)
Lemma create_collection_existing_is_no_op_witness :
  py_in Defaults.collection_name (PList [PStr "collection_ex"]) = true
  /\ remote_calls
       (trace_of
          (create_collection Fake.state Fake.respond Fake.int_of_str Fake.me
             Defaults.collection_name Fake.fields_ex Fake.funcs_ex
             Defaults.index_params_list ["collection_ex"]))
     = [list_call Fake.me].
Proof.
  split; [reflexivity|].
  exact (proj2 (create_collection_existing_is_no_op
                  Fake.state Fake.respond Fake.int_of_str Fake.me
                  Defaults.collection_name Fake.fields_ex Fake.funcs_ex
                  Defaults.index_params_list (PList [PStr "collection_ex"])
                  ["collection_ex"] ["collection_ex"]
                  eq_refl eq_refl eq_refl eq_refl eq_refl eq_refl eq_refl)).
Defined.

(** Creating the default collection on an empty server: the second
    listing has the name and the operation returns. *)
Lemma post_check_raises_iff_change_not_observed_witness :
  py_in Defaults.collection_name (PList []) = false
  /\ outcome_of
       (create_collection Fake.state Fake.respond Fake.int_of_str Fake.me
          Defaults.collection_name Fake.fields_ex Fake.funcs_ex
          Defaults.index_params_list [])
     = Ok PNone.
Proof.
  split; [reflexivity|].
  eapply (proj1 (post_check_raises_iff_change_not_observed
                   Fake.state Fake.respond Fake.int_of_str)
            Fake.me Defaults.collection_name Fake.fields_ex Fake.funcs_ex
            Defaults.index_params_list (PList [])
            (PObj CollectionSchema []) (PObj IndexParams []) PNone
            (PList [PStr "collection_ex"]) [] [] [] ["collection_ex"]
            ["collection_ex"]);
    reflexivity.
Defined.

(** Inserting the example data: exactly one sleep, of half a second. *)
Lemma insert_and_delete_sleep_before_returning_witness :
  py_in Defaults.collection_name (PList [PStr "collection_ex"]) = true
  /\ filter is_sleep
       (trace_of
          (insert Fake.state Fake.respond Fake.int_of_str Fake.me
             Defaults.collection_name Defaults.data_ex ["collection_ex"]))
     = [EvSleep (PFloat 0.5)].
Proof.
  split; [reflexivity|].
  rewrite (proj1 (insert_and_delete_sleep_before_returning
                    Fake.state Fake.respond Fake.int_of_str)
             Fake.me Defaults.collection_name (PList [PStr "collection_ex"])
             Defaults.data_ex (PDict [(PStr "insert_count", PInt 5)])
             ["collection_ex"] ["collection_ex"] ["collection_ex"]
             eq_refl eq_refl eq_refl eq_refl eq_refl eq_refl).
  reflexivity.
Defined.

(** The two example fields reach [add_field] as they were written. *)
Lemma schema_builder_passes_entries_through_witness :
  calls_to "add_field"
    (trace_of
       (create_collection Fake.state Fake.respond Fake.int_of_str Fake.me
          Defaults.collection_name Fake.fields_ex Fake.funcs_ex
          Defaults.index_params_list []))
  = [Method (PObj CollectionSchema []) "add_field" []
       [("field_name", PStr "id"); ("is_primary", PBool true);
        ("auto_id", PBool true)];
     Method (PObj CollectionSchema []) "add_field" []
       [("field_name", PStr "text"); ("max_length", PInt 1000);
        ("enable_analyzer", PBool true)]].
Proof.
  destruct (schema_builder_passes_entries_through
              Fake.state Fake.respond Fake.int_of_str Fake.me
              Defaults.collection_name Fake.fields_ex Fake.funcs_ex
              Defaults.index_params_list (PList [])
              (PObj CollectionSchema []) (PObj IndexParams []) [] [] []
              _ eq_refl eq_refl eq_refl eq_refl eq_refl eq_refl eq_refl eq_refl)
    as (fkw & ikw & _ & _ & _ & _).
  reflexivity.
Defined.

(** Handing the constructor a client: it is stored as it is. *)
Lemma constructor_validates_or_connects_witness :
  PObj MilvusClient [] <> PNone
  /\ __init__ Fake.state Fake.respond Fake.int_of_str Defaults.uri
       (PObj MilvusClient []) []
     = (Ok Fake.me, [], []).
Proof.
  assert (PObj MilvusClient [] <> PNone) as Hc by discriminate.
  split; [exact Hc|].
  exact (proj1 (constructor_validates_or_connects
                  Fake.state Fake.respond Fake.int_of_str)
           "http://localhost:19530" (PObj MilvusClient []) [] Hc eq_refl).
Defined.





(** A name that is not a string: pydantic's error leaves [insert]
    without a log line. *)
Lemma failures_are_logged_witness :
  let e := validation_error "InsertParams" [PStr "name"] in
  insert Fake.state Fake.respond Fake.int_of_str Fake.me
    (PInt 1) Defaults.data_ex []
  = (Raise e, [], [])
  /\ ((ekind e = ValidationError /\ @nil string = [] /\ @nil event = [])
      \/ logged_last e []).
Proof.
  split; [reflexivity|].
  exact (proj1 (proj2 (proj2 (proj2 (proj2
           (failures_are_logged Fake.state Fake.respond Fake.int_of_str
              Fake.me PNone PNone (PInt 1) PNone PNone PNone Defaults.data_ex
              PNone PNone PNone [] []
              (validation_error "InsertParams" [PStr "name"]) [])))))
           eq_refl).
Defined.

(** A field entry with a key that is not a string cannot be passed as
    keywords: the schema builder raises and nothing is created. *)
Lemma unbuilt_schema_is_never_submitted_witness :
  calls_to "create_collection"
    (trace_of
       (create_collection Fake.state Fake.respond Fake.int_of_str Fake.me
          Defaults.collection_name (PList [PDict [(PInt 1, PStr "id")]])
          (PList []) (PList []) []))
  = [].
Proof.
  eapply proj2.
  eapply (unbuilt_schema_is_never_submitted
            Fake.state Fake.respond Fake.int_of_str Fake.me
            Defaults.collection_name (PList [PDict [(PInt 1, PStr "id")]])
            (PList []) (PList []) (PList []) [] [] []);
    reflexivity.
Defined.

(** Creating the example collection on an empty server. *)
Lemma create_collection_conversation_witness :
  exists fkw ikw : list (list (string * pyval)),
    Forall2 passed_as (items_of Fake.fields_ex) fkw
    /\ Forall2 passed_as (items_of Defaults.index_params_list) ikw
    /\ remote_calls
         (trace_of
            (create_collection Fake.state Fake.respond Fake.int_of_str Fake.me
               Defaults.collection_name Fake.fields_ex Fake.funcs_ex
               Defaults.index_params_list []))
       = [list_call Fake.me;
          Method (client Fake.me) "create_schema" []
                 [("enable_dynamic_field", PBool true)]]
         ++ map (fun kw => Method (PObj CollectionSchema []) "add_field" [] kw)
                fkw
         ++ map (fun func =>
                   Method (PObj CollectionSchema []) "add_function" [func] [])
                (items_of Fake.funcs_ex)
         ++ [Method (client Fake.me) "prepare_index_params" [] []]
         ++ map (fun kw => Method (PObj IndexParams []) "add_index" [] kw) ikw
         ++ [Method (client Fake.me) "create_collection" []
                    [("collection_name", Defaults.collection_name);
                     ("schema", PObj CollectionSchema []);
                     ("index_params", PObj IndexParams [])];
             list_call Fake.me].
Proof.
  eapply (create_collection_conversation
            Fake.state Fake.respond Fake.int_of_str Fake.me
            Defaults.collection_name Fake.fields_ex Fake.funcs_ex
            Defaults.index_params_list (PList [])
            (PObj CollectionSchema []) (PObj IndexParams []) PNone
            (PList [PStr "collection_ex"])
            [] [] [] ["collection_ex"] ["collection_ex"]);
    reflexivity.
Defined.

(** Dropping the example collection from a server that has it. *)
Lemma lifecycle_postconditions_witness :
  exists st0 collections,
    Fake.respond (list_call Fake.me) st0 = (Ok collections, [])
    /\ valid_listing collections = true
    /\ py_in Defaults.collection_name collections = false.
Proof.
  refine (proj2 (proj2 (proj2 (lifecycle_postconditions
            Fake.state Fake.respond Fake.int_of_str Fake.me
            Defaults.collection_name PNone PNone PNone PNone
            ["collection_ex"] [] _) eq_refl))).
Defined.






Lemma Lorem_gives_strings :
  faker_gives_strings nat Lorem.respond Lorem.fake.
Proof.
  intros c st [-> | ->]; do 2 eexists; reflexivity.
Defined.

(** No query asked for: the average of the queries divides by zero. *)
Lemma generate_dataset_needs_positive_counts_witness :
  exists st' t,
    generate_dataset nat Lorem.respond Lorem.fake Lorem.fdiv 3 0 0%nat
    = (Raise ZeroDivisionError, st', t).
Proof.
  refine (proj2 (generate_dataset_needs_positive_counts
                   nat Lorem.respond Lorem.fake Lorem.fdiv 3 0 0%nat
                   Lorem_gives_strings) _).
  right. lia.
Defined.

(** The generated queries pass the check of [full_text_search]. *)
Lemma generated_data_is_accepted_by_the_facade_witness :
  exists data queries rest1 rest2,
    outcome_of
      (generate_dataset nat Lorem.respond Lorem.fake Lorem.fdiv 2 1 0%nat)
    = Ok (PDict [(PStr "dataset", PDict ((PStr "data", data) :: rest1));
                 (PStr "queries", PDict ((PStr "data", queries) :: rest2))])
    /\ search_args_ok Fake.int_of_str Defaults.collection_name queries
         (PInt 5) = true.
Proof.
  assert (Hs : forall q,
             answered_by nat Lorem.respond (sentence_call Lorem.fake) q ->
             isinstance q TStr = true).
  { intros q (st0 & st1 & H). inversion H. reflexivity. }
  destruct (generated_data_is_accepted_by_the_facade
              nat Lorem.respond Fake.int_of_str Lorem.fake Lorem.fdiv
              2 1 0%nat _ _ _ Hs eq_refl)
    as (data & queries & rest1 & rest2 & Hv & Hok).
  exists data, queries, rest1, rest2.
  split; [rewrite <- Hv; reflexivity|].
  exact (proj2 (Hok Defaults.collection_name eq_refl)).
Defined.

(** The script against the in-memory server, started empty. *)
Lemma milvus_test_leaves_no_collection_witness :
  exists self st0 collections,
    uri self = PStr "http://localhost:19530"
    /\ isinstance (client self) (TCls MilvusClient) = true
    /\ Fake.respond (list_call self) st0 = (Ok collections, [])
    /\ valid_listing collections = true
    /\ py_in (PStr "collection_ex") collections = false.
Proof.
  exact (milvus_test_leaves_no_collection
           Fake.state Fake.respond Fake.int_of_str
           Fake.fields_ex (PObj Function []) [] [] _ eq_refl).
Defined.



(** The failure of a server that is down is the one [insert] raises. *)
Lemma failures_are_accounted_witness :
  accounted unit Down.respond Down.failure
    (trace_of
       (insert unit Down.respond Fake.int_of_str Fake.me
          Defaults.collection_name Defaults.data_ex tt)).
Proof.
  exact (proj1 (proj2 (proj2 (proj2 (proj2
           (failures_are_accounted unit Down.respond Fake.int_of_str Fake.me
              PNone PNone Defaults.collection_name PNone PNone PNone
              Defaults.data_ex PNone PNone PNone)))))
           tt Down.failure tt _ eq_refl).
Defined.

